(** * VC-Prep-Agent: document parser, deck builders, quality pass, search client

    A shallow embedding of the text-processing core of the agents under
    [Agents/]: the thesis/strategy markdown parsers and the three-bullet
    condensation of [POWERPOINT_VC_AGENT] and [POWERPOINT_NETWORKING_AGENT],
    the heuristic checks of [FinalPass_agent], the DuckDuckGo search
    wrapper of the research agents, the names of the files that the agents
    write, and the argument parsing of the two commands of [TelegramVCBot].

    Modelling conventions.
    - A Python [str] is a [string]; one [ascii] stands for one code point, so
      the model covers the code points below 256.  [len] is [String.length].
    - A Python [int] is a [Z]; [int] of a string has the interpreter's
      limit on the number of digits.
    - An exception is the name of its class and its message; the classes
      that are no [Exception] are told apart, since the handlers of the
      search client take instances of [Exception] only.
    - The language model and the search provider are external: each is an
      oracle that either replies or raises.  The calls made to the language
      model are logged in the state, so that "no call was made" is a
      statement about the log.
    - [re] is modelled by a backtracking matcher over a regex syntax tree that
      follows the priority rules of the Python engine (leftmost start, greedy
      and lazy repetition, alternatives in order, look-ahead).
    - A deck is the list of its slides; a slide is the list of its shapes
      plus its speaker notes.  The text of a paragraph and of the notes is
      the text that python-pptx gives back, which differs from the text
      assigned where that has control characters.  Fonts, colours and
      geometry carry no text and are left out, as are the progress messages
      that the deck builders and the quality pass print. *)

From Stdlib Require Import String Ascii List ZArith NArith Lia Bool Arith.
From Stdlib Require Import DecimalString.
Import ListNotations.
Open Scope string_scope.
Open Scope list_scope.

(* ===================================================================== *)
(** * Python string primitives *)
(* ===================================================================== *)

Module Py.

(** [chr(10)], the line separator used by every [split('\n')]. *)
Definition LF : ascii := "010"%char.
Definition nl : string := String LF "".
(** The double quote, for prompts that quote the bullet marker. *)
Definition dq : string := String "034"%char "".

(** [c.isspace()] for a code point below 256; the same set is matched by
    [\s] in a [str] pattern. *)
Definition isspace (c : ascii) : bool :=
  let n := N_of_ascii c in
  ((9 <=? n) && (n <=? 13) || (28 <=? n) && (n <=? 32)
   || (n =? 133) || (n =? 160))%N.

(** [\d] in a [str] pattern, for a code point below 256. *)
Definition isdigit (c : ascii) : bool :=
  let n := N_of_ascii c in ((48 <=? n) && (n <=? 57))%N.

Definition is_empty (s : string) : bool :=
  match s with "" => true | _ => false end.

(** Truthiness of a [str]: [if s:]. *)
Definition truthy (s : string) : bool := negb (is_empty s).

Fixpoint lstrip (s : string) : string :=
  match s with
  | "" => ""
  | String c r => if isspace c then lstrip r else s
  end.

Fixpoint rstrip (s : string) : string :=
  match s with
  | "" => ""
  | String c r =>
      let r' := rstrip r in
      if is_empty r' && isspace c then "" else String c r'
  end.

(** [s.strip()] *)
Definition strip (s : string) : string := rstrip (lstrip s).

(** [s.startswith(p)] *)
Fixpoint startswith (p s : string) : bool :=
  match p with
  | "" => true
  | String a p' =>
      match s with
      | "" => false
      | String b s' => Ascii.eqb a b && startswith p' s'
      end
  end.

(** [s[n:]] for [n >= 0] *)
Fixpoint slice_from (n : nat) (s : string) : string :=
  match n with
  | 0 => s
  | S n' => match s with "" => "" | String _ r => slice_from n' r end
  end.

(** [s[:n]] for [n >= 0] *)
Fixpoint slice_to (n : nat) (s : string) : string :=
  match n with
  | 0 => ""
  | S n' => match s with "" => "" | String c r => String c (slice_to n' r) end
  end.

(** [sub in s] *)
Fixpoint contains (sub s : string) : bool :=
  startswith sub s ||
  match s with "" => false | String _ r => contains sub r end.

(** [s.split(sep)] for a one-character separator: never the empty list. *)
Fixpoint split_on (sep : ascii) (s : string) : list string :=
  match s with
  | "" => [""]
  | String c r =>
      if Ascii.eqb c sep then "" :: split_on sep r
      else match split_on sep r with
           | [] => [String c ""]
           | w :: ws => String c w :: ws
           end
  end.

(** [s.split('\n')] *)
Definition split_lines (s : string) : list string := split_on LF s.

(** [s.split(':', 1)[1]] when [':' in s]: the text after the first colon. *)
Fixpoint after_first (sep : ascii) (s : string) : option string :=
  match s with
  | "" => None
  | String c r => if Ascii.eqb c sep then Some r else after_first sep r
  end.

(** [str(n)] *)
Definition str_of_int (n : Z) : string :=
  NilZero.string_of_int (Z.to_int n).

(** What a call can do besides returning: raise an exception, given by
    the name of its class and by its message. *)
Record exn := Exn { exn_type : string; exn_msg : string }.

Inductive outcome (A : Type) :=
| Ok (a : A)
| Raised (e : exn).
Arguments Ok {A} a.
Arguments Raised {A} e.

(** The built-in classes that derive from [BaseException] without being an
    [Exception]; an [except Exception] clause lets their instances pass. *)
Definition base_only : list string :=
  [ "BaseException"; "KeyboardInterrupt"; "SystemExit"; "GeneratorExit";
    "CancelledError" ].

(** [isinstance(e, Exception)] *)
Definition is_exception (e : exn) : bool :=
  negb (existsb (String.eqb (exn_type e)) base_only).

(** [int(s)] on a string of decimal digits.  The interpreter refuses a
    string of more than [sys.int_info.default_max_str_digits] digits,
    leading zeros included, with a [ValueError]. *)
Definition digit_value (c : ascii) : Z := Z.of_N (N_of_ascii c) - 48.
Definition max_str_digits : nat := 4300.
Definition int_of_digits (s : string) : outcome Z :=
  if (max_str_digits <? String.length s)%nat
  then Raised (Exn "ValueError"
                   "Exceeds the limit (4300 digits) for integer string conversion")
  else Ok (fold_left (fun acc c => (10 * acc + digit_value c)%Z)
                     (list_ascii_of_string s) 0%Z).

(** [c.lower()] for a code point below 256: the letters A to Z and the
    capital letters of the Latin-1 block (192 to 222, the multiplication
    sign 215 apart) move up by 32. *)
Definition lower_char (c : ascii) : ascii :=
  let n := N_of_ascii c in
  if ((65 <=? n) && (n <=? 90)
      || (192 <=? n) && (n <=? 222) && negb (n =? 215))%N
  then ascii_of_N (n + 32) else c.

Fixpoint map_chars (f : ascii -> ascii) (s : string) : string :=
  match s with
  | "" => ""
  | String c r => String (f c) (map_chars f r)
  end.

(** [s.lower()], for a text of code points below 256; beyond them
    [lower] is no character-by-character map (U+0130 gives two code
    points). *)
Definition lower (s : string) : string := map_chars lower_char s.

(** [s.replace(a, b)] for one-character [a] and [b]. *)
Definition replace_char (a b : ascii) (s : string) : string :=
  map_chars (fun c => if Ascii.eqb c a then b else c) s.

(** [sep.join(l)] *)
Definition join (sep : string) (l : list string) : string :=
  String.concat sep l.




End Py.

(* ===================================================================== *)
(** * The fragment of [re] used by the agents *)
(* ===================================================================== *)

Module Re.
Import Py.

Inductive regex :=
| Lit (s : string)                       (* literal text *)
| Cls (p : ascii -> bool)                (* one character of a class *)
| Cat (r1 r2 : regex)
| Alt (r1 r2 : regex)                    (* r1|r2 *)
| Rep (greedy : bool) (least : nat) (r : regex)
                                         (* r*, r+ and their lazy forms *)
| Grp (i : nat) (r : regex)              (* capturing group number i *)
| Ahead (r : regex)                      (* (?=r), r without groups *)
| Bol (multiline : bool)                 (* ^ *)
| Eol (multiline : bool).                (* $ *)

(** Concatenation is written [r1 +> r2]. *)
Declare Scope regex_scope.
Delimit Scope regex_scope with re.
Bind Scope regex_scope with regex.
Infix "+>" := Cat (at level 60, right associativity) : regex_scope.

(** [.] with and without [re.DOTALL]. *)
Definition dot (dotall : bool) : regex :=
  Cls (fun c => dotall || negb (Ascii.eqb c LF)).
Definition digit : regex := Cls isdigit.
Definition space : regex := Cls isspace.
Definition star (r : regex) : regex := Rep true 0 r.
Definition plus (r : regex) : regex := Rep true 1 r.
Definition lazy_star (r : regex) : regex := Rep false 0 r.
Definition lazy_plus (r : regex) : regex := Rep false 1 r.

(** A position in the subject: its offset, the character before it and
    the text from it on. *)
Record cursor := Cursor { pos : nat; prev : option ascii; rest : string }.

Definition start_of (s : string) : cursor := Cursor 0 None s.

(** Consume the literal [s] at [c]. *)
Fixpoint eat (s : string) (c : cursor) : option cursor :=
  match s with
  | "" => Some c
  | String a s' =>
      match rest c with
      | "" => None
      | String b r =>
          if Ascii.eqb a b then eat s' (Cursor (S (pos c)) (Some b) r)
          else None
      end
  end.

Definition at_bol (multiline : bool) (c : cursor) : bool :=
  match prev c with
  | None => true
  | Some a => multiline && Ascii.eqb a LF
  end.

(** [$]: at the end, or before the newline that ends the subject; with
    [re.MULTILINE] before any newline. *)
Definition at_eol (multiline : bool) (c : cursor) : bool :=
  match rest c with
  | "" => true
  | String a r => Ascii.eqb a LF && (multiline || is_empty r)
  end.

(** Captured groups, most recent first. *)
Definition groups := list (nat * string).

Fixpoint group_lookup (i : nat) (g : groups) : option string :=
  match g with
  | [] => None
  | (j, s) :: g' => if Nat.eqb i j then Some s else group_lookup i g'
  end.

Definition answer := option (cursor * groups).
Definition cont := cursor -> groups -> answer.

(** One repetition, given the matcher [step] of its body: each iteration
    must consume text, [least] iterations are still owed, and a greedy
    repetition prefers one more iteration to stopping. *)
Fixpoint rep_loop (step : cursor -> groups -> cont -> answer)
         (greedy : bool) (k : cont)
         (fuel least : nat) (c : cursor) (g : groups) {struct fuel}
  : answer :=
  match fuel with
  | 0 => None
  | S fuel' =>
      let more :=
        step c g (fun c' g' =>
          if (pos c <? pos c')%nat
          then rep_loop step greedy k fuel' (Nat.pred least) c' g'
          else None) in
      let stop := match least with 0 => k c g | S _ => None end in
      if greedy
      then match more with Some a => Some a | None => stop end
      else match stop with Some a => Some a | None => more end
  end.

(** The backtracking matcher: [run r c g k] tries the ways [r] can match
    at [c], in the engine's order of preference, and returns the first one
    that the continuation [k] accepts.  A repetition at [c] takes at most
    [length (rest c)] iterations, since each consumes text. *)
Fixpoint run (r : regex) (c : cursor) (g : groups) (k : cont) {struct r}
  : answer :=
  match r with
  | Lit s =>
      match eat s c with Some c' => k c' g | None => None end
  | Cls p =>
      match rest c with
      | "" => None
      | String a t =>
          if p a then k (Cursor (S (pos c)) (Some a) t) g else None
      end
  | Cat r1 r2 => run r1 c g (fun c' g' => run r2 c' g' k)
  | Alt r1 r2 =>
      match run r1 c g k with
      | Some a => Some a
      | None => run r2 c g k
      end
  | Rep greedy least r1 =>
      rep_loop (run r1) greedy k (S (String.length (rest c))) least c g
  | Grp i r1 =>
      run r1 c g (fun c' g' =>
        k c' ((i, slice_to (pos c' - pos c)%nat (rest c)) :: g'))
  | Ahead r1 =>
      match run r1 c g (fun c' g' => Some (c', g')) with
      | Some _ => k c g
      | None => None
      end
  | Bol m => if at_bol m c then k c g else None
  | Eol m => if at_eol m c then k c g else None
  end.

(** What it means for [r] to match between two cursors, without any order
    of preference: the reference against which [run] is checked. *)
Inductive matches : regex -> cursor -> groups -> cursor -> groups -> Prop :=
| M_Lit s c c' g :
    eat s c = Some c' -> matches (Lit s) c g c' g
| M_Cls p c g a t :
    rest c = String a t -> p a = true ->
    matches (Cls p) c g (Cursor (S (pos c)) (Some a) t) g
| M_Cat r1 r2 c g c1 g1 c2 g2 :
    matches r1 c g c1 g1 -> matches r2 c1 g1 c2 g2 ->
    matches (Cat r1 r2) c g c2 g2
| M_AltL r1 r2 c g c' g' :
    matches r1 c g c' g' -> matches (Alt r1 r2) c g c' g'
| M_AltR r1 r2 c g c' g' :
    matches r2 c g c' g' -> matches (Alt r1 r2) c g c' g'
| M_RepStop greedy r c g :
    matches (Rep greedy 0 r) c g c g
| M_RepMore greedy least r c g c1 g1 c2 g2 :
    matches r c g c1 g1 -> (pos c < pos c1)%nat ->
    matches (Rep greedy (Nat.pred least) r) c1 g1 c2 g2 ->
    matches (Rep greedy least r) c g c2 g2
| M_Grp i r c g c' g' :
    matches r c g c' g' ->
    matches (Grp i r) c g c'
            ((i, slice_to (pos c' - pos c)%nat (rest c)) :: g')
| M_Ahead r c g c' g' :
    matches r c g c' g' -> matches (Ahead r) c g c g
| M_Bol m c g :
    at_bol m c = true -> matches (Bol m) c g c g
| M_Eol m c g :
    at_eol m c = true -> matches (Eol m) c g c g.

(** A match object: span and groups; [m_tail] is the cursor at [m_end]. *)
Record rmatch := Match
  { m_start : nat; m_end : nat; m_groups : groups; m_tail : cursor }.

(** [m.group(i)] for a group that took part in the match. *)
Definition group (i : nat) (m : rmatch) : string :=
  match group_lookup i (m_groups m) with Some s => s | None => "" end.

(** The final continuation.  After an empty match the scanner must not
    report an empty match at the same place again. *)
Definition accept (must_advance : bool) (from : nat) : cont :=
  fun c g =>
    if must_advance && (pos c =? from)%nat then None else Some (c, g).

(** Try every start position from the cursor on, leftmost first. *)
Fixpoint scan (r : regex) (must_advance : bool)
         (p : nat) (pv : option ascii) (s : string) {struct s}
  : option rmatch :=
  match run r (Cursor p pv s) [] (accept must_advance p) with
  | Some (c', g) => Some (Match p (pos c') g c')
  | None =>
      match s with
      | "" => None
      | String a s' => scan r false (S p) (Some a) s'
      end
  end.

Definition scan_at (r : regex) (must_advance : bool) (c : cursor)
  : option rmatch :=
  scan r must_advance (pos c) (prev c) (rest c).

(** [re.search(r, s)] *)
Definition search (r : regex) (s : string) : option rmatch :=
  scan_at r false (start_of s).

(** [re.finditer(r, s)]: each search resumes where the last match ended. *)
Fixpoint finditer_from (fuel : nat) (r : regex) (must_advance : bool)
         (c : cursor) : list rmatch :=
  match fuel with
  | 0 => []
  | S fuel' =>
      match scan_at r must_advance c with
      | None => []
      | Some m =>
          m :: finditer_from fuel' r (m_end m =? m_start m)%nat (m_tail m)
      end
  end.

Definition finditer (r : regex) (s : string) : list rmatch :=
  finditer_from (2 * String.length s + 2) r false (start_of s).

(** ** Notions used to state facts about the matcher *)

(** What lies between two cursors of one subject. *)
Definition spans (c c' : cursor) (w : string) : Prop :=
  rest c = (w ++ rest c')%string /\ pos c' = pos c + String.length w.

(** The character before the position reached after reading [w]. *)
Fixpoint prev_after (pv : option ascii) (w : string) : option ascii :=
  match w with
  | "" => pv
  | String a w' => prev_after (Some a) w'
  end.

(** Matches that come in the order of the subject, from offset [p] on,
    and do not overlap. *)
Fixpoint in_order (p : nat) (ms : list rmatch) : Prop :=
  match ms with
  | [] => True
  | m :: ms' =>
      p <= m_start m /\ m_start m <= m_end m /\ in_order (m_end m) ms'
  end.

(** A match of [r] located in [md]. *)
Definition located (md : string) (r : regex) (m : rmatch) : Prop :=
  exists w s' pv,
    md = (w ++ s')%string /\ m_start m = String.length w /\
    m_end m = pos (m_tail m) /\
    matches r (Cursor (m_start m) pv s') [] (m_tail m) (m_groups m).

(** A continuation that accepts whatever it is given. *)
Definition total (k : cont) : Prop := forall c g, k c g <> None.

(** The text at [c] does not go on with a character of [p]. *)
Definition next_not (p : ascii -> bool) (c : cursor) : Prop :=
  match rest c with String a _ => p a = false | "" => True end.

(** [re.sub(r, repl, s)] for a replacement without group references: the
    text between the matches stays, each match gives way to [repl]. *)
Fixpoint sub_from (fuel : nat) (r : regex) (repl : string)
         (must_advance : bool) (c : cursor) : string :=
  match fuel with
  | 0 => rest c
  | S fuel' =>
      match scan_at r must_advance c with
      | None => rest c
      | Some m =>
          (slice_to (m_start m - pos c) (rest c) ++ repl
             ++ sub_from fuel' r repl (m_end m =? m_start m)%nat
                         (m_tail m))%string
      end
  end.

Definition sub (r : regex) (repl s : string) : string :=
  sub_from (2 * String.length s + 2) r repl false (start_of s).

End Re.

(* ===================================================================== *)
(** * The language-model boundary *)
(* ===================================================================== *)

Module Llm.
Import Py.

(** One request: the system message and the human message. *)
Definition prompt := (string * string)%type.

(** The calls made so far, oldest first. *)
Definition log := list prompt.

(** [self.llm.invoke]: the reply may depend on everything asked before. *)
Definition oracle := log -> prompt -> outcome string.

(** Computations that call the model: they thread the log and stop at the
    first exception. *)
Definition M (A : Type) := log -> outcome A * log.

Definition ret {A} (a : A) : M A := fun h => (Ok a, h).

Definition bind {A B} (m : M A) (f : A -> M B) : M B :=
  fun h =>
    match m h with
    | (Ok a, h') => f a h'
    | (Raised e, h') => (Raised e, h')
    end.

Definition invoke (llm : oracle) (system user : string) : M string :=
  fun h => (llm h (system, user), h ++ [(system, user)]).

(** [for x in xs: acc = body(acc, x)] *)
Fixpoint for_each {A X} (body : A -> X -> M A) (xs : list X) (acc : A)
  : M A :=
  match xs with
  | [] => ret acc
  | x :: xs' => bind (body acc x) (for_each body xs')
  end.

End Llm.

Declare Scope llm_scope.
Delimit Scope llm_scope with llm.
Notation "x <- m ;; k" := (Llm.bind m (fun x => k))
  (at level 61, m at next level, right associativity) : llm_scope.

(* ===================================================================== *)
(** * The deck, as python-pptx presents it *)
(* ===================================================================== *)

Module Pptx.
Import Py.

(** A shape: its proxy class, its placeholder index when it is a
    placeholder, and the paragraphs of its text frame when it has one
    ([hasattr(shape, "text_frame")]). *)
Record Shape := mkShape
  { shape_class : string;
    ph_idx : option nat;
    text_frame : option (list string) }.

(** A slide: its shape tree and the text of its notes page, if any. *)
Record Slide := mkSlide
  { shapes : list Shape;
    notes : option string }.

(** [prs.slides] *)
Definition Presentation := list Slide.

(** The text of a paragraph is the text that [paragraph.text] gives back.
    python-pptx (0.6.18 and later) does not keep every character of an
    assigned text as it is: a control character other than tab, line feed
    and vertical tab is written as the seven characters [_xHHHH_] (its
    code in upper-case hexadecimal), and is read back that way. *)
Definition VT : ascii := "011"%char.

(** [[\x00-\x08\x0B-\x1F]] without the vertical tab, which the setters
    turn into a line break before the escaping. *)
Definition escaped (c : ascii) : bool :=
  let n := N_of_ascii c in ((n <=? 8) || (12 <=? n) && (n <=? 31))%N.

Definition hex_digit (n : N) : ascii :=
  if (n <? 10)%N then ascii_of_N (48 + n) else ascii_of_N (55 + n).

(** ["_x%04X_" % ord(c)] for a code point below 256. *)
Definition escape_ctrl_char (c : ascii) : string :=
  let n := N_of_ascii c in
  ("_x00" ++ String (hex_digit (n / 16)) (String (hex_digit (n mod 16)) "_"))
    %string.

(** What a run holds for one character of the assigned text. *)
Definition run_char (c : ascii) : string :=
  if escaped c then escape_ctrl_char c else String c "".

(** [p.text = text] and then [p.text]: a line feed and a vertical tab both
    become a line break, which reads as a vertical tab. *)
Fixpoint paragraph_text (text : string) : string :=
  match text with
  | "" => ""
  | String c r =>
      ((if Ascii.eqb c LF then String VT "" else run_char c)
         ++ paragraph_text r)%string
  end.

(** An auto shape (a coloured bar): a text frame with one empty paragraph. *)
Definition add_shape : Shape := mkShape "Shape" None (Some [""]).

(** [add_textbox] followed by [tf.paragraphs[0].text = text]. *)
Definition add_textbox (text : string) : Shape :=
  mkShape "Shape" None (Some [paragraph_text text]).

(** Position of the title placeholder in the shape tree
    ([slide.shapes.title]): the first placeholder with index 0. *)
Fixpoint title_position (i : nat) (l : list Shape) : option nat :=
  match l with
  | [] => None
  | s :: l' =>
      match ph_idx s with
      | Some 0 => Some i
      | _ => title_position (S i) l'
      end
  end.

(** [shape.text = text], which is [text_frame.text = text]: one paragraph
    per line of [text]. *)
Definition set_text (text : string) : list string :=
  map paragraph_text (split_lines text).

(** [text_frame.text = text] and then [text_frame.text]: the paragraphs,
    joined by line feeds. *)
Definition frame_text (text : string) : string :=
  String.concat nl (set_text text).

(** [tf.clear()] then the [enumerate(bullets)] loop: the first bullet goes
    into the paragraph that [clear] leaves, the others into new ones. *)
Definition fill_paragraphs (bullets : list string) : list string :=
  fold_left
    (fun paras ib =>
       match fst ib with
       | 0 => paragraph_text (snd ib) :: tl paras
       | S _ => paras ++ [paragraph_text (snd ib)]
       end)
    (combine (seq 0 (List.length bullets)) bullets)
    [""].

(** A slide made from layout 1 ("Title and Content"): the title
    placeholder and the body placeholder, in that order. *)
Definition layout_title_and_content (title_paras body_paras : list string)
  : Slide :=
  mkSlide [ mkShape "SlidePlaceholder" (Some 0) (Some title_paras);
            mkShape "SlidePlaceholder" (Some 1) (Some body_paras) ]
          None.

End Pptx.

(* ===================================================================== *)
(** * POWERPOINT_VC_AGENT *)
(* ===================================================================== *)

Module PowerPointAgent.
Import Py Re Llm Pptx.
Local Open Scope llm_scope.

Record SectionEntry := mkSection
  { number : string; title : string; content : string }.

Record ThesisData := mkThesis
  { sector : string;
    region : string;
    executive_summary : string;
    sections : list SectionEntry }.

(** [r'\*\*Region\*\*:\s*(.+?)$'] with [re.MULTILINE] *)
Definition region_pattern : regex :=
  (Lit "**Region**:" +> star space +> Grp 1 (lazy_plus (dot false))
   +> Eol true)%re.

(** [r'^## (.+?)$'] with [re.MULTILINE] *)
Definition sector_pattern : regex :=
  (Bol true +> Lit "## " +> Grp 1 (lazy_plus (dot false)) +> Eol true)%re.

(** [r'## Executive Summary\s*\n+(.*?)(?=\n---|\n## \d)'] with [re.DOTALL] *)
Definition exec_pattern : regex :=
  (Lit "## Executive Summary" +> star space +> plus (Lit nl)
   +> Grp 1 (lazy_star (dot true))
   +> Ahead (Alt (Lit (nl ++ "---")%string)
                 (Lit (nl ++ "## ")%string +> digit)))%re.

(** [r'## (\d+)\. (.+?)\n(.*?)(?=\n## \d|\n---\s*\n## Methodology|$)']
    with [re.DOTALL] *)
Definition section_pattern : regex :=
  (Lit "## " +> Grp 1 (plus digit) +> Lit ". "
   +> Grp 2 (lazy_plus (dot true)) +> Lit nl
   +> Grp 3 (lazy_star (dot true))
   +> Ahead (Alt (Lit (nl ++ "## ")%string +> digit)
            (Alt (Lit (nl ++ "---")%string +> star space
                  +> Lit (nl ++ "## Methodology")%string)
                 (Eol false))))%re.

Definition section_of_match (m : rmatch) : SectionEntry :=
  mkSection (group 1 m) (strip (group 2 m)) (strip (group 3 m)).

Definition parse_thesis (markdown : string) : ThesisData :=
  let region :=
    match search region_pattern markdown with
    | Some m => strip (group 1 m)
    | None => "US"
    end in
  let sector :=
    match search sector_pattern markdown with
    | Some m => strip (group 1 m)
    | None => ""
    end in
  let executive_summary :=
    match search exec_pattern markdown with
    | Some m => strip (group 1 m)
    | None => ""
    end in
  let sections :=
    fold_left (fun acc m => acc ++ [section_of_match m])
              (finditer section_pattern markdown) [] in
  mkThesis sector region executive_summary sections.

Definition condense_system_prompt : string :=
  String.concat nl
    [ "You are a presentation editor. Convert the content into EXACTLY 3 bullet points.";
      "";
      "Rules:";
      "- Each bullet must be under 100 characters";
      "- Keep key data points and metrics";
      "- Be specific and concise";
      "- No sub-bullets";
      "- Start each with a strong action word or key term";
      "";
      ("Return ONLY 3 lines, each starting with "
         ++ dq ++ "- " ++ dq ++ " ")%string ].

Definition condense_user_prompt (content section_title : string) : string :=
  String.concat nl
    [ ("Section: " ++ section_title)%string;
      "";
      "Content:";
      content;
      "";
      "Convert to exactly 3 concise bullet points (under 100 chars each):" ].

(** The [for line in response.content.strip().split('\n')] loop, which
    both condensation methods have: it collects the bullets of the reply and
    replaces a bullet longer than [cap] by its first [keep] characters and
    "...". *)
Definition collect_bullets (cap keep : nat) (reply : string) : list string :=
  fold_left
    (fun bullets line =>
       let line := strip line in
       if startswith "- " line then
         let bullet := strip (slice_from 2 line) in
         let bullet :=
           if (cap <? String.length bullet)%nat
           then (slice_to keep bullet ++ "...")%string else bullet in
         bullets ++ [bullet]
       else bullets)
    (split_lines (strip reply)) [].

(** [while len(bullets) < 3: bullets.append(filler)] *)
Fixpoint pad_loop (fuel : nat) (filler : string) (bullets : list string)
  : list string :=
  match fuel with
  | 0 => bullets
  | S fuel' =>
      if (List.length bullets <? 3)%nat
      then pad_loop fuel' filler (bullets ++ [filler])
      else bullets
  end.

Definition condense_to_three_bullets (llm : oracle)
           (content section_title : string) : M (list string) :=
  response <- invoke llm condense_system_prompt
                     (condense_user_prompt content section_title) ;;
  let bullets := collect_bullets 120 117 response in
  let bullets := pad_loop 3 "Additional research pending" bullets in
  ret (firstn 3 bullets).

Definition summary_system_prompt : string :=
  String.concat nl
    [ "Condense this executive summary into EXACTLY 3 key takeaways.";
      "Each point should be 1 sentence, under 80 characters.";
      ("Return only 3 lines starting with "
         ++ dq ++ "- " ++ dq ++ " ")%string ].

Definition summary_user_prompt (summary : string) : string :=
  ("Summary:" ++ nl ++ summary ++ nl ++ nl ++ "Return 3 key points:")%string.

Definition condense_executive_summary (llm : oracle) (summary : string)
  : M (list string) :=
  response <- invoke llm summary_system_prompt
                     (summary_user_prompt summary) ;;
  let bullets := collect_bullets 100 97 response in
  let bullets := pad_loop 3 "Key insight from research" bullets in
  ret (firstn 3 bullets).

(** [month_year] is [datetime.now().strftime('%B %Y')]. *)
Definition _add_title_slide (prs : Presentation)
           (sector region month_year : string) : Presentation :=
  prs ++ [ mkSlide
             [ add_shape;
               add_textbox "Venture Capital Industry Thesis";
               add_textbox sector;
               add_textbox (region ++ "  |  " ++ month_year
                                   ++ "  |  GPTOSS VC Thesis System")%string;
               add_shape ]
             None ].

Definition _add_content_slide (prs : Presentation) (title : string)
           (bullets : list string) : Presentation :=
  prs ++ [ layout_title_and_content (set_text title)
                                    (fill_paragraphs bullets) ].

Definition _add_closing_slide (prs : Presentation)
           (sector month_year : string) : Presentation :=
  prs ++ [ mkSlide
             [ add_shape;
               add_textbox "Thank You";
               add_textbox (sector ++ " Industry Thesis")%string;
               add_textbox ("Generated by GPTOSS VC Thesis System  |  "
                              ++ month_year)%string ]
             None ].

Definition create_presentation (llm : oracle) (month_year : string)
           (thesis_data : ThesisData) : M Presentation :=
  let prs : Presentation := [] in
  let sector := sector thesis_data in
  let region := region thesis_data in
  let prs := _add_title_slide prs sector region month_year in
  prs <- (if truthy (executive_summary thesis_data)
          then summary_bullets <-
                 condense_executive_summary llm
                   (executive_summary thesis_data) ;;
               ret (_add_content_slide prs "Executive Summary"
                                       summary_bullets)
          else ret prs) ;;
  prs <- for_each
           (fun prs section =>
              let full_title :=
                (number section ++ ". " ++ title section)%string in
              bullets <- condense_to_three_bullets llm (content section)
                                                   (title section) ;;
              ret (_add_content_slide prs full_title bullets))
           (sections thesis_data) prs ;;
  ret (_add_closing_slide prs sector month_year).

(** [sector.lower().replace(" ", "_")], the [sector_slug] of every method
    that names a file.  For the code points below 256 [lower] works
    character by character; beyond them it may change the length of the
    text, which this model does not cover. *)
Definition sector_slug (sector : string) : string :=
  replace_char " " "_" (lower sector).

(** The [filename] of [save_presentation]; [timestamp] is
    [datetime.now().strftime("%Y%m%d_%H%M%S")]. *)
Definition save_presentation_filename (sector timestamp : string) : string :=
  ("vc_thesis_" ++ sector_slug sector ++ "_" ++ timestamp ++ ".pptx")%string.

(** [run], between [load_thesis], which gives [thesis_content], and
    [save_presentation]: the sector asked for replaces the parsed one. *)
Definition run (llm : oracle) (month_year sector thesis_content : string)
  : M Presentation :=
  let thesis_data := parse_thesis thesis_content in
  let thesis_data :=
    mkThesis sector (region thesis_data) (executive_summary thesis_data)
             (sections thesis_data) in
  create_presentation llm month_year thesis_data.

End PowerPointAgent.

(* ===================================================================== *)
(** * POWERPOINT_NETWORKING_AGENT *)
(* ===================================================================== *)

Module PowerPointNetworkingAgent.
Import Py Re Llm Pptx.
Local Open Scope llm_scope.

Record SectionEntry := mkSection
  { number : string; title : string; content : string }.

Record StrategyData := mkStrategy
  { sector : string;
    region : string;
    sections : list SectionEntry }.

(** The three patterns are those of the thesis parser. *)
Definition region_pattern : regex := PowerPointAgent.region_pattern.
Definition sector_pattern : regex := PowerPointAgent.sector_pattern.
Definition section_pattern : regex := PowerPointAgent.section_pattern.

Definition section_of_match (m : rmatch) : SectionEntry :=
  mkSection (group 1 m) (strip (group 2 m)) (strip (group 3 m)).

Definition parse_strategy (markdown : string) : StrategyData :=
  let region :=
    match search region_pattern markdown with
    | Some m => strip (group 1 m)
    | None => "US"
    end in
  let sector :=
    match search sector_pattern markdown with
    | Some m => strip (group 1 m)
    | None => ""
    end in
  let sections :=
    fold_left (fun acc m => acc ++ [section_of_match m])
              (finditer section_pattern markdown) [] in
  mkStrategy sector region sections.

Definition condense_system_prompt : string :=
  String.concat nl
    [ "Convert the content into EXACTLY 3 bullet points.";
      "";
      "Rules:";
      "- Each bullet must be under 100 characters";
      "- Keep key data points";
      "- No sub-bullets";
      "- Return ONLY 3 lines starting with '- '" ].

Definition condense_user_prompt (content section_title : string) : string :=
  String.concat nl
    [ ("Section: " ++ section_title)%string;
      "";
      "Content:";
      content;
      "";
      "Convert to exactly 3 concise bullet points:" ].

Definition condense_to_three_bullets (llm : oracle)
           (content section_title : string) : M (list string) :=
  response <- invoke llm condense_system_prompt
                     (condense_user_prompt content section_title) ;;
  let bullets := PowerPointAgent.collect_bullets 120 117 response in
  let bullets :=
    PowerPointAgent.pad_loop 3 "Additional research pending" bullets in
  ret (firstn 3 bullets).

(** The [for line in content.split('\n')] loop of [extract_bullets]. *)
Definition markdown_bullets (content : string) : list string :=
  fold_left
    (fun bullets line =>
       let line := strip line in
       if startswith "- " line then
         let bullet := strip (slice_from 2 line) in
         if truthy bullet then bullets ++ [bullet] else bullets
       else bullets)
    (split_lines content) [].

Definition extract_bullets (llm : oracle) (content section_title : string)
  : M (list string) :=
  let bullets := markdown_bullets content in
  if (List.length bullets =? 3)%nat then ret bullets
  else condense_to_three_bullets llm content section_title.

Definition _add_title_slide (prs : Presentation)
           (sector region month_year : string) : Presentation :=
  prs ++ [ mkSlide
             [ add_shape;
               add_textbox "Networking Strategy";
               add_textbox sector;
               add_textbox (region ++ "  |  " ++ month_year
                                   ++ "  |  GPTOSS VC Thesis System")%string;
               add_shape ]
             None ].

Definition _add_content_slide (prs : Presentation) (title : string)
           (bullets : list string) : Presentation :=
  prs ++ [ layout_title_and_content (set_text title)
                                    (fill_paragraphs bullets) ].

Definition _add_closing_slide (prs : Presentation)
           (sector month_year : string) : Presentation :=
  prs ++ [ mkSlide
             [ add_shape;
               add_textbox "Thank You";
               add_textbox (sector ++ " Networking Strategy")%string;
               add_textbox ("Generated by GPTOSS VC Thesis System  |  "
                              ++ month_year)%string ]
             None ].

Definition create_presentation (llm : oracle) (month_year : string)
           (strategy_data : StrategyData) : M Presentation :=
  let prs : Presentation := [] in
  let sector := sector strategy_data in
  let region := region strategy_data in
  let prs := _add_title_slide prs sector region month_year in
  prs <- for_each
           (fun prs section =>
              let full_title :=
                (number section ++ ". " ++ title section)%string in
              bullets <- extract_bullets llm (content section)
                                         (title section) ;;
              ret (_add_content_slide prs full_title bullets))
           (sections strategy_data) prs ;;
  ret (_add_closing_slide prs sector month_year).

(** [run], between [load_strategy], which gives [strategy_content], and
    [save_presentation]: the sector asked for replaces the parsed one. *)
Definition run (llm : oracle) (month_year sector strategy_content : string)
  : M Presentation :=
  let strategy_data := parse_strategy strategy_content in
  let strategy_data :=
    mkStrategy sector (region strategy_data) (sections strategy_data) in
  create_presentation llm month_year strategy_data.

End PowerPointNetworkingAgent.

(* ===================================================================== *)
(** * FinalPass_agent *)
(* ===================================================================== *)

Module FinalPassAgent.
Import Py Re Llm.
Local Open Scope llm_scope.

Record QAIssue := mkIssue
  { slide_num : Z;
    issue_type : string;
    description : string;
    severity : string;
    fixed : bool }.

(** [QAIssue(slide_num, issue_type, description, severity)] *)
Definition new_issue (n : Z) (kind descr sev : string) : QAIssue :=
  mkIssue n kind descr sev false.

(** The [shape_info] dictionary; ['bullet_count'] is set only for a shape
    with a text frame. *)
Record ShapeInfo := mkInfo
  { info_type : string;
    info_has_text : bool;
    info_text : string;
    info_bullet_count : option Z }.

(** The [slide_data] dictionary. *)
Record SlideData := mkData
  { number : Z;
    title : string;
    text_boxes : list ShapeInfo;
    total_text : string;
    bullet_count : Z;
    shapes : list ShapeInfo }.

(** The paragraph loop of one text frame: the text gathered and the number
    of paragraphs longer than 10 characters. *)
Definition scan_paragraphs (paragraphs : list string) : string * Z :=
  fold_left
    (fun acc para =>
       let '(text, count) := acc in
       let para_text := strip para in
       if truthy para_text then
         ((text ++ para_text ++ nl)%string,
          if (10 <? String.length para_text)%nat
          then (count + 1)%Z else count)
       else (text, count))
    paragraphs ("", 0%Z).

(** One turn of [for shape in slide.shapes]; [is_title] is
    [shape == slide.shapes.title]. *)
Definition extract_shape (slide_data : SlideData) (is_title : bool)
           (shape : Pptx.Shape) : SlideData :=
  match Pptx.text_frame shape with
  | Some paragraphs =>
      let '(text, count) := scan_paragraphs paragraphs in
      let shape_info :=
        mkInfo (Pptx.shape_class shape) true (strip text) (Some count) in
      let slide_data :=
        if truthy (strip text) then
          mkData (number slide_data)
                 (if is_title
                  then hd "" (split_lines (strip text))
                  else title slide_data)
                 (text_boxes slide_data ++ [shape_info])
                 (total_text slide_data ++ text)%string
                 (bullet_count slide_data + count)%Z
                 (shapes slide_data)
        else slide_data in
      mkData (number slide_data) (title slide_data)
             (text_boxes slide_data) (total_text slide_data)
             (bullet_count slide_data)
             (shapes slide_data ++ [shape_info])
  | None =>
      let shape_info := mkInfo (Pptx.shape_class shape) false "" None in
      mkData (number slide_data) (title slide_data)
             (text_boxes slide_data) (total_text slide_data)
             (bullet_count slide_data)
             (shapes slide_data ++ [shape_info])
  end.

(** The body of [for i, slide in enumerate(prs.slides)]. *)
Definition extract_slide (i : nat) (slide : Pptx.Slide) : SlideData :=
  let title_at := Pptx.title_position 0 (Pptx.shapes slide) in
  fold_left
    (fun slide_data js =>
       let is_title :=
         match title_at with
         | Some t => (t =? fst js)%nat
         | None => false
         end in
       extract_shape slide_data is_title (snd js))
    (combine (seq 0 (List.length (Pptx.shapes slide))) (Pptx.shapes slide))
    (mkData (Z.of_nat i + 1) "" [] "" 0 []).

Definition extract_slide_content (prs : Pptx.Presentation)
  : list SlideData :=
  fold_left
    (fun slides_data islide =>
       slides_data ++ [extract_slide (fst islide) (snd islide)])
    (combine (seq 0 (List.length prs)) prs) [].

(** [num in [1, 2, len(slides_data)]] *)
Definition exempt (slides_data : list SlideData) (num : Z) : bool :=
  ((num =? 1) || (num =? 2)
   || (num =? Z.of_nat (List.length slides_data)))%Z.

Definition validate_bullet_count (slides_data : list SlideData)
           (issues : list QAIssue) : list QAIssue :=
  fold_left
    (fun issues slide =>
       let num := number slide in
       if exempt slides_data num then issues
       else
         let bullet_count := bullet_count slide in
         if (bullet_count <? 2)%Z then
           issues ++
             [new_issue num "too_few_bullets"
                ("Slide has only " ++ str_of_int bullet_count
                   ++ " bullet(s), recommend at least 3")%string
                "warning"]
         else if (6 <? bullet_count)%Z then
           issues ++
             [new_issue num "too_many_bullets"
                ("Slide has " ++ str_of_int bullet_count
                   ++ " bullets, may be overcrowded")%string
                "warning"]
         else issues)
    slides_data issues.

Definition grammar_system_prompt : string :=
  String.concat nl
    [ "You are a professional editor reviewing presentation text.";
      "For each slide, identify:";
      "1. Grammar errors (spelling, punctuation, sentence structure)";
      "2. Unclear or vague statements";
      "3. Inconsistent formatting or style";
      "";
      "Return ONLY a JSON-like format with fixes needed:";
      "SLIDE X: [issue] -> [suggested fix]";
      "";
      "If a slide is fine, write: SLIDE X: OK";
      "";
      "Be concise and specific." ].

Definition grammar_user_prompt (all_text : string) : string :=
  String.concat nl
    [ "Review this presentation text for grammar and clarity issues:";
      all_text;
      "";
      "List specific issues and fixes for each slide." ].

(** [r'SLIDE\s*(\d+)'] *)
Definition slide_pattern : regex :=
  (Lit "SLIDE" +> star space +> Grp 1 (plus digit))%re.

(** One turn of [for line in grammar_feedback.split('\n')].  The body is
    in a [try] whose handler is [except: pass]: where [int] raises, the
    turn ends without an issue. *)
Definition grammar_line (issues : list QAIssue) (line : string)
  : list QAIssue :=
  if contains "SLIDE" line && negb (contains "OK" line)
     && contains "->" line
  then
    match search slide_pattern line with
    | Some slide_match =>
        match int_of_digits (group 1 slide_match) with
        | Ok slide_num =>
            let issue_text :=
              match after_first ":" line with
              | Some tail => strip tail
              | None => line
              end in
            issues ++ [new_issue slide_num "grammar" issue_text "info"]
        | Raised _ => issues
        end
    | None => issues
    end
  else issues.

Definition check_grammar_and_clarity (llm : oracle)
           (slides_data : list SlideData) (issues : list QAIssue)
  : M (string * list QAIssue) :=
  let all_text :=
    fold_left
      (fun all_text slide =>
         if truthy (strip (total_text slide)) then
           (all_text ++ nl ++ nl ++ "--- SLIDE "
              ++ str_of_int (number slide) ++ " ---" ++ nl
              ++ total_text slide)%string
         else all_text)
      slides_data "" in
  grammar_feedback <- invoke llm grammar_system_prompt
                             (grammar_user_prompt all_text) ;;
  ret (grammar_feedback,
       fold_left grammar_line (split_lines grammar_feedback) issues).

(** A value of the [fixes] dictionary. *)
Record Fix := mkFix { original : string; fixed_text : string }.

(** A [dict] keyed by slide number, in insertion order. *)
Definition fixes_dict := list (Z * Fix).

(** [fixes[num] = v] *)
Fixpoint dict_set (num : Z) (v : Fix) (d : fixes_dict) : fixes_dict :=
  match d with
  | [] => [(num, v)]
  | (k, w) :: d' =>
      if (k =? num)%Z then (k, v) :: d' else (k, w) :: dict_set num v d'
  end.

Definition fix_system_prompt : string :=
  String.concat nl
    [ "You are a presentation editor. Rewrite the given slide content to have EXACTLY 3 clear, concise bullet points.";
      "";
      "Rules:";
      "- Each bullet should be 1-2 sentences max";
      "- Keep the key information and data points";
      "- Maintain any citations/sources";
      "- Use parallel structure";
      "- Be specific and actionable";
      "";
      ("Return ONLY the 3 bullets, one per line, starting with "
         ++ dq ++ "- " ++ dq ++ " ")%string ].

Definition fix_user_prompt (text : string) : string :=
  String.concat nl
    [ "Rewrite this slide content into exactly 3 clear bullets:";
      "";
      text;
      "";
      "Return only the 3 bullets." ].

Definition generate_fixes (llm : oracle) (slides_data : list SlideData)
  : M fixes_dict :=
  let problem_slides :=
    fold_left
      (fun problem_slides slide =>
         if exempt slides_data (number slide) then problem_slides
         else if ((bullet_count slide <? 2)
                  || (6 <? bullet_count slide))%Z
              then problem_slides ++ [slide] else problem_slides)
      slides_data [] in
  match problem_slides with
  | [] => ret []
  | _ =>
      for_each
        (fun fixes slide =>
           let num := number slide in
           let text := total_text slide in
           response <- invoke llm fix_system_prompt
                              (fix_user_prompt text) ;;
           ret (dict_set num (mkFix text (strip response)) fixes))
        problem_slides []
  end.

Definition notes_text (fix_data : Fix) : string :=
  String.concat nl
    [ "SUGGESTED FIX (3 bullets):";
      "";
      fixed_text fix_data;
      "";
      "---";
      "Original had issues with bullet count.";
      "Review and apply manually if needed." ].

(** [slide.notes_slide.notes_text_frame.text = text], on the slide at
    position [i]; the notes page is created when the slide has none. *)
Fixpoint write_notes (i : nat) (text : string) (prs : Pptx.Presentation)
  : Pptx.Presentation :=
  match prs, i with
  | [], _ => []
  | slide :: prs', 0 =>
      Pptx.mkSlide (Pptx.shapes slide) (Some (Pptx.frame_text text)) :: prs'
  | slide :: prs', S i' => slide :: write_notes i' text prs'
  end.

(** Position selected by [prs.slides[slide_num - 1]], where a negative
    index counts from the end; [None] is the [IndexError] of an index below
    [-len]. *)
Definition slide_position (prs : Pptx.Presentation) (slide_num : Z)
  : option nat :=
  let n := Z.of_nat (List.length prs) in
  let i := (slide_num - 1)%Z in
  if ((0 <=? i) && (i <? n))%Z then Some (Z.to_nat i)
  else if ((- n <=? i) && (i <? 0))%Z then Some (Z.to_nat (n + i))
  else None.

(** The deck is edited in place: the result carries the deck as the loop
    left it, also when an index error ends the loop early. *)
Fixpoint apply_fixes_to_presentation (prs : Pptx.Presentation)
         (fixes : fixes_dict) : outcome unit * Pptx.Presentation :=
  match fixes with
  | [] => (Ok tt, prs)
  | (slide_num, fix_data) :: fixes' =>
      if (slide_num <=? Z.of_nat (List.length prs))%Z then
        match slide_position prs slide_num with
        | Some i =>
            apply_fixes_to_presentation
              (write_notes i (notes_text fix_data) prs) fixes'
        | None =>
            (Raised (Exn "IndexError" "slide index out of range"), prs)
        end
      else apply_fixes_to_presentation prs fixes'
  end.

(** [f.name] passes the filter of [load_presentation]:
    ["_reviewed" not in f.name]. *)
Definition unreviewed (name : string) : bool :=
  negb (contains "_reviewed" name).

Definition validate_content_completeness (slides_data : list SlideData)
           (issues : list QAIssue) : list QAIssue :=
  fold_left
    (fun issues slide =>
       let num := number slide in
       if ((num =? 1) || (num =? Z.of_nat (List.length slides_data)))%Z
       then issues
       else
         let issues :=
           if negb (truthy (strip (total_text slide))) then
             issues ++
               [new_issue num "empty_slide" "Slide has no text content"
                          "error"]
           else issues in
         if negb (truthy (title slide)) then
           issues ++
             [new_issue num "missing_title" "Slide is missing a title"
                        "error"]
         else issues)
    slides_data issues.

(** [len(line) > self.MAX_CHARS_PER_LINE * 1.5]: the bound is the float
    127.5, so the test is [2 * len(line) > 255]. *)
Definition too_long (line : string) : bool :=
  (255 <? 2 * String.length line)%nat.

(** The two checks on one text box of slide [num]. *)
Definition overflow_of_text_box (num : Z) (issues : list QAIssue)
           (tb : ShapeInfo) : list QAIssue :=
  let text := info_text tb in
  let lines := split_lines text in
  let issues :=
    fold_left
      (fun issues line =>
         if too_long line then
           issues ++
             [new_issue num "long_line"
                ("Line exceeds recommended length ("
                   ++ str_of_int (Z.of_nat (String.length line))
                   ++ " chars): '" ++ slice_to 50 line ++ "...'")%string
                "warning"]
         else issues)
      lines issues in
  if (8 <? List.length lines)%nat then
    issues ++
      [new_issue num "too_many_lines"
         ("Text box has " ++ str_of_int (Z.of_nat (List.length lines))
            ++ " lines, may overflow")%string
         "warning"]
  else issues.

Definition validate_text_overflow (slides_data : list SlideData)
           (issues : list QAIssue) : list QAIssue :=
  fold_left
    (fun issues slide =>
       fold_left (overflow_of_text_box (number slide))
                 (text_boxes slide) issues)
    slides_data issues.

(** The [filename] of [save_presentation]. *)
Definition save_presentation_filename (sector timestamp : string) : string :=
  ("vc_thesis_" ++ PowerPointAgent.sector_slug sector ++ "_" ++ timestamp
     ++ "_reviewed.pptx")%string.

(** [run], between [load_presentation], which gives [prs], and the
    report and the two files: the deck as [save_presentation] gets it, the
    issues and the grammar feedback.  [self.issues] starts empty; the deck
    is touched only where there are fixes. *)
Definition run (llm : oracle) (prs : Pptx.Presentation)
  : M (Pptx.Presentation * list QAIssue * string) :=
  let slides_data := extract_slide_content prs in
  let issues := validate_content_completeness slides_data [] in
  let issues := validate_bullet_count slides_data issues in
  let issues := validate_text_overflow slides_data issues in
  checked <- check_grammar_and_clarity llm slides_data issues ;;
  let grammar_feedback := fst checked in
  let issues := snd checked in
  fixes <- generate_fixes llm slides_data ;;
  match fixes with
  | [] => ret (prs, issues, grammar_feedback)
  | _ :: _ =>
      fun h =>
        match apply_fixes_to_presentation prs fixes with
        | (Ok _, prs) => (Ok (prs, issues, grammar_feedback), h)
        | (Raised e, _) => (Raised e, h)
        end
  end.

(** [len([i for i in self.issues if i.severity == sev])], the counts of
    the report's summary table and of the last lines that [run] prints. *)
Definition count_severity (sev : string) (issues : list QAIssue) : nat :=
  List.length (filter (fun i => String.eqb (severity i) sev) issues).

End FinalPassAgent.

(* ===================================================================== *)
(** * The search client of the research agents *)
(* ===================================================================== *)

Module DuckDuckGoSearch.
Import Py.

Record SearchResult := mkResult
  { res_title : string; res_snippet : string; res_url : string }.

(** The provider, [DDGS()]: [text] and [news] take the query and
    [max_results]; either may raise. *)
Record DDGS := mkDDGS
  { text : string -> Z -> outcome (list SearchResult);
    news : string -> Z -> outcome (list SearchResult) }.

(** What a call returns or raises, and what it printed. *)
Definition reply := (outcome (list SearchResult) * list string)%type.

(** [try: return list(...) except Exception as e: print(...); return []]:
    the handler takes the instances of [Exception]; any other exception
    leaves the method. *)
Definition guarded (label : string) (r : outcome (list SearchResult))
  : reply :=
  match r with
  | Ok results => (Ok results, [])
  | Raised e =>
      if is_exception e
      then (Ok [], [(label ++ exn_msg e)%string])
      else (Raised e, [])
  end.

(** [Slide1_Agent] *)
Definition web_search (ddgs : DDGS) (query : string) (max_results : Z)
  : reply :=
  guarded "DuckDuckGo Search error: " (text ddgs query max_results).


End DuckDuckGoSearch.

(** [Slide5_Agent] (and Slide2 to Slide4): the same wrapper for the web
    flavour, with a shorter message. *)
Module Slide5Agent.
Import Py DuckDuckGoSearch.

Definition web_search (ddgs : DDGS) (query : string) (max_results : Z)
  : reply :=
  guarded "Search error: " (text ddgs query max_results).







End Slide5Agent.

(* ===================================================================== *)
(** * TelegramVCBot *)
(* ===================================================================== *)

(** The filter that the bot puts on every log handler. *)
Module TokenFilter.
Import Py Re.

(** [[A-Za-z0-9_-]] *)
Definition token_char (c : ascii) : bool :=
  let n := N_of_ascii c in
  ((65 <=? n) && (n <=? 90) || (97 <=? n) && (n <=? 122)
   || (48 <=? n) && (n <=? 57) || (n =? 95) || (n =? 45))%N.

(** [r'bot\d+:[A-Za-z0-9_-]+'] *)
Definition token_pattern : regex :=
  (Lit "bot" +> plus digit +> Lit ":" +> plus (Cls token_char))%re.

(** [re.sub(r'bot\d+:[A-Za-z0-9_-]+', 'bot***TOKEN_HIDDEN***', s)] *)
Definition hide (s : string) : string :=
  sub token_pattern "bot***TOKEN_HIDDEN***" s.

(** An argument of a log record: a [str], or something else. *)
Inductive arg := Str (s : string) | NotStr (n : nat).

(** [record.args]: [None]; the tuple of the arguments of the logging call;
    or, where the call had a non-empty mapping as its one argument, that
    mapping, given by its items in order. *)
Inductive arguments :=
| NoArgs
| Tuple (l : list arg)
| Mapping (items : list (arg * arg)).

(** A log record: [msg], [None] when it is no [str], and [args]. *)
Record LogRecord := mkRecord { msg : option string; args : arguments }.

(** [if record.args:] *)
Definition has_args (a : arguments) : bool :=
  match a with
  | NoArgs | Tuple [] | Mapping [] => false
  | Tuple (_ :: _) | Mapping (_ :: _) => true
  end.

(** What [for arg in record.args] goes through: the elements of a tuple,
    the keys of a mapping. *)
Definition iterate (a : arguments) : list arg :=
  match a with
  | NoArgs => []
  | Tuple l => l
  | Mapping items => map fst items
  end.

(** One turn of the loop over the arguments. *)
Definition hide_arg (a : arg) : arg :=
  match a with
  | Str s => Str (hide s)
  | NotStr n => NotStr n
  end.

(** [filter]: what it returns and the record as it leaves it. *)
Definition filter (record : LogRecord) : bool * LogRecord :=
  match msg record with
  | Some m =>
      (true,
       mkRecord (Some (hide m))
                (if has_args (args record)
                 then Tuple (map hide_arg (iterate (args record)))
                 else args record))
  | None => (true, record)
  end.

End TokenFilter.

Module VCThesisBot.
Import Py.

(** What [vc_command] and [networking_command] make of [context.args]: the
    sector and the region, or [None] where the command replies with its
    usage and returns. *)
Definition command_arguments (args : list string)
  : option (string * string) :=
  match args with
  | [] => None
  | first :: _ =>
      let n := List.length args in
      let last_arg := last args "" in
      let sector :=
        if (1 <? n)%nat then join " " (removelast args) else first in
      let region :=
        if (1 <? n)%nat && (String.length last_arg =? 2)%nat
        then last_arg else "US" in
      if (1 <? n)%nat && (2 <? String.length last_arg)%nat
      then Some (join " " args, "US")
      else Some (sector, region)
  end.

End VCThesisBot.

(* ===================================================================== *)
(** * The vocabulary of the specification *)
(* ===================================================================== *)

Module Spec.
Import Py.

(** Every character of [s] satisfies [p]. *)
Fixpoint all (p : ascii -> bool) (s : string) : bool :=
  match s with
  | "" => true
  | String a r => p a && all p r
  end.

(** A bullet line is a line that, once trimmed, begins with the marker
    "- "; its bullet is the text after the marker, trimmed. *)
Definition bullet_of_line (line : string) : option string :=
  let line := strip line in
  if startswith "- " line then Some (strip (slice_from 2 line)) else None.

(** The bullets of the bullet lines of a text, in order. *)
Definition bullets_of (text : string) : list string :=
  flat_map
    (fun line =>
       match bullet_of_line line with Some b => [b] | None => [] end)
    (split_lines text).

(** The length cap: more than 120 characters become the first 117 and an
    ellipsis. *)
Definition capped (bullet : string) : string :=
  if (120 <? String.length bullet)%nat
  then (slice_to 117 bullet ++ "...")%string else bullet.

Definition filler : string := "Additional research pending".

(** Exactly three bullets from a reply: its bullets, capped, then filler. *)
Definition three_bullets (reply : string) : list string :=
  firstn 3 (map capped (bullets_of (strip reply)) ++ repeat filler 3).

(** A paragraph that the quality pass counts as a bullet. *)
Definition countable (para : string) : bool :=
  (10 <? String.length (strip para))%nat.

(** The paragraphs of the text frames of a slide, shape after shape. *)
Definition paragraphs_of (slide : Pptx.Slide) : list string :=
  flat_map
    (fun shape =>
       match Pptx.text_frame shape with Some ps => ps | None => [] end)
    (Pptx.shapes slide).

(** [line] contains "SLIDE", optional white space and a number. *)
Definition mentions_slide (line : string) : Prop :=
  exists pre ws ds post,
    line = (pre ++ "SLIDE" ++ ws ++ ds ++ post)%string /\
    all isspace ws = true /\ all isdigit ds = true /\ ds <> "".

(** [line] reads [pre], "SLIDE", the white space [ws], the number [ds]
    and [post]; [ds] is the number to its last digit. *)
Definition slide_mention (line pre ws ds post : string) : Prop :=
  line = (pre ++ "SLIDE" ++ ws ++ ds ++ post)%string /\
  all isspace ws = true /\ all isdigit ds = true /\ ds <> "" /\
  match post with String a _ => isdigit a = false | "" => True end.

(** The number that a decimal numeral denotes, place by place: a digit
    counts ten times what it would count one place further right. *)
Fixpoint decimal (ds : string) : Z :=
  match ds with
  | "" => 0
  | String d r =>
      (digit_value d * 10 ^ Z.of_nat (String.length r) + decimal r)%Z
  end.

(** The text sent for review: for every slide that has text, in order, two
    line feeds, a heading with the number of the slide, and its text. *)
Definition review_text (slides_data : list FinalPassAgent.SlideData)
  : string :=
  String.concat ""
    (map (fun slide =>
            if is_empty (strip (FinalPassAgent.total_text slide)) then ""
            else (nl ++ nl ++ "--- SLIDE "
                     ++ str_of_int (FinalPassAgent.number slide) ++ " ---"
                     ++ nl ++ FinalPassAgent.total_text slide)%string)
         slides_data).

(** The issues that the bullet-count check owes one slide of a deck of
    [total] slides. *)
Inductive bullet_verdict := TooFew | Fine | TooMany | Exempt.

Definition verdict (total : nat) (number bullet_count : Z)
  : bullet_verdict :=
  if ((number =? 1) || (number =? 2) || (number =? Z.of_nat total))%Z
  then Exempt
  else if (bullet_count <? 2)%Z then TooFew
  else if (bullet_count <=? 6)%Z then Fine
  else TooMany.

(** The issues owed to one slide, by verdict. *)
Definition owed (total : nat) (slide : FinalPassAgent.SlideData)
  : list FinalPassAgent.QAIssue :=
  let number := FinalPassAgent.number slide in
  let bullet_count := FinalPassAgent.bullet_count slide in
  match verdict total number bullet_count with
  | TooFew =>
      [FinalPassAgent.mkIssue number "too_few_bullets"
         ("Slide has only " ++ str_of_int bullet_count
            ++ " bullet(s), recommend at least 3")%string
         "warning" false]
  | TooMany =>
      [FinalPassAgent.mkIssue number "too_many_bullets"
         ("Slide has " ++ str_of_int bullet_count
            ++ " bullets, may be overcrowded")%string
         "warning" false]
  | Fine | Exempt => []
  end.

(** The length cap at [cap] characters that keeps [keep] of them: [capped]
    is [cut 120 117]. *)
Definition cut (cap keep : nat) (b : string) : string :=
  if (cap <? String.length b)%nat
  then (slice_to keep b ++ "...")%string else b.

(** python-pptx holds the text [s] of a paragraph as it is: [s] has no line
    feed and none of the control characters that are escaped. *)
Definition plain (s : string) : bool :=
  all (fun c => negb (Ascii.eqb c LF) && negb (Pptx.escaped c)) s.

(** A content slide titled [title]: the title placeholder, and a body of
    exactly three paragraphs, each holding a bullet of at most 120
    characters. *)
Definition content_slide (title : string) (s : Pptx.Slide) : Prop :=
  exists bullets,
    s = Pptx.layout_title_and_content (Pptx.set_text title)
                                      (map Pptx.paragraph_text bullets) /\
    List.length bullets = 3 /\
    Forall (fun b => String.length b <= 120) bullets.

(** The title slide of a deck: a bar, the heading, the sector, the line of
    the region and the month, and a second bar. *)
Definition title_slide (heading sector region month_year : string)
  : Pptx.Slide :=
  Pptx.mkSlide
    [ Pptx.add_shape;
      Pptx.add_textbox heading;
      Pptx.add_textbox sector;
      Pptx.add_textbox (region ++ "  |  " ++ month_year
                               ++ "  |  GPTOSS VC Thesis System")%string;
      Pptx.add_shape ]
    None.

(** The closing slide of a deck: a background, the thanks, the subject of
    the deck and the line of the generator and the month. *)
Definition closing_slide (subject month_year : string) : Pptx.Slide :=
  Pptx.mkSlide
    [ Pptx.add_shape;
      Pptx.add_textbox "Thank You";
      Pptx.add_textbox subject;
      Pptx.add_textbox ("Generated by GPTOSS VC Thesis System  |  "
                          ++ month_year)%string ]
    None.

(** A numbered header begins the text [s]: "## ", a number, ". ", at least
    one character and, further on, a line feed. *)
Definition header_at (s : string) : Prop :=
  exists ds x t tail,
    s = ("## " ++ ds ++ ". " ++ String x t ++ nl ++ tail)%string /\
    all isdigit ds = true /\ ds <> "".

(** The model answers every request. *)
Definition answers (llm : Llm.oracle) : Prop :=
  forall h p, exists reply, llm h p = Ok reply.

(** [s] has no line break. *)
Definition single_line (s : string) : bool :=
  all (fun c => negb (Ascii.eqb c LF)) s.

(** The requests [asked], made one after the other from the log [h], were
    all answered. *)
Fixpoint answered (llm : Llm.oracle) (h asked : Llm.log) : Prop :=
  match asked with
  | [] => True
  | p :: asked' =>
      (exists reply, llm h p = Ok reply) /\ answered llm (h ++ [p]) asked'
  end.

(** The outcome [r] of a computation that has no handler around its
    requests: from the log [h] it has appended its requests to the log, and
    either it returned after [budget] requests that were all answered, or it
    raised the exception that the model raised at one request, after fewer
    than [budget] answered requests and with no request after it. *)
Definition stops_at_failure {A} (llm : Llm.oracle) (h : Llm.log)
           (budget : nat) (r : outcome A * Llm.log) : Prop :=
  exists asked,
    snd r = h ++ asked /\
    match fst r with
    | Ok _ => answered llm h asked /\ List.length asked = budget
    | Raised e =>
        exists asked0 p,
          asked = asked0 ++ [p] /\ answered llm h asked0 /\
          llm (h ++ asked0) p = Raised e /\
          List.length asked0 < budget
    end.

(** A content slide whose title placeholder holds one paragraph that is
    not blank. *)
Definition titled_content (s : Pptx.Slide) : Prop :=
  exists t body,
    s = Pptx.layout_title_and_content [t] body /\
    all isspace t = false.

(** A character of a time stamp ["%Y%m%d_%H%M%S"]. *)
Definition stamp_char (c : ascii) : bool :=
  isdigit c || Ascii.eqb c "_".

(** The text box fits: at most 8 lines, none longer than 127 characters. *)
Definition fits (tb : FinalPassAgent.ShapeInfo) : Prop :=
  List.length (split_lines (FinalPassAgent.info_text tb)) <= 8 /\
  Forall (fun line => String.length line <= 127)
         (split_lines (FinalPassAgent.info_text tb)).

(** After the digits read so far ([seen] tells whether there were any):
    more digits, a colon and a token character. *)
Fixpoint digits_then (seen : bool) (s : string) : bool :=
  match s with
  | "" => false
  | String c r =>
      if isdigit c then digits_then true r
      else if seen && Ascii.eqb c ":" then
        match r with
        | String t _ => TokenFilter.token_char t
        | "" => false
        end
      else false
  end.

(** A bot token starts at the head of [s]: "bot", digits, a colon and a
    token character. *)
Definition token_at (s : string) : bool :=
  startswith "bot" s && digits_then false (slice_from 3 s).

(** No bot token starts anywhere in [s]. *)
Definition no_token (s : string) : Prop :=
  forall w s', s = (w ++ s')%string -> token_at s' = false.

(** An argument of a log record that is no [str] with a bot token. *)
Definition clean_arg (a : TokenFilter.arg) : Prop :=
  match a with
  | TokenFilter.Str s => Re.search TokenFilter.token_pattern s = None
  | TokenFilter.NotStr _ => True
  end.

(** A log record in which the pattern of the bot token has no match: not
    in a message that is a [str], nor in a [str] among the arguments, the
    keys and values of a mapping included. *)
Definition clean_record (record : TokenFilter.LogRecord) : Prop :=
  match TokenFilter.msg record with
  | Some m => Re.search TokenFilter.token_pattern m = None
  | None => True
  end /\
  match TokenFilter.args record with
  | TokenFilter.NoArgs => True
  | TokenFilter.Tuple l => Forall clean_arg l
  | TokenFilter.Mapping items =>
      Forall (fun kv => clean_arg (fst kv) /\ clean_arg (snd kv)) items
  end.

End Spec.

(* ===================================================================== *)
(** * Inputs used as examples *)
(* ===================================================================== *)

Module Examples.
Import Py.

(** A model that always sends the same reply. *)
Definition constant_llm (reply : string) : Llm.oracle :=
  fun _ _ => Ok reply.

(** [n] times the letter x. *)
Definition xs (n : nat) : string :=
  string_of_list_ascii (repeat "x"%char n).

(** Headers that follow each other without a blank line. *)
Definition adjacent_headers : string :=
  "## 1. A" ++ nl ++ "## 2. B" ++ nl ++ "## 5. C" ++ nl.

(** The same headers, each with a body between blank lines. *)
Definition spaced_headers : string :=
  "## 1. A" ++ nl ++ nl ++ "x" ++ nl ++ nl ++
  "## 2. B" ++ nl ++ nl ++ "y" ++ nl ++ nl ++
  "## 5. C" ++ nl ++ nl ++ "z" ++ nl.

(** A document without any of the parser's patterns. *)
Definition plain_text : string := "Notes on payments." ++ nl ++ "No headers.".

Definition three_bullet_content : string :=
  "- a" ++ nl ++ "- b" ++ nl ++ "- c".

Definition long_bullet_content : string :=
  "- " ++ xs 121 ++ nl ++ "- b" ++ nl ++ "- c".

Definition two_bullet_reply : string := "- a" ++ nl ++ "- b".

Definition two_section_thesis : PowerPointAgent.ThesisData :=
  PowerPointAgent.mkThesis "B2B Fintech" "US" ""
    [ PowerPointAgent.mkSection "1" "Trends" three_bullet_content;
      PowerPointAgent.mkSection "5" "Companies" "No bullets here." ].

Definition one_section_thesis : PowerPointAgent.ThesisData :=
  PowerPointAgent.mkThesis "B2B Fintech" "US" ""
    [ PowerPointAgent.mkSection "1" "Trends" three_bullet_content ].

(** Extracted data of a four-slide deck whose third slide has two
    countable bullets. *)
Definition two_bullet_deck : list FinalPassAgent.SlideData :=
  [ FinalPassAgent.mkData 1 "" [] "Title" 1 [];
    FinalPassAgent.mkData 2 "Executive Summary" [] "Summary" 4 [];
    FinalPassAgent.mkData 3 "1. Trends" [] "Trends" 2 [];
    FinalPassAgent.mkData 4 "" [] "Thank You" 0 [] ].

(** A content slide as the deck builders lay it out. *)
Definition titled_slide (title b1 b2 b3 : string) : Pptx.Slide :=
  Pptx.layout_title_and_content [title] [b1; b2; b3].

(** A four-slide deck whose third slide has nothing countable. *)
Definition thin_deck : Pptx.Presentation :=
  [ Pptx.mkSlide [Pptx.add_textbox "Venture Capital Industry Thesis"] None;
    titled_slide "Executive Summary" "Payments volume grew 40%"
                 "Embedded finance expands" "Regulation tightens";
    titled_slide "1. Trends" "a" "b" "c";
    Pptx.mkSlide [Pptx.add_textbox "Thank You"] None ].

(** The fix that a model replying "- x" produces for its third slide. *)
Definition thin_fix : FinalPassAgent.Fix :=
  FinalPassAgent.mkFix
    ("1. Trends" ++ nl ++ "a" ++ nl ++ "b" ++ nl ++ "c" ++ nl) "- x".



Definition grammar_reply_line : string := "SLIDE 3: teh market -> the market".

(** [n] times the digit 7. *)
Definition sevens (n : nat) : string :=
  string_of_list_ascii (repeat "7"%char n).

(** A line of the grammar reply whose slide number has 4301 digits. *)
Definition long_number_line : string :=
  "SLIDE " ++ sevens 4301 ++ ": a -> b".

(** A bullet of 120 control characters, and a reply that holds it. *)
Definition control_bullet : string :=
  string_of_list_ascii (repeat "001"%char 120).

Definition control_reply : string := "- " ++ control_bullet.

End Examples.

(* ===================================================================== *)
(** * Facts about strings *)
(* ===================================================================== *)


Section StringFacts.
Import Py.

Lemma length_append (a b : string) :
  String.length (a ++ b)%string = String.length a + String.length b.
Proof. induction a as [|x a IH]; simpl; [reflexivity | now rewrite IH]. Qed.

Lemma append_nil_r (a : string) : (a ++ "")%string = a.
Proof. induction a as [|x a IH]; simpl; [reflexivity | now rewrite IH]. Qed.

Lemma append_assoc (a b c : string) :
  ((a ++ b) ++ c)%string = (a ++ (b ++ c))%string.
Proof. induction a as [|x a IH]; simpl; [reflexivity | now rewrite IH]. Qed.

Lemma length_slice_to (n : nat) (s : string) :
  String.length (slice_to n s) = Nat.min n (String.length s).
Proof.
  revert s; induction n as [|n IH]; intros [|x s]; simpl; auto.
Qed.

Lemma slice_to_append (w t : string) :
  slice_to (String.length w) (w ++ t)%string = w.
Proof. induction w as [|x w IH]; simpl; [reflexivity | now rewrite IH]. Qed.

Lemma is_empty_true (s : string) : is_empty s = true -> s = "".
Proof. destruct s; [reflexivity | discriminate]. Qed.

End StringFacts.

(* ===================================================================== *)
(** * The matcher agrees with the declarative reading of a pattern *)
(* ===================================================================== *)

Section MatcherFacts.
Import Py Re.

Lemma spans_refl (c : cursor) : spans c c "".
Proof. split; simpl; [reflexivity | lia]. Qed.

Lemma spans_trans (c c1 c2 : cursor) (w1 w2 : string) :
  spans c c1 w1 -> spans c1 c2 w2 -> spans c c2 (w1 ++ w2)%string.
Proof.
  intros [H1 P1] [H2 P2]; split.
  - rewrite H1, H2, append_assoc; reflexivity.
  - rewrite P2, P1, length_append; lia.
Qed.

Lemma eat_spans (s : string) (c c' : cursor) :
  eat s c = Some c' -> spans c c' s.
Proof.
  revert c; induction s as [|a s IH]; simpl; intros c H.
  - injection H as <-; apply spans_refl.
  - destruct (rest c) as [|b t] eqn:E; [discriminate|].
    destruct (Ascii.eqb a b) eqn:Eab; [|discriminate].
    apply Ascii.eqb_eq in Eab; subst b.
    apply IH in H; destruct H as [H1 H2]; simpl in *.
    split; [now rewrite E, H1 | rewrite H2; simpl; lia].
Qed.

Lemma matches_spans r c g c' g' :
  matches r c g c' g' -> exists w, spans c c' w.
Proof.
  induction 1;
    repeat match goal with
           | IH : exists _, spans _ _ _ |- _ => destruct IH
           end;
    eauto using spans_refl, eat_spans, spans_trans.
  exists (String a ""); split; simpl; [assumption | lia].
Qed.

Lemma spans_rest_length c c' w :
  spans c c' w ->
  String.length (rest c) = String.length w + String.length (rest c').
Proof. intros [H _]; rewrite H; apply length_append. Qed.

(** Inversion of [matches], one lemma per construct. *)
Lemma matches_lit_inv s c g c' g' :
  matches (Lit s) c g c' g' -> eat s c = Some c' /\ g' = g.
Proof. inversion 1; subst; auto. Qed.

Lemma matches_cls_inv p c g c' g' :
  matches (Cls p) c g c' g' ->
  exists a t, rest c = String a t /\ p a = true /\
              c' = Cursor (S (pos c)) (Some a) t /\ g' = g.
Proof. inversion 1; subst; eauto 10. Qed.

Lemma matches_cat_inv r1 r2 c g c' g' :
  matches (Cat r1 r2) c g c' g' ->
  exists c1 g1, matches r1 c g c1 g1 /\ matches r2 c1 g1 c' g'.
Proof. inversion 1; subst; eauto. Qed.

Lemma matches_alt_inv r1 r2 c g c' g' :
  matches (Alt r1 r2) c g c' g' ->
  matches r1 c g c' g' \/ matches r2 c g c' g'.
Proof. inversion 1; subst; auto. Qed.

Lemma matches_rep_inv greedy least r c g c' g' :
  matches (Rep greedy least r) c g c' g' ->
  (least = 0 /\ c' = c /\ g' = g) \/
  (exists c1 g1, matches r c g c1 g1 /\ (pos c < pos c1)%nat /\
                 matches (Rep greedy (Nat.pred least) r) c1 g1 c' g').
Proof. inversion 1; subst; eauto 10. Qed.

Lemma matches_grp_inv i r c g c' g' :
  matches (Grp i r) c g c' g' ->
  exists g1, matches r c g c' g1 /\
             g' = (i, slice_to (pos c' - pos c) (rest c)) :: g1.
Proof. inversion 1; subst; eauto. Qed.

Lemma matches_ahead_inv r c g c' g' :
  matches (Ahead r) c g c' g' ->
  c' = c /\ g' = g /\ exists c1 g1, matches r c g c1 g1.
Proof. inversion 1; subst; eauto. Qed.

Lemma matches_bol_inv m c g c' g' :
  matches (Bol m) c g c' g' -> at_bol m c = true /\ c' = c /\ g' = g.
Proof. inversion 1; subst; auto. Qed.

Lemma matches_eol_inv m c g c' g' :
  matches (Eol m) c g c' g' -> at_eol m c = true /\ c' = c /\ g' = g.
Proof. inversion 1; subst; auto. Qed.

(** Soundness of one repetition, given soundness of its body. *)
Lemma rep_loop_sound (r1 : regex) (step : cursor -> groups -> cont -> answer)
      (greedy : bool) (k : cont) :
  (forall c g k' a, step c g k' = Some a ->
      exists c' g', matches r1 c g c' g' /\ k' c' g' = Some a) ->
  forall fuel least c g a,
    rep_loop step greedy k fuel least c g = Some a ->
    exists c' g', matches (Rep greedy least r1) c g c' g' /\ k c' g' = Some a.
Proof.
  intros Hstep; induction fuel as [|fuel IH]; intros least c g a H;
    [discriminate|].
  simpl in H.
  assert (Hmore : forall a,
    step c g (fun c' g' =>
      if (pos c <? pos c')%nat
      then rep_loop step greedy k fuel (Nat.pred least) c' g' else None)
    = Some a ->
    exists c' g', matches (Rep greedy least r1) c g c' g' /\ k c' g' = Some a).
  { intros a0 Ha. apply Hstep in Ha. destruct Ha as (c1 & g1 & M1 & K1).
    destruct (pos c <? pos c1)%nat eqn:Lt; [|discriminate].
    apply Nat.ltb_lt in Lt. apply IH in K1.
    destruct K1 as (c2 & g2 & M2 & K2).
    exists c2, g2; split; [eapply M_RepMore; eauto | assumption]. }
  assert (Hstop : forall a,
    match least with 0 => k c g | S _ => None end = Some a ->
    exists c' g', matches (Rep greedy least r1) c g c' g' /\ k c' g' = Some a).
  { intros a0 Ha. destruct least; [|discriminate].
    exists c, g; split; [constructor | assumption]. }
  destruct greedy.
  - destruct (step c g _) eqn:E.
    + injection H as <-. now apply Hmore.
    + now apply Hstop.
  - destruct (match least with 0 => k c g | S _ => None end) eqn:E.
    + injection H as <-. now apply Hstop.
    + now apply Hmore.
Qed.

(** Whatever the matcher returns comes from a match of the pattern that
    the continuation accepts. *)
Theorem run_sound (r : regex) :
  forall c g k a, run r c g k = Some a ->
    exists c' g', matches r c g c' g' /\ k c' g' = Some a.
Proof.
  induction r; intros c g k a H; cbn [run] in H.
  - destruct (eat s c) as [c'|] eqn:E; [|discriminate].
    exists c', g; split; [now constructor | assumption].
  - destruct (rest c) as [|x t] eqn:E; [discriminate|].
    destruct (p x) eqn:Px; [|discriminate].
    exists (Cursor (S (pos c)) (Some x) t), g;
      split; [now constructor | assumption].
  - apply IHr1 in H. destruct H as (c1 & g1 & M1 & H).
    apply IHr2 in H. destruct H as (c2 & g2 & M2 & H).
    exists c2, g2; split; [eapply M_Cat; eassumption | assumption].
  - destruct (run r1 c g k) eqn:E.
    + injection H as <-. apply IHr1 in E. destruct E as (c' & g' & M & K).
      exists c', g'; split; [now apply M_AltL | assumption].
    + apply IHr2 in H. destruct H as (c' & g' & M & K).
      exists c', g'; split; [now apply M_AltR | assumption].
  - exact (rep_loop_sound r (run r) greedy k IHr _ _ _ _ _ H).
  - apply IHr in H. destruct H as (c' & g' & M & K).
    eexists c', _; split; [apply M_Grp; eassumption | assumption].
  - destruct (run r c g _) as [[c1 g1]|] eqn:E; [|discriminate].
    apply IHr in E. destruct E as (c' & g' & M & K).
    exists c, g; split; [eapply M_Ahead; eassumption | assumption].
  - destruct (at_bol multiline c) eqn:E; [|discriminate].
    exists c, g; split; [now constructor | assumption].
  - destruct (at_eol multiline c) eqn:E; [|discriminate].
    exists c, g; split; [now constructor | assumption].
Qed.

Lemma run_cat_inv r1 r2 c g k a :
  run (Cat r1 r2) c g k = Some a ->
  exists c1 g1, matches r1 c g c1 g1 /\ run r2 c1 g1 k = Some a.
Proof.
  intros H.
  change (run r1 c g (fun c' g' => run r2 c' g' k) = Some a) in H.
  now apply run_sound in H.
Qed.

Lemma run_grp_eq i r c g k :
  run (Grp i r) c g k
  = run r c g (fun c' g' =>
                 k c' ((i, slice_to (pos c' - pos c) (rest c)) :: g')).
Proof. reflexivity. Qed.

(** Completeness of one repetition, given completeness of its body. *)
Lemma rep_loop_complete (r1 : regex)
      (step : cursor -> groups -> cont -> answer)
      (greedy : bool) (k : cont) :
  (forall c g c' g' k', matches r1 c g c' g' -> k' c' g' <> None ->
      step c g k' <> None) ->
  forall fuel least c g c' g',
    matches (Rep greedy least r1) c g c' g' ->
    (String.length (rest c) < fuel)%nat ->
    k c' g' <> None ->
    rep_loop step greedy k fuel least c g <> None.
Proof.
  intros Hstep; induction fuel as [|fuel IH]; intros least c g c' g' M F K;
    [lia|].
  simpl.
  destruct (matches_rep_inv _ _ _ _ _ _ _ M)
    as [(-> & -> & ->) | (c1 & g1 & M1 & Lt & M2)].
  - (* no further iteration *)
    destruct greedy.
    + destruct (step c g _); [discriminate | assumption].
    + destruct (k c g); [discriminate | contradiction].
  - (* one more iteration *)
    assert (More :
      step c g (fun c' g' =>
        if (pos c <? pos c')%nat
        then rep_loop step greedy k fuel (Nat.pred least) c' g' else None)
      <> None).
    { eapply Hstep; [eassumption|].
      apply Nat.ltb_lt in Lt as Ltb; rewrite Ltb.
      eapply IH; [eassumption | | assumption].
      destruct (matches_spans _ _ _ _ _ M1) as [w Sp].
      pose proof (spans_rest_length _ _ _ Sp) as L.
      destruct Sp as [_ P]. lia. }
    destruct greedy.
    + destruct (step c g _); [discriminate | contradiction].
    + destruct (match least with 0 => k c g | S _ => None end);
        [discriminate | assumption].
Qed.

(** If the pattern has a match that the continuation accepts, the matcher
    returns an answer (that of the preferred match). *)
Theorem run_complete (r : regex) :
  forall c g c' g' k, matches r c g c' g' -> k c' g' <> None ->
    run r c g k <> None.
Proof.
  induction r; intros c g c' g' k M K; cbn [run].
  - apply matches_lit_inv in M as [E ->]. rewrite E; assumption.
  - apply matches_cls_inv in M as (a & t & E & P & -> & ->).
    rewrite E, P; assumption.
  - apply matches_cat_inv in M as (c1 & g1 & M1 & M2).
    eapply IHr1; [eassumption|]. eapply IHr2; eassumption.
  - apply matches_alt_inv in M as [M | M].
    + destruct (run r1 c g k) eqn:E; [discriminate|].
      exfalso; eapply IHr1; eauto.
    + destruct (run r1 c g k); [discriminate|]. eapply IHr2; eauto.
  - eapply rep_loop_complete; eauto.
  - apply matches_grp_inv in M as (g1 & M & ->).
    eapply IHr; [eassumption | assumption].
  - apply matches_ahead_inv in M as (-> & -> & c1 & g1 & M).
    destruct (run r c g _) eqn:E; [assumption|].
    exfalso; eapply IHr; [eassumption | | eassumption]. discriminate.
  - apply matches_bol_inv in M as (E & -> & ->). rewrite E; assumption.
  - apply matches_eol_inv in M as (E & -> & ->). rewrite E; assumption.
Qed.

End MatcherFacts.

(* ===================================================================== *)
(** * Scanning: [search] and [finditer] *)
(* ===================================================================== *)

Section ScanFacts.
Import Py Re.

Lemma accept_inv ma p c g a :
  accept ma p c g = Some a -> a = (c, g) /\ (ma = true -> pos c <> p).
Proof.
  unfold accept. destruct ma; simpl.
  - destruct (pos c =? p)%nat eqn:E; [discriminate|].
    apply Nat.eqb_neq in E. intros [= <-]; auto.
  - intros [= <-]; split; [reflexivity | discriminate].
Qed.

(** A reported match is the answer of the matcher at its start offset. *)
Lemma scan_run (r : regex) :
  forall s ma p pv m,
    scan r ma p pv s = Some m ->
    exists w s' ma',
      s = (w ++ s')%string /\ m_start m = p + String.length w /\
      m_end m = pos (m_tail m) /\
      (ma = false -> ma' = false) /\
      run r (Cursor (m_start m) (prev_after pv w) s') []
          (accept ma' (m_start m))
      = Some (m_tail m, m_groups m) /\
      (ma = true -> m_end m <> p).
Proof.
  induction s as [|a s IH]; intros ma p pv m H; cbn [scan] in H.
  - destruct (run r (Cursor p pv "") [] (accept ma p)) as [[c' g]|] eqn:E;
      [|discriminate].
    injection H as <-. pose proof E as E'. apply run_sound in E'.
    destruct E' as (c1 & g1 & M & A).
    apply accept_inv in A as [[= <- <-] N].
    exists "", "", ma; simpl; rewrite Nat.add_0_r; repeat split; auto.
  - destruct (run r (Cursor p pv (String a s)) [] (accept ma p))
      as [[c' g]|] eqn:E.
    + injection H as <-. pose proof E as E'. apply run_sound in E'.
      destruct E' as (c1 & g1 & M & A).
      apply accept_inv in A as [[= <- <-] N].
      exists "", (String a s), ma; simpl; rewrite Nat.add_0_r;
        repeat split; auto.
    + apply IH in H. destruct H as (w & s' & ma' & -> & St & En & F & R & _).
      specialize (F eq_refl); subst ma'.
      exists (String a w), s', false; simpl; repeat split; auto; try lia.
      intros _. apply run_sound in R. destruct R as (c1 & g1 & M & A).
      apply accept_inv in A as [[= <- <-] _].
      destruct (matches_spans _ _ _ _ _ M) as [w' [_ P]].
      simpl in P. lia.
Qed.

(** A reported match is a match of the pattern at its start offset. *)
Lemma scan_sound (r : regex) :
  forall s ma p pv m,
    scan r ma p pv s = Some m ->
    exists w s',
      s = (w ++ s')%string /\ m_start m = p + String.length w /\
      m_end m = pos (m_tail m) /\
      matches r (Cursor (m_start m) (prev_after pv w) s') []
              (m_tail m) (m_groups m) /\
      (ma = true -> m_end m <> p).
Proof.
  intros s ma p pv m H. apply scan_run in H.
  destruct H as (w & s' & ma' & E & St & En & _ & R & N).
  exists w, s'; repeat split; auto.
  apply run_sound in R. destruct R as (c1 & g1 & M & A).
  apply accept_inv in A as [[= <- <-] _]. assumption.
Qed.

(** If the pattern matches somewhere, the scan reports a match. *)
Lemma scan_complete (r : regex) :
  forall w s' p pv c' g',
    matches r (Cursor (p + String.length w) (prev_after pv w) s') [] c' g' ->
    scan r false p pv (w ++ s')%string <> None.
Proof.
  induction w as [|a w IH]; intros s' p pv c' g' M; simpl in M.
  - rewrite Nat.add_0_r in M. simpl.
    assert (R : run r (Cursor p pv s') [] (accept false p) <> None)
      by (eapply run_complete; [eassumption | discriminate]).
    destruct s'; cbn [scan];
      destruct (run r _ [] (accept false p)) as [[? ?]|];
      try discriminate; contradiction.
  - simpl. cbn [scan].
    destruct (run r _ [] (accept false p)) as [[? ?]|]; [discriminate|].
    apply (IH s' (S p) (Some a) c' g').
    replace (S p + String.length w) with (p + S (String.length w)) by lia.
    assumption.
Qed.

Lemma search_sound (r : regex) (s : string) (m : rmatch) :
  search r s = Some m ->
  exists w s',
    s = (w ++ s')%string /\ m_start m = String.length w /\
    m_end m = pos (m_tail m) /\
    matches r (Cursor (m_start m) (prev_after None w) s') []
            (m_tail m) (m_groups m).
Proof.
  unfold search, scan_at, start_of; simpl; intros H.
  apply scan_sound in H. destruct H as (w & s' & ? & ? & ? & ? & _).
  exists w, s'; auto.
Qed.

Lemma search_run (r : regex) (s : string) (m : rmatch) :
  search r s = Some m ->
  exists w s',
    s = (w ++ s')%string /\ m_start m = String.length w /\
    run r (Cursor (m_start m) (prev_after None w) s') []
        (accept false (m_start m))
    = Some (m_tail m, m_groups m).
Proof.
  unfold search, scan_at, start_of; simpl; intros H.
  apply scan_run in H. destruct H as (w & s' & ma' & ? & ? & ? & F & ? & _).
  rewrite (F eq_refl) in *. exists w, s'; auto.
Qed.

Lemma search_complete (r : regex) (w s' : string) c' g' :
  matches r (Cursor (String.length w) (prev_after None w) s') [] c' g' ->
  search r (w ++ s')%string <> None.
Proof.
  intros M. unfold search, scan_at, start_of; simpl.
  eapply scan_complete. simpl. eassumption.
Qed.

Lemma scan_at_bounds r ma c m :
  scan_at r ma c = Some m ->
  pos c <= m_start m /\ m_start m <= m_end m /\
  m_end m = pos (m_tail m) /\
  m_end m + String.length (rest (m_tail m))
    = pos c + String.length (rest c) /\
  (ma = true -> m_end m <> pos c).
Proof.
  unfold scan_at; intros H. apply scan_sound in H.
  destruct H as (w & s' & E & St & En & M & N).
  destruct (matches_spans _ _ _ _ _ M) as [w' Sp].
  pose proof (spans_rest_length _ _ _ Sp) as L.
  destruct Sp as [_ P]; simpl in *.
  rewrite E, length_append. repeat split; auto; lia.
Qed.

Lemma finditer_from_in_order r :
  forall fuel ma c, in_order (pos c) (finditer_from fuel r ma c).
Proof.
  induction fuel as [|fuel IH]; intros ma c; simpl; [exact I|].
  destruct (scan_at r ma c) as [m|] eqn:E; simpl; [|exact I].
  apply scan_at_bounds in E as (A & B & C & _).
  repeat split; auto. rewrite C. apply IH.
Qed.

(** The fuel of [finditer] is never the reason to stop. *)
Lemma finditer_from_fuel r :
  forall fuel fuel' (ma : bool) (c : cursor),
    2 * String.length (rest c) + (if ma then 0 else 1) < fuel ->
    2 * String.length (rest c) + (if ma then 0 else 1) < fuel' ->
    finditer_from fuel r ma c = finditer_from fuel' r ma c.
Proof.
  induction fuel as [|fuel IH]; intros fuel' ma c F F'; [lia|].
  destruct fuel' as [|fuel']; [lia|]. simpl.
  destruct (scan_at r ma c) as [m|] eqn:E; [|reflexivity].
  f_equal. apply scan_at_bounds in E as (A & B & C & D & N).
  destruct (m_end m =? m_start m)%nat eqn:Em.
  - apply Nat.eqb_eq in Em.
    destruct ma; [specialize (N eq_refl)|]; apply IH; lia.
  - apply Nat.eqb_neq in Em. apply IH; destruct ma; lia.
Qed.

Theorem finditer_enough_fuel r s n :
  finditer_from (2 * String.length s + 2 + n) r false (start_of s)
  = finditer r s.
Proof. apply finditer_from_fuel; simpl; lia. Qed.

Theorem finditer_in_order r s : in_order 0 (finditer r s).
Proof. apply (finditer_from_in_order r _ false (start_of s)). Qed.

End ScanFacts.

Section ScanTrace.
Import Py Re Spec.

(** The scan tries the start positions in order: it reports the answer of
    the matcher at the first position where the matcher answers, and the
    matcher has no answer at any position before it. *)
Lemma scan_trace (r : regex) :
  forall s ma p pv,
    match scan r ma p pv s with
    | None =>
        forall w s',
          s = (w ++ s')%string ->
          Re.run r (Cursor (p + String.length w) (prev_after pv w) s') []
                 (accept (ma && is_empty w) (p + String.length w))
          = None
    | Some m =>
        exists w s',
          s = (w ++ s')%string /\
          m_start m = p + String.length w /\
          Re.run r (Cursor (p + String.length w) (prev_after pv w) s') []
                 (accept (ma && is_empty w) (p + String.length w))
          = Some (m_tail m, m_groups m) /\
          forall w1 w2,
            w = (w1 ++ w2)%string -> w2 <> "" ->
            Re.run r (Cursor (p + String.length w1) (prev_after pv w1)
                             (w2 ++ s')%string) []
                   (accept (ma && is_empty w1) (p + String.length w1))
            = None
    end.
Proof.
  induction s as [|a s IH]; intros ma p pv; cbn [scan].
  - destruct (Re.run r (Cursor p pv "") [] (accept ma p)) as [[c' g]|] eqn:E.
    + exists "", "". cbn [String.length prev_after is_empty append m_start
                          m_tail m_groups].
      rewrite Nat.add_0_r, andb_true_r. repeat split; auto.
      intros w1 w2 E' N. destruct w1; [simpl in E'; congruence|discriminate].
    + intros w s' E'. destruct w; [|discriminate]. simpl in E'; subst s'.
      cbn [String.length prev_after is_empty].
      now rewrite Nat.add_0_r, andb_true_r.
  - destruct (Re.run r (Cursor p pv (String a s)) [] (accept ma p))
      as [[c' g]|] eqn:E.
    + exists "", (String a s).
      cbn [String.length prev_after is_empty append m_start m_tail m_groups].
      rewrite Nat.add_0_r, andb_true_r. repeat split; auto.
      intros w1 w2 E' N. destruct w1; [simpl in E'; congruence|discriminate].
    + specialize (IH false (S p) (Some a)).
      destruct (scan r false (S p) (Some a) s) as [m|].
      * destruct IH as (w & s' & -> & St & R & Sk).
        exists (String a w), s'.
        cbn [String.length prev_after is_empty append].
        rewrite andb_false_r.
        replace (p + S (String.length w)) with (S p + String.length w)
          by lia.
        repeat split; auto.
        intros w1 w2 E' N. destruct w1 as [|b w1].
        -- simpl in E'. subst w2.
           cbn [String.length prev_after is_empty append].
           now rewrite Nat.add_0_r, andb_true_r.
        -- simpl in E'. injection E' as <- E'.
           cbn [String.length prev_after is_empty append].
           rewrite andb_false_r.
           replace (p + S (String.length w1)) with (S p + String.length w1)
             by lia.
           now apply Sk.
      * intros w s' E'. destruct w as [|b w].
        -- simpl in E'. subst s'.
           cbn [String.length prev_after is_empty].
           now rewrite Nat.add_0_r, andb_true_r.
        -- simpl in E'. injection E' as <- E'.
           cbn [String.length prev_after is_empty]. rewrite andb_false_r.
           replace (p + S (String.length w)) with (S p + String.length w)
             by lia.
           now apply IH.
Qed.

(** Where the pattern has no match, [re.sub] leaves the text as it is. *)
Lemma sub_none (r : regex) (repl s : string) :
  search r s = None -> sub r repl s = s.
Proof.
  intros H. unfold sub.
  replace (2 * String.length s + 2) with (S (2 * String.length s + 1))
    by lia.
  cbn [sub_from]. unfold search in H. now rewrite H.
Qed.

Lemma append_split (w t a b : string) :
  (w ++ t)%string = (a ++ b)%string ->
  (exists w2, w = (a ++ w2)%string /\ b = (w2 ++ t)%string) \/
  (exists a2, a = (w ++ a2)%string /\ t = (a2 ++ b)%string).
Proof.
  revert a. induction w as [|x w IH]; intros a E.
  - right. exists a. auto.
  - destruct a as [|y a].
    + left. exists (String x w). auto.
    + simpl in E. injection E as <- E.
      destruct (IH a E) as [(w2 & -> & ->) | (a2 & -> & ->)].
      * left. exists w2. auto.
      * right. exists a2. auto.
Qed.

(** [finditer] passes over no place where the pattern has a match that is
    not empty: such a place is the start of a reported match or lies
    inside one. *)
Lemma finditer_from_covers (r : regex) (P : string -> Prop) :
  (forall p pv s' ma, P s' ->
     Re.run r (Cursor p pv s') [] (accept ma p) <> None) ->
  forall fuel (ma : bool) (c : cursor) (w s' : string),
    2 * String.length (rest c) + (if ma then 0 else 1) < fuel ->
    rest c = (w ++ s')%string -> P s' ->
    exists m,
      In m (finditer_from fuel r ma c) /\
      m_start m <= pos c + String.length w /\
      (pos c + String.length w < m_end m \/
       pos c + String.length w = m_start m).
Proof.
  intros HP. induction fuel as [|fuel IH]; intros ma c w s' F E Ps; [lia|].
  cbn [finditer_from]. unfold scan_at.
  pose proof (scan_trace r (rest c) ma (pos c) (prev c)) as T.
  pose proof (scan_at_bounds r ma c) as B. unfold scan_at in B.
  destruct (scan r ma (pos c) (prev c) (rest c)) as [m|].
  - destruct T as (w0 & s0 & E0 & St & Run & Skip).
    destruct (B m eq_refl) as (_ & Le & En & Len & Adv).
    destruct (Nat.lt_ge_cases (String.length w) (String.length w0))
      as [Lt | Ge].
    + exfalso. rewrite E0 in E.
      apply append_split in E as [(w2 & Ew & Es) | (a2 & Ea & _)].
      * assert (N2 : w2 <> "").
        { intros ->. rewrite append_nil_r in Ew. subst w0. lia. }
        specialize (Skip w w2 Ew N2). rewrite <- Es in Skip.
        revert Skip. now apply HP.
      * rewrite Ea, length_append in Lt. lia.
    + destruct (Nat.lt_ge_cases (pos c + String.length w) (m_end m))
        as [In_ | Out].
      { exists m. split; [now left|]. split; [lia | now left]. }
      destruct (Nat.eq_dec (pos c + String.length w) (m_start m))
        as [Eq | Ne].
      { exists m. split; [now left|]. split; [lia | now right]. }
      apply run_sound in Run as (c1 & g1 & M & Ac).
      apply accept_inv in Ac as [[= Et _] _]. subst c1.
      destruct (matches_spans _ _ _ _ _ M) as (mt & Em & Pm).
      cbn [rest pos] in Em, Pm.
      assert (Ew : exists w', w = ((w0 ++ mt) ++ w')%string /\
                              rest (m_tail m) = (w' ++ s')%string).
      { rewrite E0, Em, <- append_assoc in E.
        apply append_split in E as [(w2 & Ew & Es) | (a2 & Ea & Es)].
        - assert (L : String.length (w0 ++ mt)
                      = String.length (w ++ w2)) by now rewrite Ew.
          rewrite !length_append in L.
          destruct w2 as [|x w2]; [|simpl in L; lia].
          exists "". rewrite append_nil_r in Ew. rewrite append_nil_r.
          cbn [append] in Es. auto.
        - exists a2. auto. }
      destruct Ew as (w' & Ew & Et).
      destruct (IH (m_end m =? m_start m)%nat (m_tail m) w' s')
        as (m' & I & L1 & L2); auto.
      * destruct (m_end m =? m_start m)%nat eqn:Em_.
        -- apply Nat.eqb_eq in Em_.
           destruct ma; [specialize (Adv eq_refl)|]; lia.
        -- apply Nat.eqb_neq in Em_. destruct ma; lia.
      * assert (Ep : pos (m_tail m) + String.length w'
                     = pos c + String.length w).
        { rewrite Ew, !length_append. lia. }
        rewrite Ep in L1, L2.
        exists m'. split; [now right|]. auto.
  - exfalso. revert T. intros T. apply (HP _ _ _ _ Ps (T w s' E)).
Qed.

End ScanTrace.

(* ===================================================================== *)
(** * Literals and substrings *)
(* ===================================================================== *)

Section SubstringFacts.
Import Py Re.

Lemma startswith_append (p t : string) : startswith p (p ++ t)%string = true.
Proof.
  induction p as [|a p IH]; simpl; [reflexivity|].
  now rewrite Ascii.eqb_refl, IH.
Qed.

Lemma startswith_inv (p s : string) :
  startswith p s = true -> exists t, s = (p ++ t)%string.
Proof.
  revert s; induction p as [|a p IH]; intros s H; simpl in *.
  - now exists s.
  - destruct s as [|b s]; [discriminate|].
    apply andb_true_iff in H as [E H]. apply Ascii.eqb_eq in E; subst b.
    destruct (IH _ H) as [t ->]. now exists t.
Qed.

Lemma contains_intro (sub w t : string) :
  contains sub (w ++ sub ++ t)%string = true.
Proof.
  induction w as [|a w IH]; simpl.
  - destruct (sub ++ t)%string eqn:E; simpl;
      rewrite <- E, startswith_append; reflexivity.
  - rewrite IH. apply orb_true_r.
Qed.

Lemma eat_intro (l t : string) :
  forall p pv,
    eat l (Cursor p pv (l ++ t)%string)
    = Some (Cursor (p + String.length l) (prev_after pv l) t).
Proof.
  induction l as [|a l IH]; intros p pv; simpl.
  - now rewrite Nat.add_0_r.
  - rewrite Ascii.eqb_refl, IH. do 2 f_equal. lia.
Qed.

(** A pattern that begins with a literal is found only in a subject that
    contains the literal. *)
Lemma search_literal (l : string) (r : regex) (s : string) (m : rmatch) :
  search (Cat (Lit l) r) s = Some m -> contains l s = true.
Proof.
  intros H. apply search_sound in H as (w & s' & -> & _ & _ & M).
  apply matches_cat_inv in M as (c1 & g1 & M & _).
  apply matches_lit_inv in M as [E _].
  apply eat_spans in E as [E _]; simpl in E. rewrite E.
  apply contains_intro.
Qed.

Lemma search_bol_literal (b : bool) (l : string) (r : regex) (s : string)
      (m : rmatch) :
  search (Cat (Bol b) (Cat (Lit l) r)) s = Some m -> contains l s = true.
Proof.
  intros H. apply search_sound in H as (w & s' & -> & _ & _ & M).
  apply matches_cat_inv in M as (c0 & g0 & M0 & M).
  apply matches_bol_inv in M0 as (_ & -> & ->).
  apply matches_cat_inv in M as (c1 & g1 & M & _).
  apply matches_lit_inv in M as [E _].
  apply eat_spans in E as [E _]; simpl in E. rewrite E.
  apply contains_intro.
Qed.

Lemma finditer_nil (r : regex) (s : string) :
  search r s = None -> finditer r s = [].
Proof.
  unfold finditer, search; intros H.
  replace (2 * String.length s + 2) with (S (2 * String.length s + 1))
    by lia.
  cbn [finditer_from]. now rewrite H.
Qed.

Lemma fold_left_snoc {A B} (f : A -> B) (l : list A) (acc : list B) :
  fold_left (fun acc x => acc ++ [f x]) l acc = acc ++ map f l.
Proof.
  revert acc; induction l as [|x l IH]; intros acc; simpl.
  - now rewrite app_nil_r.
  - rewrite IH, <- app_assoc. reflexivity.
Qed.

End SubstringFacts.

(* ===================================================================== *)
(** * Repetitions of a character class *)
(* ===================================================================== *)

Section GreedyFacts.
Import Py Re Spec.

Lemma rep_loop_stop_total step k fuel c g :
  total k -> rep_loop step true k (S fuel) 0 c g <> None.
Proof.
  intros T; simpl. destruct (step c g _); [discriminate | apply T].
Qed.

(** A greedy [p*] or [p+] before a continuation that accepts everything
    takes the whole run of [p] characters. *)
Lemma rep_greedy_longest (p : ascii -> bool)
      (step : cursor -> groups -> cont -> answer) (k : cont) :
  (forall c g k', step c g k' = run (Cls p) c g k') ->
  total k ->
  forall fuel least c g a,
    least <= 1 -> String.length (rest c) < fuel ->
    rep_loop step true k fuel least c g = Some a ->
    exists c',
      matches (Rep true least (Cls p)) c g c' g /\ k c' g = Some a /\
      next_not p c'.
Proof.
  intros Hstep T; induction fuel as [|fuel IH]; intros least c g a L F H;
    [lia|].
  cbn [rep_loop] in H. rewrite Hstep in H. cbn [run] in H.
  destruct (rest c) as [|x t] eqn:R.
  - destruct least; [|discriminate].
    exists c; repeat split; [constructor | assumption |].
    unfold next_not; now rewrite R.
  - destruct (p x) eqn:Px.
    + cbn [pos] in H.
      assert (Lt : (pos c <? S (pos c))%nat = true)
        by (apply Nat.ltb_lt; lia).
      rewrite Lt in H. simpl in F.
      destruct fuel as [|fuel']; [lia|].
      assert (P0 : Nat.pred least = 0) by lia. rewrite P0 in *.
      destruct (rep_loop step true k (S fuel') 0
                         (Cursor (S (pos c)) (Some x) t) g) eqn:E.
      * injection H as <-.
        apply IH in E; [|lia|simpl; lia].
        destruct E as (c' & M & K & N).
        exists c'; repeat split; auto.
        eapply M_RepMore; [eapply M_Cls; eassumption | simpl; lia |].
        rewrite P0; assumption.
      * exfalso; revert E; apply rep_loop_stop_total; assumption.
    + destruct least; [|discriminate].
      exists c; repeat split; [constructor | assumption |].
      unfold next_not; now rewrite R.
Qed.

Lemma run_greedy_class_longest (p : ascii -> bool) (k : cont) least c g a :
  total k -> least <= 1 ->
  run (Rep true least (Cls p)) c g k = Some a ->
  exists c',
    matches (Rep true least (Cls p)) c g c' g /\ k c' g = Some a /\
    next_not p c'.
Proof.
  intros T L H. cbn [run] in H.
  eapply (rep_greedy_longest p (run (Cls p)) k); eauto.
Qed.

(** What a repetition of a character class matches. *)
Lemma matches_rep_class greedy (p : ascii -> bool) :
  forall least c g c' g',
    matches (Rep greedy least (Cls p)) c g c' g' ->
    exists w, spans c c' w /\ all p w = true /\ g' = g /\
              least <= String.length w.
Proof.
  intros least c g c' g' M.
  remember (Rep greedy least (Cls p)) as r eqn:Er.
  revert least Er.
  induction M; intros least' Er; try discriminate.
  - injection Er as -> <- ->. exists ""; repeat split; simpl; auto; lia.
  - injection Er as -> -> ->.
    destruct (IHM2 (Nat.pred least') eq_refl) as (w2 & Sp2 & A2 & -> & L2).
    apply matches_cls_inv in M1 as (a & t & R & Pa & -> & ->).
    exists (String a w2); repeat split; simpl.
    + destruct Sp2 as [E _]; simpl in E. now rewrite R, E.
    + destruct Sp2 as [_ E]; simpl in E. lia.
    + now rewrite Pa, A2.
    + lia.
Qed.

Lemma matches_rep_class_intro greedy (p : ascii -> bool) :
  forall w least c t,
    all p w = true -> least <= String.length w ->
    rest c = (w ++ t)%string ->
    forall g, matches (Rep greedy least (Cls p)) c g
              (Cursor (pos c + String.length w) (prev_after (prev c) w) t) g.
Proof.
  induction w as [|a w IH]; intros least c t A L R g; simpl in *.
  - assert (least = 0) by lia; subst least.
    rewrite Nat.add_0_r. destruct c; simpl in *; subst. constructor.
  - apply andb_true_iff in A as [Pa A].
    eapply M_RepMore.
    + eapply M_Cls; eassumption.
    + simpl; lia.
    + replace (pos c + S (String.length w))
        with (pos (Cursor (S (pos c)) (Some a) (w ++ t)%string)
              + String.length w) by (simpl; lia).
      apply (IH (Nat.pred least) (Cursor (S (pos c)) (Some a) (w ++ t)%string) t);
        auto; lia.
Qed.

End GreedyFacts.

(* ===================================================================== *)
(** * The slide pattern of the grammar check *)
(* ===================================================================== *)

Section GrammarFacts.
Import Py Re Spec FinalPassAgent.

Lemma accept_total p : total (accept false p).
Proof. intros c g; unfold accept; simpl; discriminate. Qed.

(** Where the slide pattern matches, the line names the slide whose
    number is group 1. *)
Lemma slide_pattern_run (c : cursor) (a : cursor * groups) :
  Re.run slide_pattern c [] (accept false (pos c)) = Some a ->
  exists ws ds post,
    rest c = ("SLIDE" ++ ws ++ ds ++ post)%string /\
    all isspace ws = true /\ all isdigit ds = true /\ ds <> "" /\
    match post with String x _ => isdigit x = false | "" => True end /\
    group_lookup 1 (snd a) = Some ds.
Proof.
  unfold slide_pattern, star, plus, space, digit. intros H.
  apply run_cat_inv in H as (c1 & g1 & M1 & H).
  apply matches_lit_inv in M1 as [E1 ->]. apply eat_spans in E1 as [E1 _].
  apply run_cat_inv in H as (c2 & g2 & M2 & H).
  apply matches_rep_class in M2 as (ws & [E2 _] & A2 & -> & _).
  rewrite run_grp_eq in H.
  apply (run_greedy_class_longest isdigit) in H as (c3 & M3 & K & N);
    [| intros ? ?; apply accept_total | lia].
  apply matches_rep_class in M3 as (ds & [E3 P3] & A3 & _ & L3).
  unfold accept in K; simpl in K. injection K as <-.
  exists ws, ds, (rest c3); repeat split; auto.
  - now rewrite E1, E2, E3.
  - intros ->; simpl in L3; lia.
  - simpl. rewrite P3, E3.
    replace (pos c2 + String.length ds - pos c2) with (String.length ds)
      by lia.
    now rewrite slice_to_append.
Qed.

Lemma slide_pattern_matches (pre ws ds post : string) pv :
  all isspace ws = true -> all isdigit ds = true -> ds <> "" ->
  exists c' g',
    matches slide_pattern
            (Cursor (String.length pre) pv
                    ("SLIDE" ++ ws ++ ds ++ post)%string) [] c' g'.
Proof.
  intros Aw Ad Nd. unfold slide_pattern, star, plus, space, digit.
  do 2 eexists. eapply M_Cat.
  - apply M_Lit. apply (eat_intro "SLIDE").
  - eapply M_Cat.
    + apply (matches_rep_class_intro true isspace ws 0 _ (ds ++ post)%string);
        [assumption | lia | reflexivity].
    + apply M_Grp.
      apply (matches_rep_class_intro true isdigit ds 1 _ post);
        [assumption | destruct ds; [contradiction | simpl; lia]
        | reflexivity].
Qed.

Lemma search_slide_complete (line : string) :
  mentions_slide line -> search slide_pattern line <> None.
Proof.
  intros (pre & ws & ds & post & -> & Aw & Ad & Nd).
  destruct (slide_pattern_matches pre ws ds post (prev_after None pre)
                                  Aw Ad Nd) as (c' & g' & M).
  eapply search_complete; eassumption.
Qed.

End GrammarFacts.

(* ===================================================================== *)
(** * The document parser *)
(* ===================================================================== *)

Section ParserFacts.
Import Py Re Spec PowerPointAgent Examples.

Lemma finditer_from_located (r : regex) (md : string) :
  forall fuel ma c w0,
    md = (w0 ++ rest c)%string -> pos c = String.length w0 ->
    Forall (located md r) (finditer_from fuel r ma c).
Proof.
  induction fuel as [|fuel IH]; intros ma c w0 E P; simpl; [constructor|].
  destruct (scan_at r ma c) as [m|] eqn:S; [|constructor].
  unfold scan_at in S. apply scan_sound in S.
  destruct S as (w & s' & Er & St & En & M & _).
  destruct (matches_spans _ _ _ _ _ M) as (w' & Es & Ps); simpl in Es, Ps.
  constructor.
  - exists (w0 ++ w)%string, s', (prev_after (prev c) w).
    repeat split; auto.
    + now rewrite E, Er, append_assoc.
    + rewrite length_append; lia.
  - apply (IH _ _ (w0 ++ w ++ w')%string).
    + now rewrite E, Er, Es, !append_assoc.
    + rewrite !length_append; lia.
Qed.

Lemma finditer_located (r : regex) (md : string) :
  Forall (located md r) (finditer r md).
Proof. apply (finditer_from_located r md _ false (start_of md) ""); reflexivity. Qed.

(** Where the section pattern matches, the subject reads "## ", a number
    and ". "; group 1 is that number. *)
Lemma section_pattern_header (c c' : cursor) (g : groups) :
  matches section_pattern c [] c' g ->
  exists ds post,
    rest c = ("## " ++ ds ++ ". " ++ post)%string /\
    all isdigit ds = true /\ ds <> "" /\
    group_lookup 1 g = Some ds /\ pos c < pos c'.
Proof.
  unfold section_pattern, plus, lazy_plus, lazy_star, digit, dot. intros M.
  apply matches_cat_inv in M as (c1 & g1 & M1 & M).
  apply matches_lit_inv in M1 as [E1 ->]. apply eat_spans in E1 as [E1 P1].
  apply matches_cat_inv in M as (c2 & g2 & M2 & M).
  apply matches_grp_inv in M2 as (g2' & M2 & ->).
  apply matches_rep_class in M2 as (ds & [E2 P2] & A2 & -> & L2).
  apply matches_cat_inv in M as (c3 & g3 & M3 & M).
  apply matches_lit_inv in M3 as [E3 ->]. apply eat_spans in E3 as [E3 P3].
  apply matches_cat_inv in M as (c4 & g4 & M4 & M).
  apply matches_grp_inv in M4 as (g4' & M4 & ->).
  apply matches_rep_class in M4 as (ti & [E4 P4] & A4 & -> & L4).
  apply matches_cat_inv in M as (c5 & g5 & M5 & M).
  apply matches_lit_inv in M5 as [E5 ->]. apply eat_spans in E5 as [E5 P5].
  apply matches_cat_inv in M as (c6 & g6 & M6 & M).
  apply matches_grp_inv in M6 as (g6' & M6 & ->).
  apply matches_rep_class in M6 as (co & [E6 P6] & A6 & -> & L6).
  apply matches_ahead_inv in M as (-> & -> & _).
  exists ds, (ti ++ nl ++ co ++ rest c6)%string. repeat split.
  - rewrite E1, E2, E3, E4, E5, E6. simpl. reflexivity.
  - assumption.
  - intros ->; simpl in L2; lia.
  - simpl. rewrite P2, E2.
    replace (pos c1 + String.length ds - pos c1) with (String.length ds)
      by lia.
    now rewrite slice_to_append.
  - simpl in *. lia.
Qed.

(** Sections 1, 2 and 5, each with a body between blank lines, are reported
    as they stand in the source. *)
Lemma parse_spaced_headers :
  sections (parse_thesis spaced_headers)
  = [ mkSection "1" "A" "x"; mkSection "2" "B" "y"; mkSection "5" "C" "z" ].
Proof. vm_compute. reflexivity. Qed.

(** C5, where the code departs from it.  The source has the three headers
    "## 1. A", "## 2. B" and "## 5. C" on consecutive lines.  The parser
    reports two sections, not three: the header of section 2 follows the
    header of section 1 without a line between them, so it is not seen as
    a boundary and becomes the content of section 1. *)
Theorem parse_adjacent_headers :
  sections (parse_thesis adjacent_headers)
  = [ mkSection "1" "A" "## 2. B"; mkSection "5" "C" "" ] /\
  List.length (sections (parse_thesis adjacent_headers)) = 2 /\
  List.length (sections (parse_thesis spaced_headers)) = 3.
Proof. vm_compute. repeat split; reflexivity. Qed.

(** C6.  The parser is a total function of the markdown text.  Where the
    region pattern has no match the region is "US"; where the sector
    pattern, or the executive-summary pattern, has no match the field is the
    empty string; where the section pattern has no match the section list
    is empty.  A pattern has no match in a text without its leading
    literal ("**Region**:", "## ", "## Executive Summary").  The section
    list is the list of all matches of the section pattern: more fuel for
    the scan gives the same list. *)
Theorem parse_thesis_defaults (markdown : string) :
  (search region_pattern markdown = None ->
   region (parse_thesis markdown) = "US") /\
  (search sector_pattern markdown = None ->
   sector (parse_thesis markdown) = "") /\
  (search exec_pattern markdown = None ->
   executive_summary (parse_thesis markdown) = "") /\
  (search section_pattern markdown = None ->
   sections (parse_thesis markdown) = []) /\
  (contains "**Region**:" markdown = false ->
   search region_pattern markdown = None) /\
  (contains "## " markdown = false ->
   search sector_pattern markdown = None /\
   search section_pattern markdown = None) /\
  (contains "## Executive Summary" markdown = false ->
   search exec_pattern markdown = None) /\
  (forall n,
     sections (parse_thesis markdown)
     = map section_of_match
         (finditer_from (2 * String.length markdown + 2 + n)
                        section_pattern false (start_of markdown))).
Proof.
  unfold parse_thesis; cbn [region sector executive_summary sections].
  repeat split.
  - now intros ->.
  - now intros ->.
  - now intros ->.
  - intros H. now rewrite (finditer_nil _ _ H).
  - intros H. destruct (search region_pattern markdown) eqn:E; [|reflexivity].
    apply search_literal in E. congruence.
  - destruct (search sector_pattern markdown) eqn:E; [|reflexivity].
    apply search_bol_literal in E. congruence.
  - destruct (search section_pattern markdown) eqn:E; [|reflexivity].
    apply search_literal in E. congruence.
  - intros H. destruct (search exec_pattern markdown) eqn:E; [|reflexivity].
    apply search_literal in E. congruence.
  - intros n. now rewrite fold_left_snoc, finditer_enough_fuel.
Qed.

Lemma parse_thesis_defaults_witness :
  parse_thesis plain_text = mkThesis "" "US" "" [].
Proof.
  destruct (parse_thesis_defaults plain_text)
    as (_ & _ & _ & _ & R & S & E & _).
  destruct (parse_thesis_defaults plain_text)
    as (Hr & Hs & He & Hn & _).
  specialize (R eq_refl). destruct (S eq_refl) as [Ss Sn].
  specialize (E eq_refl).
  destruct (parse_thesis plain_text) as [s r e n] eqn:P.
  cbn [region sector executive_summary sections] in *.
  rewrite (Hr R), (Hs Ss), (He E), (Hn Sn). reflexivity.
Defined.

End ParserFacts.


(* ===================================================================== *)
(** * Trimming *)
(* ===================================================================== *)

Section StripFacts.
Import Py Spec.

Lemma all_append p (a b : string) :
  all p (a ++ b)%string = all p a && all p b.
Proof.
  induction a as [|x a IH]; simpl; [reflexivity|].
  now rewrite IH, andb_assoc.
Qed.

Lemma lstrip_head (s : string) c r :
  lstrip s = String c r -> isspace c = false.
Proof.
  induction s as [|x s IH]; simpl; [discriminate|].
  destruct (isspace x) eqn:E; [assumption|]. now intros [= <- _].
Qed.

Lemma lstrip_empty (s : string) : lstrip s = "" -> all isspace s = true.
Proof.
  induction s as [|x s IH]; simpl; [reflexivity|].
  destruct (isspace x) eqn:E; [assumption | discriminate].
Qed.

Lemma rstrip_head (c : ascii) (r : string) :
  isspace c = false -> rstrip (String c r) = String c (rstrip r).
Proof. intros E; simpl. now rewrite E, andb_false_r. Qed.

(** A string with a character that is not white space does not strip to
    the empty string. *)
Lemma strip_not_empty (s : string) :
  all isspace s = false -> is_empty (strip s) = false.
Proof.
  intros A. unfold strip. destruct (lstrip s) as [|c r] eqn:E.
  - apply lstrip_empty in E. congruence.
  - apply lstrip_head in E. now rewrite rstrip_head.
Qed.

(** Nothing but the empty string is left of white space at the end of a
    right-stripped string. *)
Lemma rstrip_tail (u w v : string) :
  rstrip u = (w ++ v)%string -> all isspace v = true -> v = "".
Proof.
  revert w v; induction u as [|c u IH]; intros w v H A; simpl in H.
  - destruct w; [now destruct v | discriminate].
  - destruct (is_empty (rstrip u) && isspace c) eqn:E.
    + destruct w; [now destruct v | discriminate].
    + destruct w as [|x w]; simpl in H.
      * subst v. simpl in A. apply andb_true_iff in A as [Ac Ar].
        rewrite (IH "" (rstrip u) eq_refl Ar) in E. now rewrite Ac in E.
      * injection H as _ H. now apply (IH w v).
Qed.

Lemma strip_tail (u w v : string) :
  strip u = (w ++ v)%string -> all isspace v = true -> v = "".
Proof. apply rstrip_tail. Qed.

(** The bullet of a bullet line is never empty, so the emptiness test of
    [extract_bullets] never drops one. *)
Lemma bullet_of_line_truthy (line b : string) :
  bullet_of_line line = Some b -> truthy b = true.
Proof.
  unfold bullet_of_line, truthy.
  destruct (startswith "- " (strip line)) eqn:E; [|discriminate].
  intros [= <-]. apply startswith_inv in E as [t E]. rewrite E.
  cbn [append slice_from].
  destruct (all isspace t) eqn:A;
    [|now rewrite (strip_not_empty _ A)].
  assert (V : (" " ++ t)%string = "").
  { apply (strip_tail line "-" (" " ++ t)%string); [exact E|].
    simpl. exact A. }
  discriminate.
Qed.

Lemma strip_nonempty_not_blank (s : string) :
  is_empty (strip s) = false -> all isspace (strip s) = false.
Proof.
  unfold strip. destruct (lstrip s) as [|c r] eqn:E; simpl; [discriminate|].
  apply lstrip_head in E. rewrite E, andb_false_r. simpl. now rewrite E.
Qed.

End StripFacts.

(* ===================================================================== *)
(** * Collecting and padding bullets *)
(* ===================================================================== *)

Section BulletFacts.
Import Py Spec Llm.

Lemma fold_left_flat {A B} (f : A -> list B)
      (step : list B -> A -> list B) :
  (forall acc x, step acc x = acc ++ f x) ->
  forall l acc, fold_left step l acc = acc ++ flat_map f l.
Proof.
  intros H; induction l as [|x l IH]; intros acc; simpl.
  - now rewrite app_nil_r.
  - now rewrite IH, H, <- app_assoc.
Qed.

Lemma map_flat_map {A B C} (h : B -> C) (f : A -> list B) (l : list A) :
  map h (flat_map f l) = flat_map (fun x => map h (f x)) l.
Proof.
  induction l as [|x l IH]; simpl; [reflexivity|].
  now rewrite map_app, IH.
Qed.

Lemma cut_120 : cut 120 117 = capped.
Proof. reflexivity. Qed.

Lemma length_cut (cap keep : nat) (b : string) :
  keep + 3 <= cap -> String.length (cut cap keep b) <= cap.
Proof.
  intros H. unfold cut. destruct (cap <? String.length b)%nat eqn:E.
  - rewrite length_append, length_slice_to. simpl. lia.
  - apply Nat.ltb_ge in E. assumption.
Qed.

Lemma collect_bullets_spec (cap keep : nat) (reply : string) :
  PowerPointAgent.collect_bullets cap keep reply
  = map (cut cap keep) (bullets_of (strip reply)).
Proof.
  unfold PowerPointAgent.collect_bullets, bullets_of.
  rewrite map_flat_map.
  rewrite (fold_left_flat
             (fun line => map (cut cap keep)
                match bullet_of_line line with
                | Some b => [b] | None => [] end)).
  - reflexivity.
  - intros acc line. unfold bullet_of_line.
    destruct (startswith "- " (strip line)); simpl;
      [reflexivity | now rewrite app_nil_r].
Qed.

Lemma markdown_bullets_spec (content : string) :
  PowerPointNetworkingAgent.markdown_bullets content = bullets_of content.
Proof.
  unfold PowerPointNetworkingAgent.markdown_bullets, bullets_of.
  rewrite (fold_left_flat
             (fun line =>
                match bullet_of_line line with
                | Some b => [b] | None => [] end)).
  - reflexivity.
  - intros acc line.
    pose proof (bullet_of_line_truthy line) as T.
    unfold bullet_of_line in *.
    destruct (startswith "- " (strip line)); cbv zeta.
    + now rewrite (T _ eq_refl).
    + now rewrite app_nil_r.
Qed.

(** Padding to three, then keeping three. *)
Lemma pad_then_three (filler : string) (bullets : list string) :
  firstn 3 (PowerPointAgent.pad_loop 3 filler bullets)
  = firstn 3 (bullets ++ repeat filler 3).
Proof.
  destruct bullets as [|a [|b [|c l]]]; reflexivity.
Qed.

(** With three turns the padding loop has run to its exit test. *)
Lemma pad_loop_exit (filler : string) (bullets : list string) :
  3 <= List.length (PowerPointAgent.pad_loop 3 filler bullets).
Proof.
  destruct bullets as [|a [|b [|c l]]]; simpl; lia.
Qed.

Lemma length_three (filler : string) (l : list string) :
  List.length (firstn 3 (l ++ repeat filler 3)) = 3.
Proof.
  rewrite length_firstn, length_app, repeat_length. lia.
Qed.

Lemma Forall_take {A} (P : A -> Prop) (n : nat) (l : list A) :
  Forall P l -> Forall P (firstn n l).
Proof.
  revert l; induction n as [|n IH]; intros l H; simpl; [constructor|].
  destruct H; constructor; auto.
Qed.

Lemma Forall_three (P : string -> Prop) (filler : string) (l : list string) :
  Forall P l -> P filler -> Forall P (firstn 3 (l ++ repeat filler 3)).
Proof.
  intros Hl Hf. apply Forall_take. apply Forall_app; split; [assumption|].
  simpl; repeat constructor; assumption.
Qed.

Lemma vc_condense_run (llm : oracle) (content section_title : string)
      (h : log) (reply : string) :
  llm h (PowerPointAgent.condense_system_prompt,
         PowerPointAgent.condense_user_prompt content section_title)
  = Py.Ok reply ->
  PowerPointAgent.condense_to_three_bullets llm content section_title h
  = (Py.Ok (three_bullets reply),
     h ++ [(PowerPointAgent.condense_system_prompt,
            PowerPointAgent.condense_user_prompt content section_title)]).
Proof.
  intros H. unfold PowerPointAgent.condense_to_three_bullets, bind, invoke.
  rewrite H. unfold ret. rewrite pad_then_three, collect_bullets_spec.
  reflexivity.
Qed.

Lemma net_condense_run (llm : oracle) (content section_title : string)
      (h : log) (reply : string) :
  llm h (PowerPointNetworkingAgent.condense_system_prompt,
         PowerPointNetworkingAgent.condense_user_prompt content
                                                        section_title)
  = Py.Ok reply ->
  PowerPointNetworkingAgent.condense_to_three_bullets
    llm content section_title h
  = (Py.Ok (three_bullets reply),
     h ++ [(PowerPointNetworkingAgent.condense_system_prompt,
            PowerPointNetworkingAgent.condense_user_prompt
              content section_title)]).
Proof.
  intros H.
  unfold PowerPointNetworkingAgent.condense_to_three_bullets, bind, invoke.
  rewrite H. unfold ret. rewrite pad_then_three, collect_bullets_spec.
  reflexivity.
Qed.

Lemma nth_three (reply : string) (i : nat) :
  i < 3 ->
  nth_error (three_bullets reply) i
  = Some match nth_error (bullets_of (strip reply)) i with
         | Some b => capped b
         | None => filler
         end.
Proof.
  intros Hi. unfold three_bullets.
  set (l := bullets_of (strip reply)).
  rewrite nth_error_firstn.
  assert (Hlt : (i <? 3)%nat = true) by (apply Nat.ltb_lt; exact Hi).
  rewrite Hlt.
  destruct (nth_error l i) as [b|] eqn:E.
  - rewrite nth_error_app1.
    + now rewrite nth_error_map, E.
    + rewrite length_map. apply nth_error_Some. congruence.
  - apply nth_error_None in E.
    rewrite nth_error_app2 by (rewrite length_map; exact E).
    rewrite length_map.
    assert (Hj : i - List.length l < 3) by lia.
    destruct (i - List.length l) as [|[|[|j]]]; try reflexivity; lia.
Qed.

End BulletFacts.

(* ===================================================================== *)
(** * The text that a paragraph holds *)
(* ===================================================================== *)

Section HeldText.
Import Py Spec Pptx.

Lemma paragraph_text_append (a b : string) :
  paragraph_text (a ++ b)%string
  = (paragraph_text a ++ paragraph_text b)%string.
Proof.
  induction a as [|c a IH]; cbn [append paragraph_text]; [reflexivity|].
  now rewrite IH, append_assoc.
Qed.

Lemma escaped_not_underscore (c : ascii) :
  escaped c = true ->
  exists r, escape_ctrl_char c = String "_" r /\ String.length r = 6 /\
            c <> "_"%char /\ isspace "_" = false.
Proof.
  destruct c as [[] [] [] [] [] [] [] []]; try discriminate;
    intros _; eexists; (split; [reflexivity|]);
    (split; [reflexivity|]); (split; [discriminate | reflexivity]).
Qed.

Lemma length_run_char (c : ascii) :
  1 <= String.length (run_char c) <= 7.
Proof.
  unfold run_char. destruct (escaped c) eqn:E; [|simpl; lia].
  destruct (escaped_not_underscore c E) as (r & -> & L & _). simpl. lia.
Qed.

(** A paragraph is never shorter than the text assigned to it and at most
    seven times as long. *)
Lemma length_paragraph_text (s : string) :
  String.length s <= String.length (paragraph_text s) <= 7 * String.length s.
Proof.
  induction s as [|c s IH]; cbn [paragraph_text]; [simpl; lia|].
  rewrite length_append. cbn [String.length].
  destruct (Ascii.eqb c LF); [simpl; lia|].
  pose proof (length_run_char c). lia.
Qed.

(** A plain text is held as it is, and only a plain text is. *)
Lemma paragraph_text_plain (s : string) :
  paragraph_text s = s <-> plain s = true.
Proof.
  unfold plain. induction s as [|c s IH]; cbn [paragraph_text all].
  - split; reflexivity.
  - destruct (Ascii.eqb_spec c LF) as [->|N]; cbn [negb andb].
    + split; [|discriminate]. cbn [append]. intros H; discriminate H.
    + unfold run_char. destruct (escaped c) eqn:E; cbn [negb andb].
      * split; [|discriminate].
        destruct (escaped_not_underscore c E) as (r & -> & _ & Nu & _).
        cbn [append]. intros [= Eu _]. congruence.
      * cbn [append]. rewrite <- IH. split; [now intros [= ->] | now intros ->].
Qed.


(** A text that is not blank gives a paragraph that is not blank. *)
Lemma paragraph_text_not_blank (s : string) :
  all isspace s = false -> all isspace (paragraph_text s) = false.
Proof.
  induction s as [|c s IH]; cbn [paragraph_text all]; [discriminate|].
  intros H. rewrite all_append.
  destruct (Ascii.eqb_spec c LF) as [->|N].
  - cbn [isspace] in H. rewrite IH; [apply andb_false_r|]. exact H.
  - unfold run_char. destruct (escaped c) eqn:E.
    + destruct (escaped_not_underscore c E) as (r & -> & _ & _ & Su).
      cbn [all]. now rewrite Su.
    + cbn [all]. destruct (isspace c); [|reflexivity].
      cbn [andb] in *. now rewrite IH.
Qed.

Lemma split_on_not_nil (sep : ascii) (s : string) : split_on sep s <> [].
Proof.
  induction s as [|c s IH]; cbn [split_on]; [discriminate|].
  destruct (Ascii.eqb c sep); [discriminate|].
  destruct (split_on sep s); discriminate.
Qed.

(** A text frame gives its text back character by character: a line feed
    as it is, any other character as its paragraph holds it. *)
Lemma frame_text_cons (c : ascii) (r : string) :
  frame_text (String c r)
  = ((if Ascii.eqb c LF then nl else run_char c) ++ frame_text r)%string.
Proof.
  unfold frame_text, set_text, split_lines. cbn [split_on].
  pose proof (split_on_not_nil LF r) as N.
  destruct (Ascii.eqb c LF) eqn:E.
  - destruct (split_on LF r) as [|w ws]; [contradiction|]. reflexivity.
  - destruct (split_on LF r) as [|w ws]; [contradiction|].
    cbn [map paragraph_text]. rewrite E.
    destruct ws as [|w' ws]; cbn [map String.concat]; [reflexivity|].
    now rewrite append_assoc.
Qed.

Lemma frame_text_append (a b : string) :
  frame_text (a ++ b)%string = (frame_text a ++ frame_text b)%string.
Proof.
  induction a as [|c a IH]; cbn [append].
  - reflexivity.
  - now rewrite !frame_text_cons, IH, append_assoc.
Qed.

(** A text without escaped control characters is given back as it is. *)
Lemma frame_text_kept (s : string) :
  all (fun c => negb (escaped c)) s = true -> frame_text s = s.
Proof.
  induction s as [|c s IH]; [reflexivity|].
  cbn [all]. intros A. apply andb_true_iff in A as [E A].
  apply negb_true_iff in E.
  rewrite frame_text_cons, (IH A). unfold run_char. rewrite E.
  destruct (Ascii.eqb_spec c LF) as [->|]; reflexivity.
Qed.

End HeldText.

(* ===================================================================== *)
(** * Building the deck *)
(* ===================================================================== *)

Section DeckFacts.
Import Py Spec Llm Pptx.

Lemma bind_ok {A B} (m : M A) (f : A -> M B) (h h' : log) (a : A) :
  m h = (Ok a, h') -> bind m f h = f a h'.
Proof. intros H; unfold bind; now rewrite H. Qed.

Lemma fill_three (bullets : list string) :
  List.length bullets = 3 ->
  fill_paragraphs bullets = map paragraph_text bullets.
Proof.
  destruct bullets as [|a [|b [|c [|d l]]]]; try discriminate. reflexivity.
Qed.

Lemma vc_add_content_three (prs : Presentation) (title : string)
      (bullets : list string) :
  List.length bullets = 3 ->
  PowerPointAgent._add_content_slide prs title bullets
  = prs ++ [layout_title_and_content (set_text title)
                                     (map paragraph_text bullets)].
Proof.
  intros L. unfold PowerPointAgent._add_content_slide.
  now rewrite (fill_three _ L).
Qed.

Lemma three_capped (cap keep : nat) (filler : string) (reply : string) :
  keep + 3 <= cap -> String.length filler <= cap ->
  Forall (fun b => String.length b <= cap)
         (firstn 3 (map (cut cap keep) (bullets_of (strip reply))
                    ++ repeat filler 3)).
Proof.
  intros Hc Hf. apply Forall_three; [|assumption].
  apply Forall_forall. intros b Hb. apply in_map_iff in Hb as (x & <- & _).
  now apply length_cut.
Qed.

Lemma vc_condense_total (llm : oracle) (content section_title : string)
      (h : log) :
  answers llm ->
  exists bullets p,
    PowerPointAgent.condense_to_three_bullets llm content section_title h
    = (Ok bullets, h ++ [p]) /\
    List.length bullets = 3 /\
    Forall (fun b => String.length b <= 120) bullets.
Proof.
  intros A.
  destruct (A h (PowerPointAgent.condense_system_prompt,
                 PowerPointAgent.condense_user_prompt content section_title))
    as [reply R].
  exists (three_bullets reply). eexists. split; [|split].
  - apply vc_condense_run. exact R.
  - apply length_three.
  - unfold three_bullets. rewrite <- cut_120.
    apply three_capped; [lia | simpl; lia].
Qed.

Lemma summary_condense_total (llm : oracle) (summary : string) (h : log) :
  answers llm ->
  exists bullets p,
    PowerPointAgent.condense_executive_summary llm summary h
    = (Ok bullets, h ++ [p]) /\
    List.length bullets = 3 /\
    Forall (fun b => String.length b <= 120) bullets.
Proof.
  intros A.
  destruct (A h (PowerPointAgent.summary_system_prompt,
                 PowerPointAgent.summary_user_prompt summary))
    as [reply R].
  unfold PowerPointAgent.condense_executive_summary, bind, invoke.
  rewrite R. unfold ret. rewrite pad_then_three, collect_bullets_spec.
  eexists _, _. split; [reflexivity|]. split.
  - apply length_three.
  - eapply Forall_impl; [|apply (three_capped 100 97); [lia | simpl; lia]].
    simpl; intros; lia.
Qed.

(** The section loop of the thesis deck: one content slide per section, in
    order, and one request per section. *)
Lemma vc_section_loop (llm : oracle) :
  answers llm ->
  forall (secs : list PowerPointAgent.SectionEntry) (prs : Presentation)
         (h : log),
  exists slides asked,
    for_each
      (fun prs section =>
         bind (PowerPointAgent.condense_to_three_bullets
                 llm (PowerPointAgent.content section)
                 (PowerPointAgent.title section))
              (fun bullets =>
                 ret (PowerPointAgent._add_content_slide prs
                        (PowerPointAgent.number section ++ ". "
                           ++ PowerPointAgent.title section)%string
                        bullets)))
      secs prs h
    = (Ok (prs ++ slides), h ++ asked) /\
    List.length asked = List.length secs /\
    Forall2 (fun section s =>
               content_slide (PowerPointAgent.number section ++ ". "
                                ++ PowerPointAgent.title section)%string s)
            secs slides.
Proof.
  intros A; induction secs as [|sec secs IH]; intros prs h.
  - exists [], []. simpl. unfold ret. rewrite !app_nil_r.
    repeat split; constructor.
  - cbn [for_each].
    destruct (vc_condense_total llm (PowerPointAgent.content sec)
                (PowerPointAgent.title sec) h A)
      as (bullets & p & R & L & F).
    erewrite bind_ok; [|erewrite bind_ok; [reflexivity | exact R]].
    rewrite (vc_add_content_three _ _ _ L).
    match goal with
    | |- context [for_each ?body secs ?prs' ?h'] =>
        destruct (IH prs' h') as (slides & asked & E & La & F2)
    end.
    rewrite E.
    eexists (_ :: slides), (p :: asked). split; [|split].
    + rewrite <- !app_assoc. reflexivity.
    + simpl; lia.
    + constructor; [|assumption].
      exists bullets; auto.
Qed.

End DeckFacts.

(* ===================================================================== *)
(** * The deck builders *)
(* ===================================================================== *)

Section DeckBuilders.
Import Py Spec Llm Pptx Examples.

(** One run of the thesis deck builder with a model that answers: the deck
    and the requests it made. *)
Lemma vc_create_presentation_run (llm : oracle) (month_year : string)
      (thesis_data : PowerPointAgent.ThesisData) (h : log) :
  answers llm ->
  exists summary body asked,
    PowerPointAgent.create_presentation llm month_year thesis_data h
    = (Ok (title_slide "Venture Capital Industry Thesis"
             (PowerPointAgent.sector thesis_data)
             (PowerPointAgent.region thesis_data) month_year
           :: summary ++ body
           ++ [closing_slide
                 (PowerPointAgent.sector thesis_data ++ " Industry Thesis")
                 month_year]),
       h ++ asked) /\
    List.length asked
    = List.length (PowerPointAgent.sections thesis_data)
      + List.length summary /\
    (if is_empty (PowerPointAgent.executive_summary thesis_data)
     then summary = []
     else exists s, summary = [s] /\ content_slide "Executive Summary" s) /\
    Forall2 (fun section s =>
               content_slide (PowerPointAgent.number section ++ ". "
                                ++ PowerPointAgent.title section)%string s)
            (PowerPointAgent.sections thesis_data) body.
Proof.
  intros A. unfold PowerPointAgent.create_presentation.
  unfold PowerPointAgent._add_title_slide at 1. cbn [app].
  set (first := mkSlide _ None).
  unfold truthy.
  destruct (is_empty (PowerPointAgent.executive_summary thesis_data)) eqn:E;
    cbn [negb].
  - destruct (vc_section_loop llm A
                (PowerPointAgent.sections thesis_data) [first] h)
      as (slides & asked & R & La & F2).
    erewrite bind_ok; [|reflexivity].
    erewrite bind_ok; [|exact R].
    unfold ret, PowerPointAgent._add_closing_slide.
    exists [], slides, asked.
    split; [rewrite <- app_assoc; reflexivity|].
    split; [simpl; lia|]. split; [reflexivity | exact F2].
  - destruct (summary_condense_total llm
                (PowerPointAgent.executive_summary thesis_data) h A)
      as (sb & p & Rs & Ls & Fs).
    erewrite bind_ok;
      [|erewrite bind_ok; [reflexivity | exact Rs]].
    rewrite (vc_add_content_three _ _ _ Ls).
    destruct (vc_section_loop llm A
                (PowerPointAgent.sections thesis_data)
                ([first] ++
                 [layout_title_and_content (set_text "Executive Summary")
                                           (map paragraph_text sb)])
                (h ++ [p]))
      as (slides & asked & R & La & F2).
    erewrite bind_ok; [|exact R].
    unfold ret, PowerPointAgent._add_closing_slide.
    eexists [_], slides, (p :: asked).
    split; [rewrite <- !app_assoc; reflexivity|].
    split; [simpl; lia|]. split; [|exact F2].
    eexists; split; [reflexivity|]. exists sb; auto.
Qed.

(** C1, as the code has it.  When the model answers its requests,
    [create_presentation] of the thesis deck builder returns, for a record
    with N sections, a deck made of the title slide, the executive-summary
    slide if and only if the summary is not empty, one content slide per
    section in the order of the sections (titled "number. title"), and the
    closing slide: N+2 slides for an empty summary and N+3 otherwise.  Every
    content slide, the summary slide included, carries exactly three
    paragraphs, each holding a bullet of at most 120 characters.  The
    paragraph is that bullet, character for character, when the bullet is
    plain; a control character of the bullet is held as seven characters,
    so that the paragraph may have up to 840 characters. *)
Theorem create_presentation_slides (llm : oracle) (month_year : string)
        (thesis_data : PowerPointAgent.ThesisData) (h : log) :
  answers llm ->
  exists deck summary body asked,
    PowerPointAgent.create_presentation llm month_year thesis_data h
    = (Ok deck, h ++ asked) /\
    deck
    = title_slide "Venture Capital Industry Thesis"
        (PowerPointAgent.sector thesis_data)
        (PowerPointAgent.region thesis_data) month_year
      :: summary ++ body
      ++ [closing_slide
            (PowerPointAgent.sector thesis_data ++ " Industry Thesis")
            month_year] /\
    List.length deck
    = List.length (PowerPointAgent.sections thesis_data)
      + (if is_empty (PowerPointAgent.executive_summary thesis_data)
         then 2 else 3) /\
    (if is_empty (PowerPointAgent.executive_summary thesis_data)
     then summary = []
     else exists s, summary = [s] /\ content_slide "Executive Summary" s) /\
    Forall2 (fun section s =>
               content_slide (PowerPointAgent.number section ++ ". "
                                ++ PowerPointAgent.title section)%string s)
            (PowerPointAgent.sections thesis_data) body /\
    (forall bullet : string,
       String.length bullet <= 120 ->
       String.length (paragraph_text bullet) <= 840 /\
       (plain bullet = true -> paragraph_text bullet = bullet)).
Proof.
  intros A.
  destruct (vc_create_presentation_run llm month_year thesis_data h A)
    as (summary & body & asked & R & _ & S & F2).
  eexists _, summary, body, asked.
  split; [exact R|]. split; [reflexivity|]. split; [|split; [|split]];
    try assumption.
  - pose proof (Forall2_length F2) as L. cbn [List.length].
    rewrite !length_app, <- L. cbn [List.length].
    destruct (is_empty (PowerPointAgent.executive_summary thesis_data)).
    + subst summary. simpl. lia.
    + destruct S as (s0 & -> & _). simpl. lia.
  - intros bullet L. split.
    + pose proof (length_paragraph_text bullet). lia.
    + apply paragraph_text_plain.
Qed.

Lemma create_presentation_slides_witness :
  exists deck summary body asked,
    PowerPointAgent.create_presentation
      (constant_llm two_bullet_reply) "May 2026" two_section_thesis []
    = (Ok deck, [] ++ asked) /\
    deck
    = title_slide "Venture Capital Industry Thesis"
        (PowerPointAgent.sector two_section_thesis)
        (PowerPointAgent.region two_section_thesis) "May 2026"
      :: summary ++ body
      ++ [closing_slide
            (PowerPointAgent.sector two_section_thesis ++ " Industry Thesis")
            "May 2026"] /\
    List.length deck = 2 + 2 /\
    summary = [] /\
    Forall2 (fun section s =>
               content_slide (PowerPointAgent.number section ++ ". "
                                ++ PowerPointAgent.title section)%string s)
            (PowerPointAgent.sections two_section_thesis) body /\
    (forall bullet : string,
       String.length bullet <= 120 ->
       String.length (paragraph_text bullet) <= 840 /\
       (plain bullet = true -> paragraph_text bullet = bullet)).
Proof.
  apply (create_presentation_slides
           (constant_llm two_bullet_reply) "May 2026" two_section_thesis []).
  intros h p. exists two_bullet_reply. reflexivity.
Defined.

(** C1, counterexample.  The thesis has one section and the model replies
    with one bullet of 120 control characters.  The bullet passes the cap
    of 120 characters, and the paragraph that the slide holds for it has
    840 characters. *)
Lemma control_characters_outgrow_cap :
  PowerPointAgent.create_presentation (constant_llm control_reply) "May 2026"
                                      one_section_thesis []
  = (Ok [ title_slide "Venture Capital Industry Thesis" "B2B Fintech" "US"
                      "May 2026";
          layout_title_and_content
            ["1. Trends"]
            [ paragraph_text control_bullet;
              "Additional research pending";
              "Additional research pending" ];
          closing_slide "B2B Fintech Industry Thesis" "May 2026" ],
     [(PowerPointAgent.condense_system_prompt,
       PowerPointAgent.condense_user_prompt three_bullet_content "Trends")])
  /\
  String.length control_bullet = 120 /\
  String.length (paragraph_text control_bullet) = 840.
Proof. repeat split; vm_compute; reflexivity. Qed.

(** C3.  Given the reply of the model, the condensation operation of both
    deck builders returns exactly three bullets: the bullets of the reply
    lines that, trimmed, begin with "- ", in order; a bullet longer than 120
    characters replaced by its first 117 characters and "..."; and, where
    the reply has fewer than three bullets, the filler "Additional research
    pending" up to three. *)
Theorem condense_returns_three_bullets (llm : oracle)
        (content section_title : string) (h : log) (reply : string) :
  (llm h (PowerPointAgent.condense_system_prompt,
          PowerPointAgent.condense_user_prompt content section_title)
   = Ok reply ->
   PowerPointAgent.condense_to_three_bullets llm content section_title h
   = (Ok (three_bullets reply),
      h ++ [(PowerPointAgent.condense_system_prompt,
             PowerPointAgent.condense_user_prompt content section_title)]))
  /\
  (llm h (PowerPointNetworkingAgent.condense_system_prompt,
          PowerPointNetworkingAgent.condense_user_prompt
            content section_title)
   = Ok reply ->
   PowerPointNetworkingAgent.condense_to_three_bullets
     llm content section_title h
   = (Ok (three_bullets reply),
      h ++ [(PowerPointNetworkingAgent.condense_system_prompt,
             PowerPointNetworkingAgent.condense_user_prompt
               content section_title)]))
  /\
  List.length (three_bullets reply) = 3 /\
  (forall i, i < 3 ->
     nth_error (three_bullets reply) i
     = Some match nth_error (bullets_of (strip reply)) i with
            | Some b => capped b
            | None => "Additional research pending"
            end) /\
  (forall b,
     (String.length b <= 120 -> capped b = b) /\
     (120 < String.length b ->
      capped b = (slice_to 117 b ++ "...")%string)).
Proof.
  split; [apply vc_condense_run|].
  split; [apply net_condense_run|].
  split; [apply length_three|]. split; [apply nth_three|].
  intros b. unfold capped. split; intros L.
  - assert (E : (120 <? String.length b)%nat = false)
      by (apply Nat.ltb_ge; exact L).
    now rewrite E.
  - assert (E : (120 <? String.length b)%nat = true)
      by (apply Nat.ltb_lt; exact L).
    now rewrite E.
Qed.

Lemma condense_returns_three_bullets_witness :
  PowerPointAgent.condense_to_three_bullets
    (constant_llm two_bullet_reply) "text" "Trends" []
  = (Ok ["a"; "b"; "Additional research pending"],
     [(PowerPointAgent.condense_system_prompt,
       PowerPointAgent.condense_user_prompt "text" "Trends")]).
Proof.
  apply (proj1 (condense_returns_three_bullets
                  (constant_llm two_bullet_reply)
                  "text" "Trends" [] two_bullet_reply)).
  reflexivity.
Defined.

(** C2, as the code has it.  In the networking deck builder, a section
    whose content has exactly three bullet lines gets these three bullets as
    they are, whatever their length, and no request is made to the model.
    The thesis deck builder has no such path: with a model that answers, it
    makes one request for every section, and one more for a summary that is
    not empty. *)
Theorem three_bullet_sections (llm : oracle) :
  (forall (content section_title : string) (h : log),
     List.length (bullets_of content) = 3 ->
     PowerPointNetworkingAgent.extract_bullets llm content section_title h
     = (Ok (bullets_of content), h))
  /\
  (answers llm ->
   forall (month_year : string) (thesis_data : PowerPointAgent.ThesisData)
          (h : log),
   exists deck asked,
     PowerPointAgent.create_presentation llm month_year thesis_data h
     = (Ok deck, h ++ asked) /\
     List.length asked
     = List.length (PowerPointAgent.sections thesis_data)
       + (if is_empty (PowerPointAgent.executive_summary thesis_data)
          then 0 else 1)).
Proof.
  split.
  - intros content section_title h L.
    unfold PowerPointNetworkingAgent.extract_bullets.
    rewrite markdown_bullets_spec, L. reflexivity.
  - intros A month_year thesis_data h.
    destruct (vc_create_presentation_run llm month_year thesis_data h A)
      as (summary & body & asked & R & La & S & _).
    eexists _, asked.
    split; [exact R|]. rewrite La.
    destruct (is_empty (PowerPointAgent.executive_summary thesis_data)).
    + now subst summary.
    + now destruct S as (s0 & -> & _).
Qed.

Lemma three_bullet_sections_witness :
  PowerPointNetworkingAgent.extract_bullets
    (constant_llm "") three_bullet_content "Trends" []
  = (Ok ["a"; "b"; "c"], [])
  /\
  exists deck asked,
    PowerPointAgent.create_presentation (constant_llm "") "May 2026"
                                        one_section_thesis []
    = (Ok deck, [] ++ asked) /\
    List.length asked = 1 + 0.
Proof.
  split.
  - apply (proj1 (three_bullet_sections (constant_llm ""))
                 three_bullet_content "Trends" []).
    reflexivity.
  - apply (proj2 (three_bullet_sections (constant_llm ""))).
    intros h p. exists "". reflexivity.
Defined.

(** C2, counterexample.  A section with exactly three bullet lines, "a", "b"
    and "c": the thesis deck builder asks the model all the same, and with
    a model that replies nothing its slide carries three fillers instead of
    the three bullets.  In the networking deck builder a bullet of 121
    characters is reused at its full length, not cut to 120. *)
Lemma three_bullet_section_is_condensed :
  bullets_of three_bullet_content = ["a"; "b"; "c"] /\
  PowerPointAgent.create_presentation (constant_llm "") "May 2026"
                                      one_section_thesis []
  = (Ok (PowerPointAgent._add_closing_slide
           (PowerPointAgent._add_content_slide
              (PowerPointAgent._add_title_slide [] "B2B Fintech" "US"
                                                "May 2026")
              "1. Trends"
              [filler; filler; filler])
           "B2B Fintech" "May 2026"),
     [(PowerPointAgent.condense_system_prompt,
       PowerPointAgent.condense_user_prompt three_bullet_content
                                            "Trends")]) /\
  PowerPointNetworkingAgent.extract_bullets
    (constant_llm "") long_bullet_content "Trends" []
  = (Ok [xs 121; "b"; "c"], []) /\
  String.length (xs 121) = 121 /\
  capped (xs 121) <> xs 121.
Proof.
  split; [reflexivity|]. split; [reflexivity|].
  split; [vm_compute; reflexivity|].
  split; [reflexivity|]. vm_compute. discriminate.
Qed.

End DeckBuilders.

(* ===================================================================== *)
(** * The bullet count of the quality pass *)
(* ===================================================================== *)

Section QAFacts.
Import Py Spec Llm FinalPassAgent Examples.

(** C4, as the code has it.  The bullet-count check adds, slide by slide
    and in order, the issues owed to each slide.  Slide 1, slide 2 and the
    slide whose number is the number of slides are exempt.  Any other slide
    owes one "too_few_bullets" warning when it has fewer than 2 countable
    bullets (0 or 1), nothing when it has 2 to 6, and one
    "too_many_bullets" warning when it has more than 6. *)
Theorem validate_bullet_count_verdicts (slides_data : list SlideData)
        (issues : list QAIssue) :
  validate_bullet_count slides_data issues
  = issues ++ flat_map (owed (List.length slides_data)) slides_data
  /\
  (forall total num count,
     verdict total num count <> Exempt ->
     ((count < 2)%Z -> verdict total num count = TooFew) /\
     ((2 <= count <= 6)%Z -> verdict total num count = Fine) /\
     ((6 < count)%Z -> verdict total num count = TooMany))
  /\
  (forall total num count,
     verdict total num count = Exempt <->
     (num = 1 \/ num = 2 \/ num = Z.of_nat total)%Z).
Proof.
  split; [|split].
  - unfold validate_bullet_count. apply fold_left_flat.
    intros acc slide. unfold owed, verdict, exempt, new_issue.
    destruct ((number slide =? 1) || (number slide =? 2)
              || (number slide =? Z.of_nat (List.length slides_data)))%Z;
      [now rewrite app_nil_r|].
    destruct (bullet_count slide <? 2)%Z eqn:E2; [reflexivity|].
    destruct (6 <? bullet_count slide)%Z eqn:E6.
    + assert (L : (bullet_count slide <=? 6)%Z = false) by lia.
      now rewrite L.
    + assert (L : (bullet_count slide <=? 6)%Z = true) by lia.
      rewrite L. now rewrite app_nil_r.
  - intros total num count. unfold verdict.
    destruct ((num =? 1) || (num =? 2) || (num =? Z.of_nat total))%Z;
      [congruence|].
    intros _. repeat split; intros H.
    + assert (L : (count <? 2)%Z = true) by lia. now rewrite L.
    + assert (L : (count <? 2)%Z = false) by lia.
      assert (L' : (count <=? 6)%Z = true) by lia. now rewrite L, L'.
    + assert (L : (count <? 2)%Z = false) by lia.
      assert (L' : (count <=? 6)%Z = false) by lia. now rewrite L, L'.
  - intros total num count. unfold verdict.
    destruct ((num =? 1) || (num =? 2) || (num =? Z.of_nat total))%Z eqn:E.
    + split; [intros _ | reflexivity]. lia.
    + split; [|intros H; exfalso; lia].
      destruct (count <? 2)%Z; [discriminate|].
      destruct (count <=? 6)%Z; discriminate.
Qed.

Lemma validate_bullet_count_verdicts_witness :
  verdict 5 3 1 = TooFew /\ verdict 5 3 2 = Fine /\ verdict 5 3 7 = TooMany.
Proof.
  destruct (validate_bullet_count_verdicts [] []) as (_ & V & _).
  destruct (V 5 3%Z 1%Z) as (F & _ & _); [discriminate|].
  destruct (V 5 3%Z 2%Z) as (_ & G & _); [discriminate|].
  destruct (V 5 3%Z 7%Z) as (_ & _ & M); [discriminate|].
  split; [apply F; lia|]. split; [apply G; lia | apply M; lia].
Defined.

(** C4, counterexample.  In a deck of four slides, slide 3 is not exempt
    and has exactly 2 countable bullets: the check reports no issue for
    it. *)
Lemma two_bullets_raise_no_issue :
  map number two_bullet_deck = [1; 2; 3; 4]%Z /\
  map bullet_count two_bullet_deck = [1; 4; 2; 0]%Z /\
  validate_bullet_count two_bullet_deck [] = [].
Proof. repeat split; reflexivity. Qed.

(** ** Extraction *)

Lemma scan_paragraphs_acc (paragraphs : list string) :
  forall text count,
    (0 <= count)%Z ->
    ((0 < count)%Z -> all isspace text = false) ->
    let '(text', count') :=
      fold_left
        (fun acc para =>
           let '(text, count) := acc in
           let para_text := strip para in
           if truthy para_text then
             ((text ++ para_text ++ nl)%string,
              if (10 <? String.length para_text)%nat
              then (count + 1)%Z else count)
           else (text, count))
        paragraphs (text, count) in
    count' = (count + Z.of_nat (List.length (filter countable paragraphs)))%Z
    /\ ((0 < count')%Z -> all isspace text' = false).
Proof.
  induction paragraphs as [|para ps IH]; intros text count C0 B;
    cbn [fold_left filter].
  - split; [simpl; lia | assumption].
  - change (10 <? String.length (strip para))%nat with (countable para).
    unfold truthy. destruct (is_empty (strip para)) eqn:E; cbn [negb].
    + assert (Hc : countable para = false).
      { unfold countable. apply is_empty_true in E. now rewrite E. }
      rewrite Hc. apply IH; assumption.
    + assert (Nb : all isspace (text ++ strip para ++ nl)%string = false).
      { rewrite !all_append, (strip_nonempty_not_blank _ E).
        now rewrite andb_false_r. }
      destruct (countable para).
      * specialize (IH (text ++ strip para ++ nl)%string (count + 1)%Z).
        destruct (fold_left _ ps _) as [t' c'].
        destruct IH as [IH1 IH2]; [lia | intros _; exact Nb |].
        split; [cbn [List.length]; lia | assumption].
      * specialize (IH (text ++ strip para ++ nl)%string count).
        destruct (fold_left _ ps _) as [t' c'].
        destruct IH as [IH1 IH2]; [lia | intros _; exact Nb |].
        split; [lia | assumption].
Qed.

Lemma scan_paragraphs_count (paragraphs : list string) :
  let '(text, count) := scan_paragraphs paragraphs in
  count = Z.of_nat (List.length (filter countable paragraphs)) /\
  (truthy (strip text) = false -> count = 0%Z).
Proof.
  unfold scan_paragraphs.
  pose proof (scan_paragraphs_acc paragraphs "" 0%Z) as H.
  destruct (fold_left _ paragraphs _) as [text count].
  destruct H as [H1 H2]; [lia | lia |].
  split; [lia|].
  intros T. unfold truthy in T. apply negb_false_iff in T.
  destruct (Z.eq_dec count 0) as [|N]; [assumption|].
  assert (P : (0 < count)%Z) by lia.
  apply H2 in P. apply strip_not_empty in P. congruence.
Qed.

Lemma extract_shape_count (slide_data : SlideData) (is_title : bool)
      (shape : Pptx.Shape) :
  bullet_count (extract_shape slide_data is_title shape)
  = (bullet_count slide_data
     + Z.of_nat (List.length
         (filter countable
            match Pptx.text_frame shape with
            | Some ps => ps | None => []
            end)))%Z.
Proof.
  unfold extract_shape. destruct (Pptx.text_frame shape) as [ps|].
  - pose proof (scan_paragraphs_count ps) as H.
    destruct (scan_paragraphs ps) as [text count]. destruct H as [H1 H2].
    destruct (truthy (strip text)) eqn:T; cbn [bullet_count].
    + now rewrite H1.
    + rewrite <- H1, (H2 eq_refl). lia.
  - cbn [bullet_count]. simpl. lia.
Qed.

Lemma extract_shapes_count (title_at : option nat) :
  forall (shs : list Pptx.Shape) (k : nat) (acc : SlideData),
    bullet_count
      (fold_left
         (fun slide_data js =>
            let is_title :=
              match title_at with
              | Some t => (t =? fst js)%nat
              | None => false
              end in
            extract_shape slide_data is_title (snd js))
         (combine (seq k (List.length shs)) shs) acc)
    = (bullet_count acc
       + Z.of_nat (List.length
           (filter countable
              (flat_map
                 (fun shape =>
                    match Pptx.text_frame shape with
                    | Some ps => ps | None => []
                    end)
                 shs))))%Z.
Proof.
  induction shs as [|s shs IH]; intros k acc; simpl; [lia|].
  rewrite IH, extract_shape_count, filter_app, length_app. lia.
Qed.



End QAFacts.

(* ===================================================================== *)
(** * Writing fixes into speaker notes *)
(* ===================================================================== *)

Section NotesFacts.
Import Py Spec Llm FinalPassAgent.

Lemma write_notes_length (i : nat) (text : string) (prs : Pptx.Presentation) :
  List.length (write_notes i text prs) = List.length prs.
Proof.
  revert i; induction prs as [|s prs IH]; intros [|i]; simpl; auto.
Qed.

Lemma write_notes_shapes (i : nat) (text : string) (prs : Pptx.Presentation) :
  map Pptx.shapes (write_notes i text prs) = map Pptx.shapes prs.
Proof.
  revert i; induction prs as [|s prs IH]; intros [|i]; simpl; auto.
  now rewrite IH.
Qed.

Lemma write_notes_other (i j : nat) (text : string)
      (prs : Pptx.Presentation) :
  i <> j -> nth_error (write_notes i text prs) j = nth_error prs j.
Proof.
  revert i j; induction prs as [|s prs IH]; intros [|i] [|j] N; simpl;
    auto; try contradiction; try (apply IH; lia).
Qed.

Lemma write_notes_same (i : nat) (text : string) (prs : Pptx.Presentation)
      (slide : Pptx.Slide) :
  nth_error prs i = Some slide ->
  nth_error (write_notes i text prs) i
  = Some (Pptx.mkSlide (Pptx.shapes slide) (Some (Pptx.frame_text text))).
Proof.
  revert i; induction prs as [|s prs IH]; intros [|i]; simpl;
    try discriminate.
  - now intros [= ->].
  - apply IH.
Qed.

Lemma slide_position_length (prs prs' : Pptx.Presentation) (k : Z) :
  List.length prs' = List.length prs ->
  slide_position prs' k = slide_position prs k.
Proof. intros L; unfold slide_position; now rewrite L. Qed.

Lemma slide_position_in_range (prs : Pptx.Presentation) (k : Z) :
  (1 <= k <= Z.of_nat (List.length prs))%Z ->
  slide_position prs k = Some (Z.to_nat (k - 1)) /\
  Z.to_nat (k - 1) < List.length prs.
Proof.
  intros R. unfold slide_position.
  assert (E : ((0 <=? k - 1) && (k - 1 <? Z.of_nat (List.length prs)))%Z
              = true) by lia.
  rewrite E. split; [reflexivity | lia].
Qed.

(** The shapes of every slide survive the notes being written, also when
    the loop is left by an index error. *)
Lemma apply_fixes_shapes :
  forall (fixes : fixes_dict) (prs : Pptx.Presentation),
    map Pptx.shapes (snd (apply_fixes_to_presentation prs fixes))
    = map Pptx.shapes prs.
Proof.
  induction fixes as [|[k f] fixes IH]; intros prs; simpl; [reflexivity|].
  destruct (k <=? Z.of_nat (List.length prs))%Z; [|apply IH].
  destruct (slide_position prs k) as [i|]; [|reflexivity].
  now rewrite IH, write_notes_shapes.
Qed.

(** A slide that no fix addresses is left as it was. *)
Lemma apply_fixes_other :
  forall (fixes : fixes_dict) (prs : Pptx.Presentation) (i : nat),
    (forall k f, In (k, f) fixes -> slide_position prs k <> Some i) ->
    nth_error (snd (apply_fixes_to_presentation prs fixes)) i
    = nth_error prs i.
Proof.
  induction fixes as [|[k f] fixes IH]; intros prs i H; simpl; [reflexivity|].
  assert (Ht : forall k' f', In (k', f') fixes ->
                             slide_position prs k' <> Some i)
    by (intros k' f' I; apply (H k' f'); now right).
  destruct (k <=? Z.of_nat (List.length prs))%Z; [|now apply IH].
  destruct (slide_position prs k) as [j|] eqn:E; [|reflexivity].
  rewrite IH.
  - apply write_notes_other. intros ->. apply (H k f); [now left | exact E].
  - intros k' f' I.
    rewrite (slide_position_length prs) by apply write_notes_length.
    now apply (Ht k' f').
Qed.

(** Fixes keyed by distinct slide numbers of the deck are all written,
    each into the notes of its slide. *)
Lemma apply_fixes_in_range :
  forall (fixes : fixes_dict) (prs : Pptx.Presentation),
    NoDup (map fst fixes) ->
    (forall k, In k (map fst fixes) ->
               (1 <= k <= Z.of_nat (List.length prs))%Z) ->
    fst (apply_fixes_to_presentation prs fixes) = Ok tt /\
    forall k f, In (k, f) fixes ->
      exists slide,
        nth_error prs (Z.to_nat (k - 1)) = Some slide /\
        nth_error (snd (apply_fixes_to_presentation prs fixes))
                  (Z.to_nat (k - 1))
        = Some (Pptx.mkSlide (Pptx.shapes slide)
                             (Some (Pptx.frame_text (notes_text f)))).
Proof.
  induction fixes as [|[k0 f0] fixes IH]; intros prs D R; simpl.
  - split; [reflexivity | contradiction].
  - simpl in D. apply NoDup_cons_iff in D as [Nk D].
    destruct (slide_position_in_range prs k0) as [P L];
      [apply R; now left|].
    assert (Le : (k0 <=? Z.of_nat (List.length prs))%Z = true).
    { pose proof (R k0 (or_introl eq_refl)) as R0. lia. }
    rewrite Le, P.
    set (prs' := write_notes (Z.to_nat (k0 - 1)) (notes_text f0) prs).
    assert (L' : List.length prs' = List.length prs)
      by apply write_notes_length.
    destruct (IH prs' D) as [Ok' Each].
    { intros k I. rewrite L'. apply R. now right. }
    split; [exact Ok'|].
    intros k f [[= <- <-] | I].
    + destruct (nth_error prs (Z.to_nat (k0 - 1))) as [slide|] eqn:E;
        [|apply nth_error_None in E; lia].
      exists slide; split; [reflexivity|].
      rewrite apply_fixes_other.
      * now apply write_notes_same.
      * intros k' f' I' Pk'.
        assert (Ik : In k' (map fst fixes))
          by (apply in_map_iff; now exists (k', f')).
        rewrite (slide_position_length prs) in Pk' by exact L'.
        destruct (slide_position_in_range prs k') as [P' _];
          [apply R; now right|].
        rewrite P' in Pk'. injection Pk' as Pk'.
        assert (k' = k0).
        { pose proof (R k' (or_intror Ik)) as R1.
          pose proof (R k0 (or_introl eq_refl)) as R0. lia. }
        subst k'. contradiction.
    + destruct (Each k f I) as (slide & E1 & E2).
      assert (Ik : In k (map fst fixes))
        by (apply in_map_iff; now exists (k, f)).
      assert (Nkk : k <> k0) by (intros ->; contradiction).
      unfold prs' in E1. rewrite write_notes_other in E1.
      * exists slide; split; assumption.
      * pose proof (R k (or_intror Ik)) as R1.
        pose proof (R k0 (or_introl eq_refl)) as R0. lia.
Qed.

(** ** The keys of the generated fixes *)

Lemma dict_set_keys (num : Z) (v : Fix) (d : fixes_dict) (x : Z) :
  In x (map fst (dict_set num v d)) <-> x = num \/ In x (map fst d).
Proof.
  induction d as [|[k w] d IH]; simpl.
  - intuition.
  - destruct (k =? num)%Z eqn:E; simpl.
    + apply Z.eqb_eq in E; subst k. intuition.
    + rewrite IH. intuition.
Qed.

Lemma dict_set_nodup (num : Z) (v : Fix) (d : fixes_dict) :
  NoDup (map fst d) -> NoDup (map fst (dict_set num v d)).
Proof.
  induction d as [|[k w] d IH]; simpl; intros D.
  - constructor; [intros [] | constructor].
  - apply NoDup_cons_iff in D as [N D].
    destruct (k =? num)%Z eqn:E; simpl.
    + constructor; assumption.
    + constructor; [|now apply IH].
      rewrite dict_set_keys. intros [-> | I]; [|contradiction].
      apply Z.eqb_neq in E. contradiction.
Qed.

Lemma fix_loop_keys (llm : oracle) :
  forall (slides : list SlideData) (fixes0 : fixes_dict) (h : log)
         (fixes : fixes_dict) (h' : log),
    for_each
      (fun fixes slide =>
         bind (invoke llm fix_system_prompt
                      (fix_user_prompt (total_text slide)))
              (fun response =>
                 ret (dict_set (number slide)
                        (mkFix (total_text slide) (strip response)) fixes)))
      slides fixes0 h
    = (Ok fixes, h') ->
    NoDup (map fst fixes0) ->
    NoDup (map fst fixes) /\
    forall k, In k (map fst fixes) ->
              In k (map fst fixes0) \/ In k (map number slides).
Proof.
  induction slides as [|s slides IH]; intros fixes0 h fixes h' H D.
  - simpl in H. injection H as <- <-. auto.
  - cbn [for_each] in H. unfold bind at 1, bind at 1, invoke in H.
    destruct (llm h _) as [response|e]; [|discriminate].
    unfold ret at 1 in H.
    apply IH in H; [|now apply dict_set_nodup].
    destruct H as [D' K]. split; [exact D'|].
    intros k I. apply K in I as [I | I].
    + apply dict_set_keys in I as [-> | I]; [right; now left | now left].
    + right; now right.
Qed.

Lemma dict_set_in (num : Z) (v : Fix) (d : fixes_dict) (k : Z) (f : Fix) :
  In (k, f) (dict_set num v d) -> (k, f) = (num, v) \/ In (k, f) d.
Proof.
  induction d as [|[k0 w] d IH]; cbn [dict_set].
  - intros [E | []]. now left.
  - destruct (k0 =? num)%Z eqn:E.
    + apply Z.eqb_eq in E; subst k0.
      intros [[= <- <-] | I]; [now left | right; now right].
    + intros [E' | I]; [right; now left|].
      apply IH in I as [E' | I]; [now left | right; now right].
Qed.

(** Every generated fix holds the text of its slide and the trimmed reply
    of the model to the request made for that slide. *)
Lemma fix_loop_values (llm : oracle) :
  forall (slides : list SlideData) (fixes0 : fixes_dict) (h : log)
         (fixes : fixes_dict) (h' : log),
    for_each
      (fun fixes slide =>
         bind (invoke llm fix_system_prompt
                      (fix_user_prompt (total_text slide)))
              (fun response =>
                 ret (dict_set (number slide)
                        (mkFix (total_text slide) (strip response)) fixes)))
      slides fixes0 h
    = (Ok fixes, h') ->
    forall k f, In (k, f) fixes ->
      In (k, f) fixes0 \/
      exists slide h0 reply,
        In slide slides /\ number slide = k /\
        llm h0 (fix_system_prompt, fix_user_prompt (total_text slide))
        = Ok reply /\
        f = mkFix (total_text slide) (strip reply).
Proof.
  induction slides as [|s slides IH]; intros fixes0 h fixes h' H k f I.
  - simpl in H. injection H as <- <-. now left.
  - cbn [for_each] in H. unfold bind at 1, bind at 1, invoke in H.
    destruct (llm h _) as [response|e] eqn:R; [|discriminate].
    unfold ret at 1 in H.
    destruct (IH _ _ _ _ H k f I) as [I0 | (slide & h0 & reply & Is & P)].
    + apply dict_set_in in I0 as [[= -> ->] | I0]; [|now left].
      right. exists s, h, response. repeat split; auto. now left.
    + right. exists slide, h0, reply. split; [now right | exact P].
Qed.

Lemma generate_fixes_values (llm : oracle) (slides_data : list SlideData)
      (h h' : log) (fixes : fixes_dict) :
  generate_fixes llm slides_data h = (Ok fixes, h') ->
  forall k f, In (k, f) fixes ->
    exists slide h0 reply,
      In slide slides_data /\ number slide = k /\
      llm h0 (fix_system_prompt, fix_user_prompt (total_text slide))
      = Ok reply /\
      f = mkFix (total_text slide) (strip reply).
Proof.
  unfold generate_fixes.
  set (problem_slides := fold_left _ slides_data []).
  assert (Sub : forall s, In s problem_slides -> In s slides_data).
  { unfold problem_slides.
    rewrite (fold_left_flat
               (fun slide =>
                  if exempt slides_data (number slide) then []
                  else if ((bullet_count slide <? 2)
                           || (6 <? bullet_count slide))%Z
                       then [slide] else [])).
    2:{ intros acc slide. destruct (exempt slides_data (number slide));
          [now rewrite app_nil_r|].
        destruct ((bullet_count slide <? 2) || (6 <? bullet_count slide))%Z;
          [reflexivity | now rewrite app_nil_r]. }
    cbn [app]. intros s I. apply in_flat_map in I as (x & Ix & I).
    destruct (exempt slides_data (number x)); [contradiction|].
    destruct ((bullet_count x <? 2) || (6 <? bullet_count x))%Z;
      [|contradiction].
    destruct I as [<- | []]. assumption. }
  intros H k f I.
  assert (H' :
    for_each
      (fun fixes slide =>
         bind (invoke llm fix_system_prompt
                      (fix_user_prompt (total_text slide)))
              (fun response =>
                 ret (dict_set (number slide)
                        (mkFix (total_text slide) (strip response)) fixes)))
      problem_slides [] h = (Ok fixes, h')).
  { destruct problem_slides; [exact H | exact H]. }
  destruct (fix_loop_values llm _ _ _ _ _ H' k f I)
    as [[] | (slide & h0 & reply & Is & P)].
  exists slide, h0, reply. split; [now apply Sub | exact P].
Qed.

(** What the notes page gives back for the notes of a fix. *)
Lemma notes_held (f : Fix) :
  Pptx.frame_text (notes_text f)
  = ("SUGGESTED FIX (3 bullets):" ++ nl ++ nl
       ++ Pptx.frame_text (fixed_text f) ++ nl ++ nl ++ "---" ++ nl
       ++ "Original had issues with bullet count." ++ nl
       ++ "Review and apply manually if needed.")%string.
Proof.
  change (notes_text f)
    with (("SUGGESTED FIX (3 bullets):" ++ nl ++ nl)
            ++ fixed_text f
            ++ (nl ++ nl ++ "---" ++ nl
                   ++ "Original had issues with bullet count." ++ nl
                   ++ "Review and apply manually if needed."))%string.
  rewrite !frame_text_append. reflexivity.
Qed.

End NotesFacts.

(* ===================================================================== *)
(** * Generated fixes *)
(* ===================================================================== *)

Section FixGeneration.
Import Py Spec Llm FinalPassAgent Examples.

Lemma extract_shape_number (d : SlideData) (b : bool) (s : Pptx.Shape) :
  number (extract_shape d b s) = number d.
Proof.
  unfold extract_shape. destruct (Pptx.text_frame s) as [ps|];
    [|reflexivity].
  destruct (scan_paragraphs ps) as [text count].
  destruct (truthy (strip text)); reflexivity.
Qed.

Lemma extract_shapes_number (title_at : option nat)
      (l : list (nat * Pptx.Shape)) :
  forall d,
    number
      (fold_left
         (fun slide_data js =>
            let is_title :=
              match title_at with
              | Some t => (t =? fst js)%nat
              | None => false
              end in
            extract_shape slide_data is_title (snd js))
         l d)
    = number d.
Proof.
  induction l as [|js l IH]; intros d; simpl; [reflexivity|].
  now rewrite IH, extract_shape_number.
Qed.

Lemma extract_slide_number (i : nat) (slide : Pptx.Slide) :
  number (extract_slide i slide) = (Z.of_nat i + 1)%Z.
Proof. unfold extract_slide. now rewrite extract_shapes_number. Qed.

Lemma extract_slide_content_map (prs : Pptx.Presentation) :
  extract_slide_content prs
  = map (fun islide => extract_slide (fst islide) (snd islide))
        (combine (seq 0 (List.length prs)) prs).
Proof.
  unfold extract_slide_content.
  now rewrite (fold_left_snoc
                 (fun islide => extract_slide (fst islide) (snd islide))).
Qed.

Lemma extract_slide_content_numbers (prs : Pptx.Presentation) (k : Z) :
  In k (map number (extract_slide_content prs)) ->
  (1 <= k <= Z.of_nat (List.length prs))%Z.
Proof.
  rewrite extract_slide_content_map, map_map. intros I.
  apply in_map_iff in I as ([i s] & <- & I). cbn [fst snd].
  rewrite extract_slide_number. apply in_combine_l in I.
  apply in_seq in I. lia.
Qed.

Lemma generate_fixes_keys (llm : oracle) (slides_data : list SlideData)
      (h h' : log) (fixes : fixes_dict) :
  generate_fixes llm slides_data h = (Ok fixes, h') ->
  NoDup (map fst fixes) /\
  forall k, In k (map fst fixes) -> In k (map number slides_data).
Proof.
  unfold generate_fixes.
  rewrite (fold_left_flat
             (fun slide =>
                if exempt slides_data (number slide) then []
                else if ((bullet_count slide <? 2)
                         || (6 <? bullet_count slide))%Z
                     then [slide] else [])).
  2:{ intros acc slide. destruct (exempt slides_data (number slide));
        [now rewrite app_nil_r|].
      destruct ((bullet_count slide <? 2) || (6 <? bullet_count slide))%Z;
        [reflexivity | now rewrite app_nil_r]. }
  cbn [app]. set (problem_slides := flat_map _ slides_data).
  assert (Sub : forall s, In s problem_slides -> In s slides_data).
  { intros s I. apply in_flat_map in I as (x & Ix & I).
    destruct (exempt slides_data (number x)); [contradiction|].
    destruct ((bullet_count x <? 2) || (6 <? bullet_count x))%Z;
      [|contradiction].
    destruct I as [<- | []]. assumption. }
  intros H.
  assert (H' :
    for_each
      (fun fixes slide =>
         bind (invoke llm fix_system_prompt
                      (fix_user_prompt (total_text slide)))
              (fun response =>
                 ret (dict_set (number slide)
                        (mkFix (total_text slide) (strip response)) fixes)))
      problem_slides [] h = (Ok fixes, h')).
  { destruct problem_slides; [exact H | exact H]. }
  apply fix_loop_keys in H'; [|constructor].
  destruct H' as [D K]. split; [exact D|].
  intros k I. apply K in I as [[] | I].
  apply in_map_iff in I as (s & <- & I). apply in_map. now apply Sub.
Qed.

Lemma in_combine_seq {X} (l : list X) (i : nat) (x : X) :
  forall k, In (i, x) (combine (seq k (List.length l)) l) ->
            k <= i /\ nth_error l (i - k) = Some x.
Proof.
  induction l as [|y l IH]; intros k I; simpl in I; [contradiction|].
  destruct I as [[= <- <-] | I].
  - rewrite Nat.sub_diag. auto.
  - apply IH in I as [L N]. split; [lia|].
    replace (i - k) with (S (i - S k)) by lia. exact N.
Qed.

Lemma extracted_slide (prs : Pptx.Presentation) (d : SlideData) :
  In d (extract_slide_content prs) ->
  exists slide,
    nth_error prs (Z.to_nat (number d - 1)) = Some slide /\
    d = extract_slide (Z.to_nat (number d - 1)) slide.
Proof.
  rewrite extract_slide_content_map. intros I.
  apply in_map_iff in I as ([i s] & <- & I). cbn [fst snd].
  rewrite extract_slide_number.
  replace (Z.to_nat (Z.of_nat i + 1 - 1)) with i by lia.
  exists s. split; [|reflexivity].
  apply in_combine_seq in I as [_ N]. now rewrite Nat.sub_0_r in N.
Qed.

(** C8.  Applying fixes leaves the shapes of every slide as they were, also
    when the loop ends in an index error; a slide that no fix addresses is
    left entirely as it was; and for the fixes generated from the deck
    itself the call returns, each addressed slide keeping its shapes and
    getting as its notes the heading "SUGGESTED FIX (3 bullets):", the
    suggested text, which is the trimmed reply of the model to the request
    made for that slide, and the three closing lines.  The notes page holds
    the suggested text as python-pptx gives it back: as it is, unless it
    has a control character that is escaped. *)
Theorem fixes_go_to_speaker_notes :
  (forall (prs : Pptx.Presentation) (fixes : fixes_dict),
     map Pptx.shapes (snd (apply_fixes_to_presentation prs fixes))
     = map Pptx.shapes prs)
  /\
  (forall (prs : Pptx.Presentation) (fixes : fixes_dict) (i : nat),
     (forall k f, In (k, f) fixes -> slide_position prs k <> Some i) ->
     nth_error (snd (apply_fixes_to_presentation prs fixes)) i
     = nth_error prs i)
  /\
  (forall (llm : oracle) (prs : Pptx.Presentation) (h h' : log)
          (fixes : fixes_dict),
     generate_fixes llm (extract_slide_content prs) h = (Ok fixes, h') ->
     fst (apply_fixes_to_presentation prs fixes) = Ok tt /\
     forall k f, In (k, f) fixes ->
       exists slide h0 reply,
         nth_error prs (Z.to_nat (k - 1)) = Some slide /\
         llm h0 (fix_system_prompt,
                 fix_user_prompt
                   (total_text (extract_slide (Z.to_nat (k - 1)) slide)))
         = Ok reply /\
         fixed_text f = strip reply /\
         nth_error (snd (apply_fixes_to_presentation prs fixes))
                   (Z.to_nat (k - 1))
         = Some (Pptx.mkSlide
                   (Pptx.shapes slide)
                   (Some ("SUGGESTED FIX (3 bullets):" ++ nl ++ nl
                            ++ Pptx.frame_text (fixed_text f)
                            ++ nl ++ nl ++ "---" ++ nl
                            ++ "Original had issues with bullet count."
                            ++ nl
                            ++ "Review and apply manually if needed.")
                           %string)))
  /\
  (forall text : string,
     all (fun c => negb (Pptx.escaped c)) text = true ->
     Pptx.frame_text text = text).
Proof.
  split; [intros; apply apply_fixes_shapes|].
  split; [intros; now apply apply_fixes_other|].
  split; [|apply frame_text_kept].
  intros llm prs h h' fixes G.
  pose proof (generate_fixes_values _ _ _ _ _ G) as V.
  apply generate_fixes_keys in G as [D K].
  destruct (apply_fixes_in_range fixes prs D) as [Ok_ Notes].
  { intros k I. apply extract_slide_content_numbers. now apply K. }
  split; [exact Ok_|].
  intros k f I.
  destruct (Notes k f I) as (slide & N1 & N2).
  destruct (V k f I) as (d & h0 & reply & Id & <- & R & ->).
  destruct (extracted_slide prs d Id) as (slide' & N1' & Ed).
  assert (slide' = slide) by congruence. subst slide'.
  exists slide, h0, reply. rewrite <- Ed.
  repeat split; auto.
  rewrite N2, notes_held. reflexivity.
Qed.

Lemma fixes_go_to_speaker_notes_witness :
  fst (apply_fixes_to_presentation thin_deck [(3%Z, thin_fix)]) = Ok tt /\
  forall k f, In (k, f) [(3%Z, thin_fix)] ->
    exists slide h0 reply,
      nth_error thin_deck (Z.to_nat (k - 1)) = Some slide /\
      constant_llm "- x" h0
        (fix_system_prompt,
         fix_user_prompt
           (total_text (extract_slide (Z.to_nat (k - 1)) slide)))
      = Ok reply /\
      fixed_text f = strip reply /\
      nth_error (snd (apply_fixes_to_presentation thin_deck
                        [(3%Z, thin_fix)]))
                (Z.to_nat (k - 1))
      = Some (Pptx.mkSlide
                (Pptx.shapes slide)
                (Some ("SUGGESTED FIX (3 bullets):" ++ nl ++ nl
                         ++ Pptx.frame_text (fixed_text f)
                         ++ nl ++ nl ++ "---" ++ nl
                         ++ "Original had issues with bullet count."
                         ++ nl
                         ++ "Review and apply manually if needed.")
                        %string)).
Proof.
  apply (proj1 (proj2 (proj2 fixes_go_to_speaker_notes))
               (constant_llm "- x") thin_deck []
               [(fix_system_prompt, fix_user_prompt (original thin_fix))]).
  vm_compute. reflexivity.
Defined.

End FixGeneration.

(* ===================================================================== *)
(** * The search client *)
(* ===================================================================== *)

Section SearchClient.
Import Py DuckDuckGoSearch Examples.




End SearchClient.

(* ===================================================================== *)
(** * Lazy repetitions and the section pattern *)
(* ===================================================================== *)

Section LazyFacts.
Import Py Re Spec.

Lemma cursor_eta (c : cursor) : Cursor (pos c) (prev c) (rest c) = c.
Proof. destruct c; reflexivity. Qed.

(** A lazy [p*?] or [p+?] stops at the first place where what follows it
    succeeds: it reads [w], and what follows fails after every shorter
    prefix of [w] that has the owed length. *)
Lemma rep_lazy_first (p : ascii -> bool)
      (step : cursor -> groups -> cont -> answer) (k : cont) :
  (forall c g k', step c g k' = Re.run (Cls p) c g k') ->
  forall fuel least c g a,
    rep_loop step false k fuel least c g = Some a ->
    exists w t,
      rest c = (w ++ t)%string /\ all p w = true /\
      least <= String.length w /\
      k (Cursor (pos c + String.length w) (prev_after (prev c) w) t) g
      = Some a /\
      forall w1 w2,
        w = (w1 ++ w2)%string -> w2 <> "" -> least <= String.length w1 ->
        k (Cursor (pos c + String.length w1) (prev_after (prev c) w1)
                  (w2 ++ t)%string) g
        = None.
Proof.
  intros Hstep; induction fuel as [|fuel IH]; intros least c g a H;
    [discriminate|].
  cbn [rep_loop] in H.
  destruct (match least with 0 => k c g | S _ => None end) eqn:St.
  - injection H as <-. destruct least; [|discriminate].
    exists "", (rest c). simpl. rewrite Nat.add_0_r, cursor_eta.
    repeat split; auto.
    intros w1 w2 E N _. destruct w1; simpl in E; [congruence | discriminate].
  - rewrite Hstep in H. cbn [Re.run] in H.
    destruct (rest c) as [|x t0] eqn:R; [discriminate|].
    destruct (p x) eqn:Px; [|discriminate].
    cbn [pos] in H.
    assert (Lt : (pos c <? S (pos c))%nat = true)
      by (apply Nat.ltb_lt; lia).
    rewrite Lt in H.
    apply IH in H as (w & t & R' & A & L & K & Min).
    simpl in R', K, Min.
    exists (String x w), t. repeat split.
    + simpl; now rewrite R'.
    + simpl; now rewrite Px.
    + simpl; lia.
    + simpl.
      replace (pos c + S (String.length w))
        with (S (pos c + String.length w)) by lia.
      exact K.
    + intros w1 w2 E N L1. destruct w1 as [|y w1]; simpl in *.
      * assert (least = 0) by lia; subst least.
        rewrite Nat.add_0_r. subst w2. simpl. rewrite <- R', <- R.
        now rewrite cursor_eta.
      * injection E as <- E.
        replace (pos c + S (String.length w1))
          with (S (pos c + String.length w1)) by lia.
        apply Min; auto; lia.
Qed.

Lemma all_true (p : ascii -> bool) (s : string) :
  (forall c, p c = true) -> all p s = true.
Proof. intros T; induction s; simpl; [reflexivity | now rewrite T]. Qed.

Lemma all_from_splits (q : ascii -> bool) (w : string) :
  (forall w1 c w2, w = (w1 ++ String c w2)%string -> q c = true) ->
  all q w = true.
Proof.
  induction w as [|a w IH]; intros H; simpl; [reflexivity|].
  rewrite (H "" a w eq_refl). simpl. apply IH.
  intros w1 c w2 ->. apply (H (String a w1) c w2). reflexivity.
Qed.

End LazyFacts.

Section SectionShape.
Import Py Re Spec.

(** After a newline the rest of the section pattern always has a match:
    the content can run to the end of the subject. *)
Lemma section_tail_total (ma : bool) (p : nat) (c : cursor) (g : groups)
      (t : string) :
  rest c = (nl ++ t)%string -> p < pos c ->
  Re.run (Lit nl +> Grp 3 (lazy_star (dot true))
          +> Ahead (Alt (Lit (nl ++ "## ")%string +> digit)
                   (Alt (Lit (nl ++ "---")%string +> star space
                         +> Lit (nl ++ "## Methodology")%string)
                        (Eol false))))%re
         c g (accept ma p)
  <> None.
Proof.
  intros R Lt.
  assert (E : eat nl c = Some (Cursor (pos c + 1) (Some LF) t)).
  { destruct c as [q pv s]; simpl in R; subst s.
    apply (eat_intro nl t q pv). }
  eapply run_complete.
  - eapply M_Cat; [eapply M_Lit; exact E|].
    eapply M_Cat.
    + eapply M_Grp. unfold lazy_star, dot.
      apply (matches_rep_class_intro false _ t 0 _ "").
      * apply all_true. reflexivity.
      * lia.
      * simpl. now rewrite append_nil_r.
    + eapply M_Ahead. eapply M_AltR. eapply M_AltR. eapply M_Eol.
      reflexivity.
  - unfold accept. cbn [pos].
    destruct ma; simpl; [|discriminate].
    destruct (Nat.eqb_spec (pos c + 1 + String.length t) p);
      [lia | discriminate].
Qed.

(** Before a newline, "## " and a digit the look-ahead of the section
    pattern succeeds. *)
Lemma section_ahead_total (ma : bool) (p : nat) (c : cursor) (g : groups)
      (d : ascii) (t : string) :
  rest c = (nl ++ "## " ++ String d t)%string -> isdigit d = true ->
  p < pos c ->
  Re.run (Ahead (Alt (Lit (nl ++ "## ")%string +> digit)
                (Alt (Lit (nl ++ "---")%string +> star space
                      +> Lit (nl ++ "## Methodology")%string)
                     (Eol false))))%re
         c g (accept ma p)
  <> None.
Proof.
  intros R D Lt. destruct c as [q pv s]; simpl in R, Lt; subst s.
  eapply run_complete.
  - eapply M_Ahead. eapply M_AltL. eapply M_Cat.
    + eapply M_Lit. apply (eat_intro (nl ++ "## ") (String d t) q pv).
    + eapply M_Cls; [reflexivity | exact D].
  - unfold accept. destruct ma; simpl; [|discriminate].
    destruct (Nat.eqb_spec q p); [lia | discriminate].
Qed.

(** The shape of one match of the section pattern: the title group is one
    character followed by characters that are no newline, and the content
    group holds no newline followed by "## " and a digit. *)
Lemma section_run_shape (p : nat) (pv : option ascii) (s : string)
      (ma : bool) (a : cursor * groups) :
  Re.run PowerPointAgent.section_pattern (Cursor p pv s) [] (accept ma p)
  = Some a ->
  exists ds x w co,
    snd a = [(3, co); (2, String x w); (1, ds)] /\
    all isdigit ds = true /\ ds <> "" /\
    all (fun c => negb (Ascii.eqb c LF)) w = true /\
    (forall u d v, isdigit d = true ->
                   co <> (u ++ nl ++ "## " ++ String d v)%string).
Proof.
  unfold PowerPointAgent.section_pattern. intros H.
  apply run_cat_inv in H as (c1 & g1 & M1 & H).
  apply matches_lit_inv in M1 as [E1 ->]. apply eat_spans in E1 as [E1 P1].
  apply run_cat_inv in H as (c2 & g2 & M2 & H).
  apply matches_grp_inv in M2 as (g2' & M2 & ->).
  apply matches_rep_class in M2 as (ds & [E2 P2] & A2 & -> & L2).
  apply run_cat_inv in H as (c3 & g3 & M3 & H).
  apply matches_lit_inv in M3 as [E3 ->]. apply eat_spans in E3 as [E3 P3].
  simpl in P1, P3.
  remember (Lit nl +> Grp 3 (lazy_star (dot true))
            +> Ahead (Alt (Lit (nl ++ "## ")%string +> digit)
                     (Alt (Lit (nl ++ "---")%string +> star space
                           +> Lit (nl ++ "## Methodology")%string)
                          (Eol false))))%re as R eqn:ER.
  unfold lazy_plus, dot in H. cbn [Re.run] in H.
  eapply (rep_lazy_first (fun c => true || negb (Ascii.eqb c LF))) in H;
    [|intros; reflexivity].
  destruct H as (w & t & Rw & _ & Lw & K & Min).
  destruct w as [|x w]; [simpl in Lw; lia|].
  assert (G2 : slice_to (pos c3 + String.length (String x w) - pos c3)
                        (rest c3) = String x w).
  { replace (pos c3 + String.length (String x w) - pos c3)
      with (String.length (String x w)) by lia.
    rewrite Rw. apply slice_to_append. }
  assert (G1 : slice_to (pos c2 - pos c1) (rest c1) = ds).
  { rewrite P2, E2.
    replace (pos c1 + String.length ds - pos c1) with (String.length ds)
      by lia.
    apply slice_to_append. }
  cbn [pos] in K. rewrite G2, G1 in K.
  assert (Tw : all (fun c => negb (Ascii.eqb c LF)) w = true).
  { apply all_from_splits. intros w1 c w2 Ew.
    destruct (Ascii.eqb c LF) eqn:Ec; [|reflexivity]. exfalso.
    apply Ascii.eqb_eq in Ec; subst c.
    specialize (Min (String x w1) (String LF w2)).
    cbn [pos] in Min.
    assert (N : Re.run R
                  (Cursor (pos c3 + String.length (String x w1))
                          (prev_after (prev c3) (String x w1))
                          (String LF w2 ++ t)%string)
                  ((2, slice_to
                         (pos c3 + String.length (String x w1) - pos c3)
                         (rest c3)) :: (1, ds) :: [])
                  (accept ma p) <> None).
    { subst R. apply (section_tail_total ma p _ _ (w2 ++ t)%string).
      - reflexivity.
      - simpl. lia. }
    apply N. rewrite <- G1. apply Min.
    - rewrite Ew. reflexivity.
    - discriminate.
    - simpl; lia. }
  subst R.
  apply run_cat_inv in K as (c5 & g5 & M5 & K).
  apply matches_lit_inv in M5 as [E5 ->]. apply eat_spans in E5 as [E5 P5].
  simpl in E5, P5.
  remember (Ahead (Alt (Lit (nl ++ "## ")%string +> digit)
                  (Alt (Lit (nl ++ "---")%string +> star space
                        +> Lit (nl ++ "## Methodology")%string)
                       (Eol false))))%re as R eqn:ER.
  unfold lazy_star, dot in K. cbn [Re.run] in K.
  eapply (rep_lazy_first (fun c => true || negb (Ascii.eqb c LF))) in K;
    [|intros; reflexivity].
  destruct K as (co & t' & Rco & _ & _ & K & Min3).
  assert (G3 : slice_to (pos c5 + String.length co - pos c5) (rest c5) = co).
  { replace (pos c5 + String.length co - pos c5) with (String.length co)
      by lia.
    rewrite Rco. apply slice_to_append. }
  cbn [pos] in K. rewrite G3 in K.
  exists ds, x, w, co.
  split; [|split; [exact A2|split; [|split; [exact Tw|]]]].
  2:{ intros ->; simpl in L2; lia. }
  - subst R. cbn [Re.run] in K.
    match type of K with
    | match ?X with _ => _ end = _ => destruct X; [|discriminate]
    end.
    apply accept_inv in K as [-> _]. reflexivity.
  - intros u d v D Eco.
    specialize (Min3 u (nl ++ "## " ++ String d v)%string Eco).
    cbn [pos] in Min3.
    assert (N : Re.run R
                  (Cursor (pos c5 + String.length u)
                          (prev_after (prev c5) u)
                          ((nl ++ "## " ++ String d v) ++ t')%string)
                  ((3, slice_to (pos c5 + String.length u - pos c5)
                                (rest c5))
                     :: (2, String x w) :: (1, ds) :: [])
                  (accept ma p) <> None).
    { subst R. apply (section_ahead_total ma p _ _ d (v ++ t')%string).
      - reflexivity.
      - exact D.
      - simpl. lia. }
    apply N. apply Min3; [discriminate | lia].
Qed.

End SectionShape.

(* ===================================================================== *)
(** * What the parsers report of a section *)
(* ===================================================================== *)

Section TrimFacts.
Import Py Spec.

Lemma lstrip_split (s : string) :
  exists l, s = (l ++ lstrip s)%string /\ all isspace l = true.
Proof.
  induction s as [|c s (l & E & A)]; simpl.
  - exists ""; auto.
  - destruct (isspace c) eqn:Sc.
    + exists (String c l); simpl. rewrite Sc, A, <- E. auto.
    + exists ""; auto.
Qed.

Lemma rstrip_split (s : string) :
  exists r, s = (rstrip s ++ r)%string /\ all isspace r = true.
Proof.
  induction s as [|c s (r & E & A)]; simpl.
  - exists ""; auto.
  - destruct (is_empty (rstrip s) && isspace c) eqn:T.
    + apply andb_true_iff in T as [T Sc]. apply is_empty_true in T.
      rewrite T in E; simpl in E. subst r.
      exists (String c s); simpl. now rewrite Sc, A.
    + exists r; simpl. now rewrite <- E.
Qed.

(** Trimming takes white space off both ends and nothing else. *)
Lemma strip_split (s : string) :
  exists l r, s = (l ++ strip s ++ r)%string /\
              all isspace l = true /\ all isspace r = true.
Proof.
  destruct (lstrip_split s) as (l & E & A).
  destruct (rstrip_split (lstrip s)) as (r & E' & A').
  exists l, r. unfold strip. now rewrite <- E', <- E.
Qed.

Lemma rstrip_idem (s : string) : rstrip (rstrip s) = rstrip s.
Proof.
  induction s as [|c s IH]; simpl; [reflexivity|].
  destruct (is_empty (rstrip s) && isspace c) eqn:T; [reflexivity|].
  simpl. now rewrite IH, T.
Qed.

Lemma lstrip_fixed (s : string) :
  match s with String c _ => isspace c = false | "" => True end ->
  lstrip s = s.
Proof. destruct s; simpl; [reflexivity|]. now intros ->. Qed.

(** A trimmed string is left as it is by trimming. *)
Lemma strip_idem (s : string) : strip (strip s) = strip s.
Proof.
  unfold strip at 1. rewrite lstrip_fixed.
  - unfold strip. apply rstrip_idem.
  - unfold strip. destruct (lstrip s) as [|c r] eqn:E; [exact I|].
    apply lstrip_head in E. now rewrite (rstrip_head _ _ E).
Qed.

Lemma all_strip (q : ascii -> bool) (s : string) :
  all q s = true -> all q (strip s) = true.
Proof.
  destruct (strip_split s) as (l & r & E & _). intros A.
  rewrite E, !all_append in A.
  apply andb_true_iff in A as [_ A]. now apply andb_true_iff in A as [A _].
Qed.

(** Trimming white space followed by [w] gives what trimming [w] gives. *)
Lemma strip_space_head (c : ascii) (w : string) :
  isspace c = true -> strip (String c w) = strip w.
Proof. intros E; unfold strip; simpl. now rewrite E. Qed.

Lemma single_line_title (x : ascii) (w : string) :
  single_line w = true -> single_line (strip (String x w)) = true.
Proof.
  intros A. destruct (Ascii.eqb x LF) eqn:E.
  - apply Ascii.eqb_eq in E; subst x.
    rewrite strip_space_head by reflexivity. now apply all_strip.
  - apply all_strip. unfold single_line; simpl. now rewrite E.
Qed.

End TrimFacts.

Section SectionFacts.
Import Py Re Spec.

Lemma finditer_from_answers (r : regex) :
  forall fuel ma c,
    Forall (fun m => exists pv s' ma',
                run r (Cursor (m_start m) pv s') [] (accept ma' (m_start m))
                = Some (m_tail m, m_groups m))
           (finditer_from fuel r ma c).
Proof.
  induction fuel as [|fuel IH]; intros ma c; simpl; [constructor|].
  destruct (scan_at r ma c) as [m|] eqn:S; [|constructor].
  constructor; [|apply IH].
  unfold scan_at in S. apply scan_run in S.
  destruct S as (w & s' & ma' & _ & _ & _ & _ & R & _). eauto.
Qed.

(** What the matcher leaves in the groups of every section it reports. *)
Lemma section_matches_shape (markdown : string) :
  Forall (fun m => exists ds x w co,
              m_groups m = [(3, co); (2, String x w); (1, ds)] /\
              all isdigit ds = true /\ ds <> "" /\
              single_line w = true /\
              (forall u d v, isdigit d = true ->
                             co <> (u ++ nl ++ "## " ++ String d v)%string))
         (finditer PowerPointAgent.section_pattern markdown).
Proof.
  eapply Forall_impl; [|apply finditer_from_answers].
  intros m (pv & s' & ma' & R). apply section_run_shape in R.
  exact R.
Qed.

Lemma contains_header_strip (co u v : string) (d : ascii) :
  strip co = (u ++ nl ++ "## " ++ String d v)%string ->
  exists u' v', co = (u' ++ nl ++ "## " ++ String d v')%string.
Proof.
  intros E. destruct (strip_split co) as (l & r & Eco & _).
  rewrite E in Eco. exists (l ++ u)%string, (v ++ r)%string.
  rewrite Eco. rewrite !append_assoc. reflexivity.
Qed.

End SectionFacts.

Section SourceOrder.
Import Py Re Spec PowerPointAgent.

(** Where a numbered header begins, the section pattern has a match. *)
Lemma header_run (p : nat) (pv : option ascii) (s' : string) (ma : bool) :
  header_at s' ->
  Re.run section_pattern (Cursor p pv s') [] (accept ma p) <> None.
Proof.
  intros (ds & x & t & tail & -> & A & N).
  eapply run_complete.
  - unfold section_pattern, plus, lazy_plus, lazy_star, digit, dot.
    eapply M_Cat; [eapply M_Lit; apply (eat_intro "## " _ p pv)|].
    eapply M_Cat.
    { eapply M_Grp.
      apply (matches_rep_class_intro true isdigit ds 1 _
               (". " ++ String x t ++ nl ++ tail)%string);
        [exact A | destruct ds; [contradiction | simpl; lia]
        | reflexivity]. }
    eapply M_Cat.
    { eapply M_Lit. apply (eat_intro ". " (String x t ++ nl ++ tail)). }
    eapply M_Cat.
    { eapply M_Grp.
      apply (matches_rep_class_intro false _ (String x t) 1 _
               (nl ++ tail)%string);
        [apply all_true; reflexivity | simpl; lia | reflexivity]. }
    eapply M_Cat; [eapply M_Lit; apply (eat_intro nl tail)|].
    eapply M_Cat.
    { eapply M_Grp.
      apply (matches_rep_class_intro false _ tail 0 _ "");
        [apply all_true; reflexivity | lia
        | cbn [rest]; now rewrite append_nil_r]. }
    eapply M_Ahead. eapply M_AltR. eapply M_AltR. eapply M_Eol.
    reflexivity.
  - unfold accept. cbn [pos String.length].
    destruct ma; cbn [andb]; [|discriminate].
    match goal with
    | |- context [(?a =? ?b)%nat] => destruct (Nat.eqb_spec a b)
    end; [lia | discriminate].
Qed.

(** X1.  The sections that the parser reports are the matches of the section
    pattern, from left to right and without overlap.  Every reported
    section sits in the source where its header is, with the number the
    source has there: what the parser reports is never renumbered or
    reordered.  And no numbered header of the source is passed over: it is
    the header of a reported section or it lies inside the text of one. *)
Lemma sections_follow_source (markdown : string) :
  sections (parse_thesis markdown)
  = map section_of_match (finditer section_pattern markdown) /\
  in_order 0 (finditer section_pattern markdown) /\
  Forall (fun m =>
            m_start m < m_end m /\
            exists pre post,
              markdown
              = (pre ++ "## " ++ number (section_of_match m) ++ ". "
                     ++ post)%string /\
              String.length pre = m_start m /\
              all isdigit (number (section_of_match m)) = true /\
              number (section_of_match m) <> "")
         (finditer section_pattern markdown) /\
  (forall pre s',
     markdown = (pre ++ s')%string -> header_at s' ->
     exists m,
       In m (finditer section_pattern markdown) /\
       m_start m <= String.length pre < m_end m).
Proof.
  assert (Loc :
    Forall (fun m =>
              m_start m < m_end m /\
              exists pre post,
                markdown
                = (pre ++ "## " ++ number (section_of_match m) ++ ". "
                       ++ post)%string /\
                String.length pre = m_start m /\
                all isdigit (number (section_of_match m)) = true /\
                number (section_of_match m) <> "")
           (finditer section_pattern markdown)).
  { eapply Forall_impl; [|apply finditer_located].
    intros m (w & s' & pv & E & St & En & M).
    apply section_pattern_header in M as (ds & post & R & A & N & G & Lt).
    simpl in R, Lt. split; [lia|].
    exists w, post. unfold section_of_match, group; cbn [number].
    rewrite G. repeat split; auto. now rewrite E, R. }
  split; [|split; [|split]].
  - unfold parse_thesis; cbn [sections]. now rewrite fold_left_snoc.
  - apply finditer_in_order.
  - exact Loc.
  - intros pre s' E H.
    destruct (finditer_from_covers section_pattern header_at header_run
                (2 * String.length markdown + 2) false (start_of markdown)
                pre s')
      as (m & I & L1 & L2); [cbn [rest start_of]; lia | exact E | exact H|].
    cbn [pos start_of Nat.add] in L1, L2.
    exists m. split; [exact I|]. split; [exact L1|].
    destruct L2 as [L2 | L2]; [exact L2|].
    rewrite Forall_forall in Loc. destruct (Loc m I) as [Lt _].
    change (finditer_from (2 * String.length markdown + 2) section_pattern
                          false (start_of markdown))
      with (finditer section_pattern markdown) in I.
    lia.
Qed.

Lemma sections_follow_source_witness :
  exists m,
    In m (finditer section_pattern Examples.adjacent_headers) /\
    m_start m <= String.length ("## 1. A" ++ nl) < m_end m.
Proof.
  apply (proj2 (proj2 (proj2 (sections_follow_source
                                Examples.adjacent_headers)))
               ("## 1. A" ++ nl)%string
               ("## 2. B" ++ nl ++ "## 5. C" ++ nl)%string).
  - reflexivity.
  - exists "2", "B"%char, "", ("## 5. C" ++ nl)%string.
    repeat split; try reflexivity. discriminate.
Defined.

End SourceOrder.

Section ParsedSections.
Import Py Re Spec.

(** X2.  Every title that the thesis parser and the strategy parser report is
    one line, and titles and contents are trimmed. *)
Theorem parsed_titles_one_line (markdown : string) :
  Forall (fun sec =>
            single_line (PowerPointAgent.title sec) = true /\
            strip (PowerPointAgent.title sec) = PowerPointAgent.title sec /\
            strip (PowerPointAgent.content sec)
            = PowerPointAgent.content sec)
         (PowerPointAgent.sections (PowerPointAgent.parse_thesis markdown))
  /\
  Forall (fun sec =>
            single_line (PowerPointNetworkingAgent.title sec) = true /\
            strip (PowerPointNetworkingAgent.title sec)
            = PowerPointNetworkingAgent.title sec /\
            strip (PowerPointNetworkingAgent.content sec)
            = PowerPointNetworkingAgent.content sec)
         (PowerPointNetworkingAgent.sections
            (PowerPointNetworkingAgent.parse_strategy markdown)).
Proof.
  split.
  - unfold PowerPointAgent.parse_thesis; cbn [PowerPointAgent.sections].
    rewrite fold_left_snoc. apply Forall_map.
    eapply Forall_impl; [|apply section_matches_shape].
    intros m (ds & x & w & co & G & _ & _ & T & _).
    unfold PowerPointAgent.section_of_match, group. rewrite G. simpl.
    rewrite !strip_idem. repeat split. now apply single_line_title.
  - unfold PowerPointNetworkingAgent.parse_strategy;
      cbn [PowerPointNetworkingAgent.sections].
    rewrite fold_left_snoc. apply Forall_map.
    eapply Forall_impl; [|apply section_matches_shape].
    intros m (ds & x & w & co & G & _ & _ & T & _).
    unfold PowerPointNetworkingAgent.section_of_match, group. rewrite G.
    simpl. rewrite !strip_idem. repeat split. now apply single_line_title.
Qed.

(** X3.  No content that the parsers report holds a line break followed by
    "## " and a digit: a numbered header at the start of a line ends the
    section before it, unless it is the first line after the section's own
    header. *)
Theorem parsed_content_has_no_header (markdown : string) :
  Forall (fun sec =>
            forall u d v, isdigit d = true ->
              PowerPointAgent.content sec
              <> (u ++ nl ++ "## " ++ String d v)%string)
         (PowerPointAgent.sections (PowerPointAgent.parse_thesis markdown))
  /\
  Forall (fun sec =>
            forall u d v, isdigit d = true ->
              PowerPointNetworkingAgent.content sec
              <> (u ++ nl ++ "## " ++ String d v)%string)
         (PowerPointNetworkingAgent.sections
            (PowerPointNetworkingAgent.parse_strategy markdown)).
Proof.
  split.
  - unfold PowerPointAgent.parse_thesis; cbn [PowerPointAgent.sections].
    rewrite fold_left_snoc. apply Forall_map.
    eapply Forall_impl; [|apply section_matches_shape].
    intros m (ds & x & w & co & G & _ & _ & _ & N) u d v D.
    unfold PowerPointAgent.section_of_match, group. rewrite G. simpl.
    intros E. apply contains_header_strip in E as (u' & v' & E).
    exact (N u' d v' D E).
  - unfold PowerPointNetworkingAgent.parse_strategy;
      cbn [PowerPointNetworkingAgent.sections].
    rewrite fold_left_snoc. apply Forall_map.
    eapply Forall_impl; [|apply section_matches_shape].
    intros m (ds & x & w & co & G & _ & _ & _ & N) u d v D.
    unfold PowerPointNetworkingAgent.section_of_match, group. rewrite G.
    simpl. intros E. apply contains_header_strip in E as (u' & v' & E).
    exact (N u' d v' D E).
Qed.

Lemma parsed_content_has_no_header_witness :
  Forall (fun sec =>
            forall u d v, isdigit d = true ->
              PowerPointAgent.content sec
              <> (u ++ nl ++ "## " ++ String d v)%string)
         [ PowerPointAgent.mkSection "1" "A" "## 2. B";
           PowerPointAgent.mkSection "5" "C" "" ].
Proof.
  exact (proj1 (parsed_content_has_no_header Examples.adjacent_headers)).
Defined.

End ParsedSections.

(* ===================================================================== *)
(** * Requests to the model, one after the other *)
(* ===================================================================== *)

Section CallTraces.
Import Py Spec Llm.

Lemma answered_app (llm : oracle) (a1 a2 : log) :
  forall h, answered llm h (a1 ++ a2)
            <-> answered llm h a1 /\ answered llm (h ++ a1) a2.
Proof.
  induction a1 as [|p a1 IH]; intros h; simpl.
  - rewrite app_nil_r. tauto.
  - rewrite IH, <- app_assoc. simpl. tauto.
Qed.

Lemma stops_ret {A} (llm : oracle) (h : log) (a : A) :
  stops_at_failure llm h 0 (ret a h).
Proof. exists []. simpl. rewrite app_nil_r. auto. Qed.

Lemma stops_invoke (llm : oracle) (h : log) (system user : string) :
  stops_at_failure llm h 1 (invoke llm system user h).
Proof.
  exists [(system, user)]. unfold invoke; simpl. split; [reflexivity|].
  destruct (llm h (system, user)) as [reply|e] eqn:E.
  - simpl. split; [split; [eexists; reflexivity | exact I] | reflexivity].
  - exists [], (system, user). simpl. rewrite app_nil_r. auto.
Qed.

Lemma stops_bind {A B} (llm : oracle) (m : M A) (f : A -> M B)
      (b1 b2 : nat) (h : log) :
  stops_at_failure llm h b1 (m h) ->
  (forall a h', stops_at_failure llm h' b2 (f a h')) ->
  stops_at_failure llm h (b1 + b2) (bind m f h).
Proof.
  intros (asked1 & E1 & T1) F. unfold bind.
  destruct (m h) as [[a|e] h1]; simpl in E1, T1; subst h1.
  - destruct (F a (h ++ asked1)) as (asked2 & E2 & T2).
    exists (asked1 ++ asked2). rewrite E2, app_assoc. split; [reflexivity|].
    destruct T1 as [An1 L1].
    destruct (fst (f a (h ++ asked1))) as [b|e].
    + destruct T2 as [An2 L2]. split.
      * apply answered_app; auto.
      * rewrite length_app; lia.
    + destruct T2 as (asked0 & p & -> & An0 & R & L0).
      exists (asked1 ++ asked0), p. rewrite app_assoc. repeat split.
      * apply answered_app; auto.
      * rewrite app_assoc. exact R.
      * rewrite length_app; lia.
  - exists asked1. simpl. split; [reflexivity|].
    destruct T1 as (asked0 & p & -> & An0 & R & L0).
    exists asked0, p. repeat split; auto. lia.
Qed.

Lemma stops_budget {A} (llm : oracle) (h : log) (b b' : nat)
      (r : outcome A * log) :
  stops_at_failure llm h b r -> b = b' -> stops_at_failure llm h b' r.
Proof. now intros T <-. Qed.

Lemma stops_for_each {A X} (llm : oracle) (body : A -> X -> M A)
      (cost : X -> nat) :
  (forall acc x h, stops_at_failure llm h (cost x) (body acc x h)) ->
  forall xs acc h,
    stops_at_failure llm h (list_sum (map cost xs)) (for_each body xs acc h).
Proof.
  intros Hb; induction xs as [|x xs IH]; intros acc h; simpl.
  - apply stops_ret.
  - apply stops_bind; [apply Hb | intros; apply IH].
Qed.

Lemma list_sum_ones {X} (xs : list X) :
  list_sum (map (fun _ => 1) xs) = List.length xs.
Proof. induction xs; simpl; [reflexivity | now rewrite IHxs]. Qed.

Lemma list_sum_filter {X} (q : X -> bool) (xs : list X) :
  list_sum (map (fun x => if q x then 1 else 0) xs)
  = List.length (filter q xs).
Proof.
  induction xs as [|x xs IH]; simpl; [reflexivity|].
  destruct (q x); simpl; now rewrite IH.
Qed.

End CallTraces.

Section BuilderFailures.
Import Py Spec Llm Pptx.

Lemma stops_vc_condense (llm : oracle) (content section_title : string)
      (h : log) :
  stops_at_failure llm h 1
    (PowerPointAgent.condense_to_three_bullets llm content section_title h).
Proof.
  unfold PowerPointAgent.condense_to_three_bullets.
  apply (stops_bind llm _ _ 1 0); [apply stops_invoke|].
  intros; apply stops_ret.
Qed.

Lemma stops_vc_summary (llm : oracle) (summary : string) (h : log) :
  stops_at_failure llm h 1
    (PowerPointAgent.condense_executive_summary llm summary h).
Proof.
  unfold PowerPointAgent.condense_executive_summary.
  apply (stops_bind llm _ _ 1 0); [apply stops_invoke|].
  intros; apply stops_ret.
Qed.

Lemma stops_net_condense (llm : oracle) (content section_title : string)
      (h : log) :
  stops_at_failure llm h 1
    (PowerPointNetworkingAgent.condense_to_three_bullets
       llm content section_title h).
Proof.
  unfold PowerPointNetworkingAgent.condense_to_three_bullets.
  apply (stops_bind llm _ _ 1 0); [apply stops_invoke|].
  intros; apply stops_ret.
Qed.

(** X4.  The thesis deck builder has no handler around its requests to the
    model.  Its requests are made one after the other; when all are
    answered there is one per section and one for a summary that is not
    empty; when one raises, the builder raises that exception, makes no
    further request and returns no deck. *)
Theorem vc_create_presentation_stops (llm : oracle) (month_year : string)
        (thesis_data : PowerPointAgent.ThesisData) (h : log) :
  stops_at_failure llm h
    (List.length (PowerPointAgent.sections thesis_data)
     + (if is_empty (PowerPointAgent.executive_summary thesis_data)
        then 0 else 1))
    (PowerPointAgent.create_presentation llm month_year thesis_data h).
Proof.
  unfold PowerPointAgent.create_presentation.
  eapply stops_budget.
  - apply (stops_bind llm _ _
             (if is_empty (PowerPointAgent.executive_summary thesis_data)
              then 0 else 1)
             (List.length (PowerPointAgent.sections thesis_data) + 0)).
    + unfold truthy.
      destruct (is_empty (PowerPointAgent.executive_summary thesis_data));
        cbn [negb].
      * apply stops_ret.
      * apply (stops_bind llm _ _ 1 0); [apply stops_vc_summary|].
        intros; apply stops_ret.
    + intros prs h'. apply stops_bind; [|intros; apply stops_ret].
      eapply stops_budget.
      * apply (stops_for_each llm _ (fun _ => 1)).
        intros acc x h''.
        apply (stops_bind llm _ _ 1 0); [apply stops_vc_condense|].
        intros; apply stops_ret.
      * apply list_sum_ones.
  - lia.
Qed.

(** X5.  The networking deck builder has no handler around its requests
    either.  It asks the model only for the sections whose content does not
    have exactly three bullet lines, one request each and in order; when a
    request raises, the builder raises that exception, makes no further
    request and returns no deck. *)
Theorem net_create_presentation_stops (llm : oracle) (month_year : string)
        (strategy_data : PowerPointNetworkingAgent.StrategyData) (h : log) :
  stops_at_failure llm h
    (List.length
       (filter (fun section =>
                  negb (List.length
                          (bullets_of
                             (PowerPointNetworkingAgent.content section))
                        =? 3)%nat)
               (PowerPointNetworkingAgent.sections strategy_data)))
    (PowerPointNetworkingAgent.create_presentation
       llm month_year strategy_data h).
Proof.
  unfold PowerPointNetworkingAgent.create_presentation.
  eapply stops_budget.
  - apply stops_bind; [|intros; apply stops_ret].
    apply (stops_for_each llm _
             (fun section =>
                if negb (List.length
                           (bullets_of
                              (PowerPointNetworkingAgent.content section))
                         =? 3)%nat
                then 1 else 0)).
    intros acc x h'.
    eapply stops_budget.
    + apply stops_bind; [|intros; apply stops_ret].
      unfold PowerPointNetworkingAgent.extract_bullets.
      rewrite markdown_bullets_spec.
      instantiate (1 := if negb (List.length
                           (bullets_of
                              (PowerPointNetworkingAgent.content x))
                         =? 3)%nat
                then 1 else 0).
      destruct (List.length
                  (bullets_of (PowerPointNetworkingAgent.content x))
                =? 3)%nat; cbn [negb].
      * apply stops_ret.
      * apply stops_net_condense.
    + lia.
  - rewrite list_sum_filter. lia.
Qed.

End BuilderFailures.

(* ===================================================================== *)
(** * From the thesis text to the deck *)
(* ===================================================================== *)

Section LineFacts.
Import Py Spec.

Lemma single_line_append (a b : string) :
  single_line (a ++ b)%string = single_line a && single_line b.
Proof. apply all_append. Qed.

Lemma split_lines_single (s : string) :
  single_line s = true -> split_lines s = [s].
Proof.
  unfold split_lines, single_line.
  induction s as [|c s IH]; simpl; [reflexivity|].
  intros A. apply andb_true_iff in A as [Nc A].
  apply negb_true_iff in Nc. rewrite Nc, (IH A). reflexivity.
Qed.

Lemma digits_single_line (ds : string) :
  all isdigit ds = true -> single_line ds = true.
Proof.
  unfold single_line. induction ds as [|c ds IH]; simpl; [reflexivity|].
  intros A. apply andb_true_iff in A as [D A]. rewrite (IH A), andb_true_r.
  destruct (Ascii.eqb_spec c LF) as [->|]; [discriminate | reflexivity].
Qed.

Lemma digit_not_space (c : ascii) : isdigit c = true -> isspace c = false.
Proof.
  unfold isdigit, isspace. intros D.
  apply andb_true_iff in D as [L U].
  apply N.leb_le in L, U.
  repeat match goal with
         | |- context [(?a <=? ?b)%N] =>
             destruct (N.leb_spec a b)
         | |- context [(?a =? ?b)%N] =>
             destruct (N.eqb_spec a b)
         end; simpl; try reflexivity; lia.
Qed.

Lemma Forall2_with {X Y} (P : X -> Prop) (R : X -> Y -> Prop)
      (l : list X) (l' : list Y) :
  Forall P l -> Forall2 R l l' -> Forall2 (fun x y => P x /\ R x y) l l'.
Proof.
  intros F F2; induction F2; [constructor|].
  inversion F; subst. constructor; auto.
Qed.

End LineFacts.

Section RunFacts.
Import Py Re Spec Llm Pptx.

(** The full title "number. title" of every parsed section is one line. *)
Lemma parsed_full_titles (markdown : string) :
  Forall (fun sec =>
            single_line (PowerPointAgent.number sec ++ ". "
                           ++ PowerPointAgent.title sec)%string = true /\
            all isspace (PowerPointAgent.number sec ++ ". "
                           ++ PowerPointAgent.title sec)%string = false)
         (PowerPointAgent.sections (PowerPointAgent.parse_thesis markdown)).
Proof.
  unfold PowerPointAgent.parse_thesis; cbn [PowerPointAgent.sections].
  rewrite fold_left_snoc. apply Forall_map.
  eapply Forall_impl; [|apply section_matches_shape].
  intros m (ds & x & w & co & G & D & Nd & T & _).
  unfold PowerPointAgent.section_of_match, group. rewrite G.
  cbn [PowerPointAgent.number PowerPointAgent.title group_lookup Nat.eqb].
  split.
  - rewrite !single_line_append, (digits_single_line _ D).
    rewrite (single_line_title x w T). reflexivity.
  - destruct ds as [|d ds]; [contradiction|].
    simpl in D. apply andb_true_iff in D as [D _].
    cbn [append all]. rewrite (digit_not_space _ D). reflexivity.
Qed.

(** One run of the thesis deck builder with a model that answers, with
    the first and the last slide spelled out. *)
Lemma vc_create_presentation_deck (llm : oracle) (month_year : string)
      (thesis_data : PowerPointAgent.ThesisData) (h : log) :
  answers llm ->
  exists summary body asked,
    PowerPointAgent.create_presentation llm month_year thesis_data h
    = (Ok (PowerPointAgent._add_title_slide
             [] (PowerPointAgent.sector thesis_data)
             (PowerPointAgent.region thesis_data) month_year
           ++ summary ++ body
           ++ PowerPointAgent._add_closing_slide
                [] (PowerPointAgent.sector thesis_data) month_year),
       h ++ asked) /\
    List.length summary
    = (if is_empty (PowerPointAgent.executive_summary thesis_data)
       then 0 else 1) /\
    Forall (content_slide "Executive Summary") summary /\
    Forall2 (fun section s =>
               content_slide (PowerPointAgent.number section ++ ". "
                                ++ PowerPointAgent.title section)%string s)
            (PowerPointAgent.sections thesis_data) body.
Proof.
  intros A. unfold PowerPointAgent.create_presentation.
  unfold PowerPointAgent._add_title_slide,
    PowerPointAgent._add_closing_slide. cbn [app].
  set (first := mkSlide [add_shape; _; _; _; add_shape] None).
  unfold truthy.
  destruct (is_empty (PowerPointAgent.executive_summary thesis_data)) eqn:E;
    cbn [negb].
  - destruct (vc_section_loop llm A
                (PowerPointAgent.sections thesis_data) [first] h)
      as (slides & asked & R & La & F2).
    erewrite bind_ok; [|reflexivity].
    erewrite bind_ok; [|exact R].
    unfold ret.
    exists [], slides, asked.
    split; [|split; [reflexivity | split; [constructor | exact F2]]].
    cbn [app]. reflexivity.
  - destruct (summary_condense_total llm
                (PowerPointAgent.executive_summary thesis_data) h A)
      as (sb & p & Rs & Ls & Fs).
    erewrite bind_ok;
      [|erewrite bind_ok; [reflexivity | exact Rs]].
    rewrite (vc_add_content_three _ _ _ Ls).
    destruct (vc_section_loop llm A
                (PowerPointAgent.sections thesis_data)
                ([first] ++
                 [layout_title_and_content (set_text "Executive Summary")
                                           (map paragraph_text sb)])
                (h ++ [p]))
      as (slides & asked & R & La & F2).
    erewrite bind_ok; [|exact R].
    unfold ret.
    exists [layout_title_and_content (set_text "Executive Summary")
                                     (map paragraph_text sb)],
      slides, (p :: asked).
    split; [|split; [reflexivity | split; [|exact F2]]].
    2:{ constructor; [|constructor]. exists sb; auto. }
    cbn [app]. rewrite <- !app_assoc. reflexivity.
Qed.

(** The first and the last slide of the thesis deck. *)
Lemma vc_first_and_last (sector region month_year : string) :
  PowerPointAgent._add_title_slide [] sector region month_year
  = [title_slide "Venture Capital Industry Thesis" sector region month_year]
  /\
  PowerPointAgent._add_closing_slide [] sector month_year
  = [closing_slide (sector ++ " Industry Thesis") month_year].
Proof. split; reflexivity. Qed.

(** The title placeholder of a title of one line holds one paragraph. *)
Lemma set_text_single (t : string) :
  single_line t = true -> set_text t = [paragraph_text t].
Proof. intros L. unfold set_text. now rewrite (split_lines_single _ L). Qed.



End RunFacts.

(* ===================================================================== *)
(** * The networking deck and the summary slide *)
(* ===================================================================== *)

Section NetworkingDeck.
Import Py Spec Llm Pptx.

Lemma net_extract_total (llm : oracle) (content section_title : string)
      (h : log) :
  answers llm ->
  exists bullets asked,
    PowerPointNetworkingAgent.extract_bullets llm content section_title h
    = (Ok bullets, h ++ asked) /\
    List.length bullets = 3 /\
    (List.length (bullets_of content) = 3 -> bullets = bullets_of content).
Proof.
  intros A. unfold PowerPointNetworkingAgent.extract_bullets.
  rewrite markdown_bullets_spec.
  destruct (Nat.eqb_spec (List.length (bullets_of content)) 3) as [L|N].
  - exists (bullets_of content), []. unfold ret. rewrite app_nil_r. auto.
  - destruct (A h (PowerPointNetworkingAgent.condense_system_prompt,
                   PowerPointNetworkingAgent.condense_user_prompt
                     content section_title)) as [reply R].
    exists (three_bullets reply). eexists. split; [|split].
    + apply net_condense_run. exact R.
    + apply length_three.
    + intros L; contradiction.
Qed.

Lemma net_add_content_three (prs : Presentation) (title : string)
      (bullets : list string) :
  List.length bullets = 3 ->
  PowerPointNetworkingAgent._add_content_slide prs title bullets
  = prs ++ [layout_title_and_content (set_text title)
                                     (map paragraph_text bullets)].
Proof.
  intros L. unfold PowerPointNetworkingAgent._add_content_slide.
  now rewrite (fill_three _ L).
Qed.

Lemma net_section_loop (llm : oracle) :
  answers llm ->
  forall (secs : list PowerPointNetworkingAgent.SectionEntry)
         (prs : Presentation) (h : log),
  exists slides asked,
    for_each
      (fun prs section =>
         bind (PowerPointNetworkingAgent.extract_bullets
                 llm (PowerPointNetworkingAgent.content section)
                 (PowerPointNetworkingAgent.title section))
              (fun bullets =>
                 ret (PowerPointNetworkingAgent._add_content_slide prs
                        (PowerPointNetworkingAgent.number section ++ ". "
                           ++ PowerPointNetworkingAgent.title section)%string
                        bullets)))
      secs prs h
    = (Ok (prs ++ slides), h ++ asked) /\
    Forall2 (fun section s =>
               exists bullets,
                 s = layout_title_and_content
                       (set_text
                          (PowerPointNetworkingAgent.number section ++ ". "
                             ++ PowerPointNetworkingAgent.title section)%string)
                       (map paragraph_text bullets) /\
                 List.length bullets = 3 /\
                 (List.length
                    (bullets_of (PowerPointNetworkingAgent.content section))
                  = 3 ->
                  bullets
                  = bullets_of (PowerPointNetworkingAgent.content section)))
            secs slides.
Proof.
  intros A; induction secs as [|sec secs IH]; intros prs h.
  - exists [], []. simpl. unfold ret. rewrite !app_nil_r.
    split; constructor.
  - cbn [for_each].
    destruct (net_extract_total llm (PowerPointNetworkingAgent.content sec)
                (PowerPointNetworkingAgent.title sec) h A)
      as (bullets & asked0 & R & L & Same).
    erewrite bind_ok; [|erewrite bind_ok; [reflexivity | exact R]].
    rewrite (net_add_content_three _ _ _ L).
    match goal with
    | |- context [for_each ?body secs ?prs' ?h'] =>
        destruct (IH prs' h') as (slides & asked & E & F2)
    end.
    rewrite E.
    eexists (_ :: slides), (asked0 ++ asked). split.
    + rewrite <- !app_assoc. reflexivity.
    + constructor; [|assumption].
      exists bullets; auto.
Qed.

(** X7.  With a model that answers, the networking deck builder returns the
    title slide, one slide per section in order and the closing slide.  The
    slide of a section holds in its title placeholder what python-pptx makes
    of "number. title", one paragraph per line, and in its body the three
    paragraphs that it makes of three bullets.  A section whose content has
    exactly three bullet lines keeps them as its bullets. *)
Theorem net_create_presentation_slides (llm : oracle) (month_year : string)
        (strategy_data : PowerPointNetworkingAgent.StrategyData) (h : log) :
  answers llm ->
  exists body asked,
    PowerPointNetworkingAgent.create_presentation
      llm month_year strategy_data h
    = (Ok (title_slide "Networking Strategy"
             (PowerPointNetworkingAgent.sector strategy_data)
             (PowerPointNetworkingAgent.region strategy_data) month_year
           :: body
           ++ [closing_slide
                 (PowerPointNetworkingAgent.sector strategy_data
                    ++ " Networking Strategy")
                 month_year]),
       h ++ asked) /\
    List.length body
    = List.length (PowerPointNetworkingAgent.sections strategy_data) /\
    Forall2 (fun section s =>
               exists bullets,
                 s = layout_title_and_content
                       (map paragraph_text
                          (split_lines
                             (PowerPointNetworkingAgent.number section
                                ++ ". "
                                ++ PowerPointNetworkingAgent.title section)))
                       (map paragraph_text bullets) /\
                 List.length bullets = 3 /\
                 (List.length
                    (bullets_of (PowerPointNetworkingAgent.content section))
                  = 3 ->
                  bullets
                  = bullets_of (PowerPointNetworkingAgent.content section)))
            (PowerPointNetworkingAgent.sections strategy_data) body.
Proof.
  intros A. unfold PowerPointNetworkingAgent.create_presentation.
  unfold PowerPointNetworkingAgent._add_title_slide,
    PowerPointNetworkingAgent._add_closing_slide. cbn [app].
  set (first := mkSlide [add_shape; _; _; _; add_shape] None).
  destruct (net_section_loop llm A
              (PowerPointNetworkingAgent.sections strategy_data) [first] h)
    as (slides & asked & R & F2).
  erewrite bind_ok; [|exact R].
  unfold ret. exists slides, asked.
  split; [cbn [app]; reflexivity|]. split; [|exact F2].
  symmetry. eapply Forall2_length. exact F2.
Qed.

Lemma net_create_presentation_slides_witness :
  exists body asked,
    PowerPointNetworkingAgent.create_presentation
      (Examples.constant_llm "") "May 2026"
      (PowerPointNetworkingAgent.mkStrategy "B2B Fintech" "US"
         [PowerPointNetworkingAgent.mkSection
            "1" "Events" Examples.three_bullet_content]) []
    = (Ok (title_slide "Networking Strategy" "B2B Fintech" "US" "May 2026"
           :: body
           ++ [closing_slide ("B2B Fintech" ++ " Networking Strategy")
                             "May 2026"]),
       [] ++ asked) /\
    List.length body = 1 /\
    Forall2 (fun section s =>
               exists bullets,
                 s = layout_title_and_content
                       (map paragraph_text
                          (split_lines
                             (PowerPointNetworkingAgent.number section
                                ++ ". "
                                ++ PowerPointNetworkingAgent.title section)))
                       (map paragraph_text bullets) /\
                 List.length bullets = 3 /\
                 (List.length
                    (bullets_of (PowerPointNetworkingAgent.content section))
                  = 3 ->
                  bullets
                  = bullets_of (PowerPointNetworkingAgent.content section)))
            [PowerPointNetworkingAgent.mkSection
               "1" "Events" Examples.three_bullet_content] body.
Proof.
  apply (net_create_presentation_slides
           (Examples.constant_llm "") "May 2026"
           (PowerPointNetworkingAgent.mkStrategy "B2B Fintech" "US"
              [PowerPointNetworkingAgent.mkSection
                 "1" "Events" Examples.three_bullet_content]) []).
  intros h p. exists "". reflexivity.
Defined.

End NetworkingDeck.

Section SummaryFacts.
Import Py Spec Llm Pptx.

(** X8.  Given the reply of the model, the summary condensation returns exactly
    three takeaways: the bullets of the reply, in order, one longer than
    100 characters replaced by its first 97 characters and "...", and the
    filler "Key insight from research" up to three.  None is longer than
    100 characters. *)
Theorem condense_executive_summary_takeaways (llm : oracle)
        (summary : string) (h : log) (reply : string) :
  llm h (PowerPointAgent.summary_system_prompt,
         PowerPointAgent.summary_user_prompt summary)
  = Ok reply ->
  let takeaways :=
    firstn 3 (map (cut 100 97) (bullets_of (strip reply))
              ++ repeat "Key insight from research" 3) in
  PowerPointAgent.condense_executive_summary llm summary h
  = (Ok takeaways,
     h ++ [(PowerPointAgent.summary_system_prompt,
            PowerPointAgent.summary_user_prompt summary)]) /\
  List.length takeaways = 3 /\
  Forall (fun b => String.length b <= 100) takeaways.
Proof.
  intros R takeaways. split; [|split].
  - unfold PowerPointAgent.condense_executive_summary, bind, invoke.
    rewrite R. unfold ret. rewrite pad_then_three, collect_bullets_spec.
    reflexivity.
  - apply length_three.
  - apply (three_capped 100 97); [lia | simpl; lia].
Qed.

Lemma condense_executive_summary_takeaways_witness :
  let takeaways :=
    firstn 3 (map (cut 100 97)
                  (bullets_of (strip ("- " ++ Examples.xs 101)%string))
              ++ repeat "Key insight from research" 3) in
  PowerPointAgent.condense_executive_summary
    (Examples.constant_llm ("- " ++ Examples.xs 101)%string) "Summary" []
  = (Ok takeaways,
     [] ++ [(PowerPointAgent.summary_system_prompt,
             PowerPointAgent.summary_user_prompt "Summary")]) /\
  List.length takeaways = 3 /\
  Forall (fun b => String.length b <= 100) takeaways.
Proof.
  apply (condense_executive_summary_takeaways
           (Examples.constant_llm ("- " ++ Examples.xs 101)%string)
           "Summary" [] ("- " ++ Examples.xs 101)%string).
  reflexivity.
Defined.

End SummaryFacts.

(* ===================================================================== *)
(** * What the quality pass reads from a deck *)
(* ===================================================================== *)

Section ExtractFacts.
Import Py Spec Llm Pptx FinalPassAgent.

Lemma rstrip_blank (s : string) : all isspace s = true -> rstrip s = "".
Proof.
  induction s as [|c s IH]; simpl; [reflexivity|].
  intros A. apply andb_true_iff in A as [Sc A]. now rewrite (IH A), Sc.
Qed.

Lemma rstrip_app_space (u ws : string) :
  all isspace ws = true -> rstrip (u ++ ws) = rstrip u.
Proof.
  intros A. induction u as [|c u IH]; simpl.
  - now apply rstrip_blank.
  - now rewrite IH.
Qed.

(** The text gathered from one paragraph, trimmed again, is the trimmed
    paragraph. *)
Lemma strip_line (t : string) : strip (strip t ++ nl) = strip t.
Proof.
  destruct (strip t) as [|c r] eqn:E; [reflexivity|].
  assert (Sc : isspace c = false).
  { unfold strip in E. destruct (lstrip t) as [|c' r'] eqn:L;
      [discriminate|].
    pose proof (lstrip_head _ _ _ L) as H.
    rewrite (rstrip_head _ _ H) in E. now injection E as <- _. }
  unfold strip at 1. rewrite lstrip_fixed by exact Sc.
  rewrite rstrip_app_space by reflexivity.
  rewrite <- E. unfold strip. apply rstrip_idem.
Qed.

Lemma scan_one (t : string) :
  truthy (strip t) = true ->
  scan_paragraphs [t]
  = ((strip t ++ nl)%string,
     if (10 <? String.length (strip t))%nat then 1%Z else 0%Z).
Proof.
  intros T. unfold scan_paragraphs. cbn [fold_left]. now rewrite T.
Qed.

Lemma extract_shape_keeps_title (d : SlideData) (s : Shape) :
  title (extract_shape d false s) = title d.
Proof.
  unfold extract_shape. destruct (text_frame s) as [ps|]; [|reflexivity].
  destruct (scan_paragraphs ps) as [text count].
  now destruct (truthy (strip text)).
Qed.

Lemma extract_shape_total (d : SlideData) (b : bool) (s : Shape) :
  exists suffix,
    total_text (extract_shape d b s) = (total_text d ++ suffix)%string.
Proof.
  unfold extract_shape. destruct (text_frame s) as [ps|].
  - destruct (scan_paragraphs ps) as [text count].
    destruct (truthy (strip text)); cbn [total_text].
    + now exists text.
    + exists "". now rewrite append_nil_r.
  - exists "". cbn [total_text]. now rewrite append_nil_r.
Qed.

Lemma extract_titled_slide (i : nat) (t : string) (body : list string) :
  all isspace t = false ->
  title (extract_slide i (layout_title_and_content [t] body))
  = hd "" (split_lines (strip t)) /\
  exists suffix,
    total_text (extract_slide i (layout_title_and_content [t] body))
    = (strip t ++ nl ++ suffix)%string.
Proof.
  intros B. pose proof (strip_not_empty _ B) as N.
  assert (T : truthy (strip t) = true) by (unfold truthy; now rewrite N).
  assert (T' : truthy (strip (strip t ++ nl)) = true)
    by now rewrite strip_line.
  unfold extract_slide, layout_title_and_content.
  cbn [Pptx.shapes title_position ph_idx List.length seq combine fold_left
       fst snd Nat.eqb].
  match goal with
  | |- context [extract_shape (extract_shape ?d0 true ?s0) false ?s1] =>
      set (d1 := extract_shape d0 true s0);
      assert (E1 : title d1 = hd "" (split_lines (strip t)) /\
                   total_text d1 = (strip t ++ nl)%string)
  end.
  { unfold d1, extract_shape. cbn [text_frame].
    rewrite (scan_one _ T), T'. cbn [title total_text append].
    now rewrite strip_line. }
  destruct E1 as [Et Ex]. split.
  - now rewrite extract_shape_keeps_title.
  - match goal with
    | |- context [extract_shape d1 false ?s1] =>
        destruct (extract_shape_total d1 false s1) as (suffix & Es)
    end.
    exists suffix. rewrite Es, Ex. now rewrite append_assoc.
Qed.

Lemma first_line_nonempty (t : string) :
  is_empty (strip t) = false ->
  truthy (hd "" (split_lines (strip t))) = true.
Proof.
  intros N. pose proof (strip_nonempty_not_blank _ N) as B.
  destruct (strip t) as [|c r] eqn:E; [discriminate|].
  assert (Sc : isspace c = false).
  { unfold strip in E. destruct (lstrip t) as [|c' r'] eqn:L;
      [discriminate|].
    pose proof (lstrip_head _ _ _ L) as H.
    rewrite (rstrip_head _ _ H) in E. now injection E as <- _. }
  unfold split_lines. cbn [split_on].
  destruct (Ascii.eqb_spec c LF) as [->|_]; [discriminate|].
  now destruct (split_on LF r).
Qed.








End ExtractFacts.

Section Completeness.
Import Py Spec Llm Pptx FinalPassAgent.

(** The issues that the completeness check owes one slide. *)
Lemma completeness_flat (slides_data : list SlideData)
      (issues : list QAIssue) :
  validate_content_completeness slides_data issues
  = issues ++
    flat_map
      (fun slide =>
         if ((number slide =? 1)
             || (number slide =? Z.of_nat (List.length slides_data)))%Z
         then []
         else
           (if negb (truthy (strip (total_text slide)))
            then [new_issue (number slide) "empty_slide"
                            "Slide has no text content" "error"]
            else [])
           ++ (if negb (truthy (title slide))
               then [new_issue (number slide) "missing_title"
                               "Slide is missing a title" "error"]
               else []))
      slides_data.
Proof.
  unfold validate_content_completeness. apply fold_left_flat.
  intros acc slide.
  destruct ((number slide =? 1)
            || (number slide =? Z.of_nat (List.length slides_data)))%Z;
    [now rewrite app_nil_r|].
  destruct (negb (truthy (strip (total_text slide))));
    destruct (negb (truthy (title slide))); cbn [app];
    rewrite <- ?app_assoc, ?app_nil_r; reflexivity.
Qed.

Lemma flat_map_nil {X Y} (f : X -> list Y) (l : list X) :
  (forall x, In x l -> f x = []) -> flat_map f l = [].
Proof.
  induction l as [|x l IH]; intros H; simpl; [reflexivity|].
  rewrite (H x (or_introl eq_refl)), IH; [reflexivity|].
  intros y I. apply H. now right.
Qed.

Lemma extract_slide_content_length (prs : Presentation) :
  List.length (extract_slide_content prs) = List.length prs.
Proof.
  rewrite extract_slide_content_map, length_map, length_combine, length_seq.
  lia.
Qed.

(** A deck whose slides between the first and the last are content slides
    with a title that is not blank passes the completeness check. *)
Lemma completeness_of_titled (prs : Presentation) :
  (forall i s, nth_error prs i = Some s -> 0 < i ->
               S i < List.length prs -> titled_content s) ->
  validate_content_completeness (extract_slide_content prs) [] = [].
Proof.
  intros H. rewrite completeness_flat. cbn [app].
  rewrite extract_slide_content_length.
  apply flat_map_nil. intros d I.
  rewrite extract_slide_content_map in I.
  apply in_map_iff in I as ([i s] & <- & I). cbn [fst snd].
  apply in_combine_seq in I as [_ N]. rewrite Nat.sub_0_r in N.
  rewrite extract_slide_number.
  destruct (Z.eqb_spec (Z.of_nat i + 1) 1) as [|N1]; [reflexivity|].
  destruct (Z.eqb_spec (Z.of_nat i + 1) (Z.of_nat (List.length prs)))
    as [|N2]; [reflexivity|].
  cbn [orb].
  assert (Lt : i < List.length prs)
    by (apply nth_error_Some; congruence).
  destruct (H i s N) as (t & body & -> & B); [lia | lia |].
  destruct (extract_titled_slide i t body B) as [Et (suffix & Ex)].
  pose proof (strip_not_empty _ B) as Ne.
  rewrite Et, (first_line_nonempty _ Ne), Ex.
  assert (Nb : all isspace (strip t ++ nl ++ suffix)%string = false).
  { rewrite all_append, (strip_nonempty_not_blank _ Ne). reflexivity. }
  unfold truthy at 1. rewrite (strip_not_empty _ Nb). reflexivity.
Qed.

End Completeness.

(* ===================================================================== *)
(** * The quality pass on a deck that was built from a thesis *)
(* ===================================================================== *)

Section BulletIssues.
Import Py Spec Llm Pptx FinalPassAgent.

Lemma bullet_issues_flat (slides_data : list SlideData)
      (issues : list QAIssue) :
  validate_bullet_count slides_data issues
  = issues ++ flat_map (owed (List.length slides_data)) slides_data.
Proof.
  unfold validate_bullet_count. apply fold_left_flat.
  intros acc slide. unfold owed, verdict, exempt, new_issue.
  destruct ((number slide =? 1) || (number slide =? 2)
            || (number slide =? Z.of_nat (List.length slides_data)))%Z;
    [now rewrite app_nil_r|].
  destruct (bullet_count slide <? 2)%Z eqn:E2; [reflexivity|].
  destruct (6 <? bullet_count slide)%Z eqn:E6.
  - assert (L : (bullet_count slide <=? 6)%Z = false) by lia.
    now rewrite L.
  - assert (L : (bullet_count slide <=? 6)%Z = true) by lia.
    rewrite L. now rewrite app_nil_r.
Qed.

Lemma extract_slide_count (i : nat) (slide : Slide) :
  bullet_count (extract_slide i slide)
  = Z.of_nat (List.length (filter countable (paragraphs_of slide))).
Proof.
  unfold extract_slide, paragraphs_of.
  rewrite extract_shapes_count. reflexivity.
Qed.

Lemma filter_length_le {X} (q : X -> bool) (l : list X) :
  List.length (filter q l) <= List.length l.
Proof.
  induction l as [|x l IH]; simpl; [lia|].
  destruct (q x); simpl; lia.
Qed.

(** A deck none of whose slides has more than six paragraphs is never
    found overcrowded. *)
Lemma few_paragraphs_few_bullets (prs : Presentation) :
  Forall (fun s => List.length (paragraphs_of s) <= 6) prs ->
  Forall (fun issue => issue_type issue = "too_few_bullets")
         (validate_bullet_count (extract_slide_content prs) []).
Proof.
  intros H. rewrite bullet_issues_flat. cbn [app].
  apply Forall_flat_map. rewrite extract_slide_content_map.
  apply Forall_map. apply Forall_forall. intros [i s] I. cbn [fst snd].
  pose proof (in_combine_r _ _ _ _ I) as Is.
  rewrite Forall_forall in H. specialize (H s Is).
  unfold owed, verdict. rewrite extract_slide_count.
  pose proof (filter_length_le countable (paragraphs_of s)) as Le.
  destruct (_ || _)%bool; [constructor|].
  destruct (_ <? 2)%Z; [repeat constructor|].
  destruct (_ <=? 6)%Z eqn:E; [constructor|]. lia.
Qed.

End BulletIssues.

Section RunQuality.
Import Py Spec Llm Pptx FinalPassAgent.

Lemma Forall2_in_r {X Y} (R : X -> Y -> Prop) (l : list X) (l' : list Y)
      (y : Y) :
  Forall2 R l l' -> In y l' -> exists x, In x l /\ R x y.
Proof.
  induction 1 as [|x0 y0 l0 l0' H0 F IH]; intros I; [contradiction|].
  destruct I as [<- | I].
  - exists x0; split; [now left | assumption].
  - destruct (IH I) as (x & Ix & Rx). exists x; split; [now right | assumption].
Qed.

Lemma middle_nth {X} (a c x : X) (m : list X) (i : nat) :
  nth_error ([a] ++ m ++ [c]) i = Some x -> 0 < i ->
  S i < List.length ([a] ++ m ++ [c]) -> In x m.
Proof.
  intros N P L. destruct i as [|i]; [lia|]. cbn [app nth_error] in N.
  cbn [app List.length] in L. rewrite length_app in L. simpl in L.
  rewrite nth_error_app1 in N by lia.
  eapply nth_error_In. exact N.
Qed.

(** One run of the thesis deck builder on a thesis text, with a model that
    answers. *)
Lemma run_deck (llm : oracle) (month_year sector thesis_content : string)
      (h : log) :
  answers llm ->
  exists first last summary body asked,
    PowerPointAgent.run llm month_year sector thesis_content h
    = (Ok ([first] ++ (summary ++ body) ++ [last]), h ++ asked) /\
    List.length (paragraphs_of first) = 5 /\
    List.length (paragraphs_of last) = 4 /\
    Forall (fun s => exists bullets,
                s = layout_title_and_content ["Executive Summary"] bullets
                /\ List.length bullets = 3) summary /\
    Forall2 (fun section s =>
               exists bullets,
                 s = layout_title_and_content
                       [paragraph_text
                          (PowerPointAgent.number section ++ ". "
                             ++ PowerPointAgent.title section)]
                       bullets /\
                 List.length bullets = 3 /\
                 all isspace
                     (paragraph_text
                        (PowerPointAgent.number section ++ ". "
                           ++ PowerPointAgent.title section))
                 = false)
            (PowerPointAgent.sections
               (PowerPointAgent.parse_thesis thesis_content))
            body.
Proof.
  intros A. unfold PowerPointAgent.run.
  destruct (vc_create_presentation_deck llm month_year
              (PowerPointAgent.mkThesis sector
                 (PowerPointAgent.region
                    (PowerPointAgent.parse_thesis thesis_content))
                 (PowerPointAgent.executive_summary
                    (PowerPointAgent.parse_thesis thesis_content))
                 (PowerPointAgent.sections
                    (PowerPointAgent.parse_thesis thesis_content)))
              h A)
    as (summary & body & asked & R & _ & Fs & F2).
  cbn [PowerPointAgent.sector PowerPointAgent.region
       PowerPointAgent.executive_summary PowerPointAgent.sections] in *.
  rewrite R.
  unfold PowerPointAgent._add_title_slide,
    PowerPointAgent._add_closing_slide. cbn [app].
  eexists _, _, summary, body, asked.
  split; [rewrite <- app_assoc; reflexivity|].
  split; [reflexivity|]. split; [reflexivity|]. split.
  - eapply Forall_impl; [|exact Fs].
    intros s (bullets & -> & L & _). exists (map paragraph_text bullets).
    rewrite length_map. auto.
  - pose proof (Forall2_with _ _ _ _ (parsed_full_titles thesis_content) F2)
      as F.
    eapply Forall2_impl; [|exact F].
    intros sec s ([T B] & bullets & -> & L & _).
    exists (map paragraph_text bullets).
    rewrite (set_text_single _ T), length_map. repeat split; auto.
    now apply paragraph_text_not_blank.
Qed.

(** X10.  From a thesis text to the quality pass.  Whatever the thesis text and
    whatever the model replies, the deck that [run] builds passes the
    completeness check without an issue, and the bullet-count check never
    finds a slide of it overcrowded: every issue it raises is
    "too_few_bullets". *)
Theorem run_deck_passes_checks (llm : oracle)
        (month_year sector thesis_content : string) (h : log) :
  answers llm ->
  exists deck h',
    PowerPointAgent.run llm month_year sector thesis_content h
    = (Ok deck, h') /\
    validate_content_completeness (extract_slide_content deck) [] = [] /\
    Forall (fun issue => issue_type issue = "too_few_bullets")
           (validate_bullet_count (extract_slide_content deck) []).
Proof.
  intros A.
  destruct (run_deck llm month_year sector thesis_content h A)
    as (first & last & summary & body & asked & R & P1 & Pn & Fs & F2).
  eexists _, _. split; [exact R|]. split.
  - apply completeness_of_titled. intros i s N P L.
    apply middle_nth in N; [|exact P|exact L].
    apply in_app_or in N as [I | I].
    + rewrite Forall_forall in Fs.
      destruct (Fs s I) as (bullets & -> & _).
      exists "Executive Summary", bullets. split; reflexivity.
    + apply (Forall2_in_r _ _ _ _ F2) in I
        as (sec & _ & bullets & -> & _ & B).
      eexists _, bullets. split; [reflexivity | exact B].
  - apply few_paragraphs_few_bullets.
    apply Forall_app; split; [constructor; [lia | constructor]|].
    apply Forall_app; split; [|constructor; [lia | constructor]].
    apply Forall_app; split.
    + eapply Forall_impl; [|exact Fs].
      intros s (bullets & -> & L). unfold paragraphs_of.
      cbn [Pptx.shapes layout_title_and_content flat_map text_frame].
      rewrite !length_app. simpl. lia.
    + apply Forall_forall. intros s I.
      apply (Forall2_in_r _ _ _ _ F2) in I
        as (sec & _ & bullets & -> & L & _).
      unfold paragraphs_of.
      cbn [Pptx.shapes layout_title_and_content flat_map text_frame].
      rewrite !length_app. simpl. lia.
Qed.

Lemma run_deck_passes_checks_witness :
  exists deck h',
    PowerPointAgent.run (Examples.constant_llm "") "May 2026" "B2B Fintech"
                        Examples.adjacent_headers []
    = (Ok deck, h') /\
    validate_content_completeness (extract_slide_content deck) [] = [] /\
    Forall (fun issue => issue_type issue = "too_few_bullets")
           (validate_bullet_count (extract_slide_content deck) []).
Proof.
  apply (run_deck_passes_checks (Examples.constant_llm "") "May 2026"
                                "B2B Fintech" Examples.adjacent_headers []).
  intros h p. exists "". reflexivity.
Defined.

End RunQuality.

(* ===================================================================== *)
(** * Fixes and file names *)
(* ===================================================================== *)

Section FixRequests.
Import Py Spec Llm Pptx FinalPassAgent.

Lemma fix_loop_keys_iff (llm : oracle) :
  forall (slides : list SlideData) (fixes0 : fixes_dict) (h : log)
         (fixes : fixes_dict) (h' : log),
    for_each
      (fun fixes slide =>
         bind (invoke llm fix_system_prompt
                      (fix_user_prompt (total_text slide)))
              (fun response =>
                 ret (dict_set (number slide)
                        (mkFix (total_text slide) (strip response)) fixes)))
      slides fixes0 h
    = (Ok fixes, h') ->
    forall k, In k (map fst fixes) <->
              In k (map fst fixes0) \/ In k (map number slides).
Proof.
  induction slides as [|s slides IH]; intros fixes0 h fixes h' H k.
  - simpl in H. injection H as <- <-. simpl. tauto.
  - cbn [for_each] in H. unfold bind at 1, bind at 1, invoke in H.
    destruct (llm h _) as [response|e]; [|discriminate].
    unfold ret at 1 in H.
    rewrite (IH _ _ _ _ H k), dict_set_keys. simpl.
    intuition congruence.
Qed.

Lemma problem_slides_flat (slides_data : list SlideData) :
  fold_left
    (fun problem_slides slide =>
       if exempt slides_data (number slide) then problem_slides
       else if ((bullet_count slide <? 2)
                || (6 <? bullet_count slide))%Z
            then problem_slides ++ [slide] else problem_slides)
    slides_data []
  = flat_map
      (fun slide =>
         if exempt slides_data (number slide) then []
         else if ((bullet_count slide <? 2)
                  || (6 <? bullet_count slide))%Z
              then [slide] else [])
      slides_data.
Proof.
  rewrite (fold_left_flat
             (fun slide =>
                if exempt slides_data (number slide) then []
                else if ((bullet_count slide <? 2)
                         || (6 <? bullet_count slide))%Z
                     then [slide] else [])); [reflexivity|].
  intros acc slide. destruct (exempt slides_data (number slide));
    [now rewrite app_nil_r|].
  destruct ((bullet_count slide <? 2) || (6 <? bullet_count slide))%Z;
    [reflexivity | now rewrite app_nil_r].
Qed.

(** The slides with a bullet-count issue are the problem slides of
    [generate_fixes]. *)
Lemma issue_numbers (slides_data : list SlideData) :
  forall l,
    map slide_num (flat_map (owed (List.length slides_data)) l)
    = map number
        (flat_map
           (fun slide =>
              if exempt slides_data (number slide) then []
              else if ((bullet_count slide <? 2)
                       || (6 <? bullet_count slide))%Z
                   then [slide] else [])
           l).
Proof.
  induction l as [|s l IH]; [reflexivity|].
  cbn [flat_map]. rewrite !map_app, IH. f_equal.
  unfold owed, verdict, exempt.
  destruct ((number s =? 1) || (number s =? 2)
            || (number s =? Z.of_nat (List.length slides_data)))%Z;
    [reflexivity|].
  destruct (bullet_count s <? 2)%Z eqn:E2; [reflexivity|].
  destruct (6 <? bullet_count s)%Z eqn:E6; cbn [orb].
  - assert (L : (bullet_count s <=? 6)%Z = false) by lia.
    now rewrite L.
  - assert (L : (bullet_count s <=? 6)%Z = true) by lia.
    now rewrite L.
Qed.

Lemma generate_fixes_loop (llm : oracle) (slides_data : list SlideData)
      (h : log) :
  generate_fixes llm slides_data h
  = for_each
      (fun fixes slide =>
         bind (invoke llm fix_system_prompt
                      (fix_user_prompt (total_text slide)))
              (fun response =>
                 ret (dict_set (number slide)
                        (mkFix (total_text slide) (strip response)) fixes)))
      (flat_map
         (fun slide =>
            if exempt slides_data (number slide) then []
            else if ((bullet_count slide <? 2)
                     || (6 <? bullet_count slide))%Z
                 then [slide] else [])
         slides_data)
      [] h.
Proof.
  unfold generate_fixes. rewrite problem_slides_flat.
  now destruct (flat_map _ slides_data).
Qed.

Lemma stops_generate_fixes (llm : oracle) (slides_data : list SlideData)
      (h : log) :
  stops_at_failure llm h
    (List.length (validate_bullet_count slides_data []))
    (generate_fixes llm slides_data h).
Proof.
  rewrite bullet_issues_flat. cbn [app].
  rewrite generate_fixes_loop.
  eapply stops_budget.
  - apply (stops_for_each llm _ (fun _ => 1)).
    intros acc x h'.
    apply (stops_bind llm _ _ 1 0); [apply stops_invoke|].
    intros; apply stops_ret.
  - rewrite list_sum_ones.
    rewrite <- (length_map number), <- issue_numbers, length_map.
    reflexivity.
Qed.

Lemma generate_fixes_flagged (llm : oracle) (slides_data : list SlideData)
      (h h' : log) (fixes : fixes_dict) :
  generate_fixes llm slides_data h = (Ok fixes, h') ->
  forall k,
    In k (map fst fixes)
    <-> In k (map slide_num (validate_bullet_count slides_data [])).
Proof.
  rewrite bullet_issues_flat. cbn [app].
  rewrite generate_fixes_loop. intros H k.
  rewrite (fix_loop_keys_iff llm _ _ _ _ _ H k), issue_numbers.
  simpl. tauto.
Qed.

(** X11.  Fixes follow the bullet-count check.  [generate_fixes] asks the model
    once for each issue that [validate_bullet_count] raises on the same
    slides, in order, and stops at the first request that raises; when it
    returns, the slides that have a fix are the slides that have a
    bullet-count issue. *)
Theorem fixes_follow_bullet_issues (llm : oracle)
        (slides_data : list SlideData) (h : log) :
  stops_at_failure llm h
    (List.length (validate_bullet_count slides_data []))
    (generate_fixes llm slides_data h)
  /\
  (forall fixes h',
     generate_fixes llm slides_data h = (Ok fixes, h') ->
     forall k,
       In k (map fst fixes)
       <-> In k (map slide_num (validate_bullet_count slides_data []))).
Proof.
  split; [apply stops_generate_fixes|].
  intros fixes h' H. eapply generate_fixes_flagged. exact H.
Qed.

Lemma fixes_follow_bullet_issues_witness :
  generate_fixes (Examples.constant_llm "- x")
                 (extract_slide_content Examples.thin_deck) []
  = (Ok [(3%Z, Examples.thin_fix)],
     [(fix_system_prompt,
       fix_user_prompt (original Examples.thin_fix))]) /\
  forall k,
    In k (map fst [(3%Z, Examples.thin_fix)])
    <-> In k (map slide_num
                  (validate_bullet_count
                     (extract_slide_content Examples.thin_deck) [])).
Proof.
  assert (G : generate_fixes (Examples.constant_llm "- x")
                (extract_slide_content Examples.thin_deck) []
              = (Ok [(3%Z, Examples.thin_fix)],
                 [(fix_system_prompt,
                   fix_user_prompt (original Examples.thin_fix))]))
    by (vm_compute; reflexivity).
  split; [exact G|].
  exact (proj2 (fixes_follow_bullet_issues
                  (Examples.constant_llm "- x")
                  (extract_slide_content Examples.thin_deck) [])
               _ _ G).
Defined.

End FixRequests.

Section FileNames.
Import Py Spec.

Lemma contains_append_r (sub a b : string) :
  contains sub b = true -> contains sub (a ++ b)%string = true.
Proof.
  intros H. induction a as [|c a IH]; simpl; [exact H|].
  rewrite IH. apply orb_true_r.
Qed.

(** X12.  A deck that the quality pass saved is never loaded as the deck to
    review: its name holds "_reviewed", whatever the sector and the time
    stamp. *)
Theorem reviewed_deck_is_filtered (sector timestamp : string) :
  FinalPassAgent.unreviewed
    (FinalPassAgent.save_presentation_filename sector timestamp)
  = false.
Proof.
  unfold FinalPassAgent.unreviewed,
    FinalPassAgent.save_presentation_filename.
  apply negb_false_iff.
  rewrite <- !append_assoc. apply contains_append_r.
  apply (contains_intro "_reviewed" "" ".pptx").
Qed.

End FileNames.

(* ===================================================================== *)
(** * The deck to review, and the bot's arguments *)
(* ===================================================================== *)

Section FreshDeck.
Import Py Spec.

Lemma contains_cons (sub : string) (c : ascii) (r : string) :
  contains sub (String c r) = startswith sub (String c r) || contains sub r.
Proof. reflexivity. Qed.

Lemma startswith_cons (a b : ascii) (p s : string) :
  startswith (String a p) (String b s) = Ascii.eqb a b && startswith p s.
Proof. reflexivity. Qed.

Lemma startswith_before (u : ascii) (p : string) :
  all (fun c => negb (Ascii.eqb c u)) p = true ->
  forall a b, startswith p (a ++ String u b)%string = startswith p a.
Proof.
  induction p as [|x p IH]; intros A a b; [reflexivity|].
  simpl in A. apply andb_true_iff in A as [Nx A].
  apply negb_true_iff in Nx.
  destruct a as [|y a]; simpl.
  - now rewrite Nx.
  - now rewrite (IH A).
Qed.

(** An occurrence of [u ++ p], where [p] holds no [u], does not straddle
    a [u]. *)
Lemma contains_before (u : ascii) (p a b : string) :
  all (fun c => negb (Ascii.eqb c u)) p = true ->
  contains (String u p) (String u b) = false ->
  contains (String u p) (a ++ String u b)%string = contains (String u p) a.
Proof.
  intros A N. induction a as [|c a IH].
  - cbn [append]. rewrite N. reflexivity.
  - cbn [append]. rewrite !contains_cons, IH. f_equal.
    rewrite !startswith_cons. now rewrite (startswith_before u p A).
Qed.

Lemma stamp_tail (ts : string) :
  all stamp_char ts = true ->
  contains "_reviewed" (ts ++ ".pptx")%string = false /\
  startswith "reviewed" (ts ++ ".pptx")%string = false.
Proof.
  induction ts as [|c ts IH]; intros A; [split; reflexivity|].
  simpl in A. apply andb_true_iff in A as [Qc A].
  destruct (IH A) as [IH1 IH2].
  assert (R : Ascii.eqb "r" c = false).
  { destruct (Ascii.eqb_spec "r"%char c) as [<-|]; [discriminate|].
    reflexivity. }
  cbn [append]. split.
  - rewrite contains_cons, startswith_cons, IH1, IH2.
    now rewrite andb_false_r.
  - rewrite startswith_cons. now rewrite R.
Qed.

(** X13.  The deck that the builder saved is passed over by the quality pass
    exactly when the sector's slug, with the underscore before it, holds
    "_reviewed": the filter meant for reviewed decks reads the sector
    too. *)
Theorem fresh_deck_filter (sector timestamp : string) :
  all stamp_char timestamp = true ->
  FinalPassAgent.unreviewed
    (PowerPointAgent.save_presentation_filename sector timestamp)
  = negb (contains "_reviewed"
                   ("_" ++ PowerPointAgent.sector_slug sector)%string).
Proof.
  intros A. unfold FinalPassAgent.unreviewed,
    PowerPointAgent.save_presentation_filename. f_equal.
  change ("vc_thesis_" ++ PowerPointAgent.sector_slug sector ++ "_"
            ++ timestamp ++ ".pptx")%string
    with ("vc_thesis"
            ++ ("_" ++ PowerPointAgent.sector_slug sector)
            ++ String "_" (timestamp ++ ".pptx"))%string.
  transitivity
    (contains "_reviewed"
       (("_" ++ PowerPointAgent.sector_slug sector)
          ++ String "_" (timestamp ++ ".pptx"))%string);
    [reflexivity|].
  apply (contains_before "_" "reviewed"); [reflexivity|].
  destruct (stamp_tail timestamp A) as [C S].
  rewrite contains_cons, startswith_cons, C, S. reflexivity.
Qed.

Lemma fresh_deck_filter_witness :
  all stamp_char "20260503_101500" = true /\
  FinalPassAgent.unreviewed
    (PowerPointAgent.save_presentation_filename
       "Peer Reviewed" "20260503_101500")
  = negb (contains "_reviewed"
                   ("_" ++ PowerPointAgent.sector_slug "Peer Reviewed")%string)
  /\
  negb (contains "_reviewed"
                 ("_" ++ PowerPointAgent.sector_slug "Peer Reviewed")%string)
  = false.
Proof.
  split; [reflexivity|]. split; [|reflexivity].
  apply (fresh_deck_filter "Peer Reviewed" "20260503_101500").
  reflexivity.
Defined.

Lemma slug_char_idem (c : ascii) :
  (if Ascii.eqb
        (lower_char (if Ascii.eqb (lower_char c) " " then "_"%char
                     else lower_char c)) " "
   then "_"%char
   else lower_char (if Ascii.eqb (lower_char c) " " then "_"%char
                    else lower_char c))
  = (if Ascii.eqb (lower_char c) " " then "_"%char else lower_char c).
Proof. destruct c as [[] [] [] [] [] [] [] []]; reflexivity. Qed.

Lemma slug_char_no_space (c : ascii) :
  Ascii.eqb (if Ascii.eqb (lower_char c) " " then "_"%char
             else lower_char c) " "
  = false.
Proof. destruct c as [[] [] [] [] [] [] [] []]; reflexivity. Qed.

(** X14.  For a sector of code points below 256, where [lower] works
    character by character: the slug of a sector has no space, and the slug
    of a slug is the slug itself, so that a sector and its slug name the
    same deck files, that of the builder and that of the quality pass. *)
Theorem sector_slug_fixed (sector : string) :
  all (fun c => negb (Ascii.eqb c " ")) (PowerPointAgent.sector_slug sector)
  = true /\
  PowerPointAgent.sector_slug (PowerPointAgent.sector_slug sector)
  = PowerPointAgent.sector_slug sector /\
  (forall timestamp,
     PowerPointAgent.save_presentation_filename
       (PowerPointAgent.sector_slug sector) timestamp
     = PowerPointAgent.save_presentation_filename sector timestamp /\
     FinalPassAgent.save_presentation_filename
       (PowerPointAgent.sector_slug sector) timestamp
     = FinalPassAgent.save_presentation_filename sector timestamp).
Proof.
  assert (H : all (fun c => negb (Ascii.eqb c " "))
                  (PowerPointAgent.sector_slug sector) = true /\
              PowerPointAgent.sector_slug
                (PowerPointAgent.sector_slug sector)
              = PowerPointAgent.sector_slug sector).
  { unfold PowerPointAgent.sector_slug, replace_char, lower.
    induction sector as [|c s (N & I)]; [repeat split|].
    cbn [map_chars all]. rewrite N, I.
    rewrite slug_char_no_space, slug_char_idem. repeat split. }
  destruct H as [N I]. split; [exact N|]. split; [exact I|].
  intros timestamp.
  unfold PowerPointAgent.save_presentation_filename,
    FinalPassAgent.save_presentation_filename.
  now rewrite I.
Qed.

End FreshDeck.

Section BotArguments.
Import Py Spec VCThesisBot.

(** X15.  How the two bot commands read their arguments.  Without arguments the
    command only replies with its usage.  Otherwise the region always has
    two characters: it is the last argument when there are several and the
    last has two characters, and "US" in every other case.  A last argument
    longer than two characters belongs to the sector; one of fewer than two
    characters is neither region nor sector: it is dropped. *)
Theorem command_arguments_cases (args : list string) :
  (command_arguments args = None <-> args = []) /\
  (args <> [] ->
   exists sector region,
     command_arguments args = Some (sector, region) /\
     String.length region = 2 /\
     (List.length args = 1 -> sector = hd "" args /\ region = "US") /\
     (1 < List.length args -> String.length (last args "") = 2 ->
      sector = join " " (removelast args) /\ region = last args "") /\
     (1 < List.length args -> 2 < String.length (last args "") ->
      sector = join " " args /\ region = "US") /\
     (1 < List.length args -> String.length (last args "") < 2 ->
      sector = join " " (removelast args) /\ region = "US")).
Proof.
  split.
  - destruct args as [|a args]; [tauto|]. unfold command_arguments.
    split; [|discriminate].
    destruct (_ && _)%bool; discriminate.
  - intros N. destruct args as [|a args]; [contradiction|].
    unfold command_arguments.
    set (l := a :: args) in *.
    destruct (Nat.ltb_spec 1 (List.length l)) as [L1 | L1]; cbn [andb].
    + destruct (Nat.ltb_spec 2 (String.length (last l ""))) as [L2 | L2].
      * eexists _, _. split; [reflexivity|]. split; [reflexivity|].
        repeat split; intros; try reflexivity; lia.
      * destruct (Nat.eqb_spec (String.length (last l "")) 2) as [E | E].
        -- eexists _, _. split; [reflexivity|]. split; [exact E|].
           repeat split; intros; try reflexivity; lia.
        -- eexists _, _. split; [reflexivity|]. split; [reflexivity|].
           repeat split; intros; try reflexivity; lia.
    + eexists _, _. split; [reflexivity|]. split; [reflexivity|].
      repeat split; intros; try reflexivity; lia.
Qed.

Lemma command_arguments_cases_witness :
  ["Vitamin"; "C"] <> [] /\
  command_arguments ["Vitamin"; "C"] = Some ("Vitamin", "US").
Proof.
  split; [discriminate|].
  destruct (proj2 (command_arguments_cases ["Vitamin"; "C"]))
    as (sector & region & E & _ & _ & _ & _ & D); [discriminate|].
  destruct D as [-> ->]; [simpl; lia | simpl; lia |].
  exact E.
Defined.

End BotArguments.

(* ===================================================================== *)
(** * Text overflow, and the run of the quality pass *)
(* ===================================================================== *)

Section Overflow.
Import Py Spec Llm Pptx FinalPassAgent.

Lemma long_lines_flat (num : Z) (lines : list string)
      (issues : list QAIssue) :
  fold_left
    (fun issues line =>
       if too_long line then
         issues ++
           [new_issue num "long_line"
              ("Line exceeds recommended length ("
                 ++ str_of_int (Z.of_nat (String.length line))
                 ++ " chars): '" ++ slice_to 50 line ++ "...'")%string
              "warning"]
       else issues)
    lines issues
  = issues ++
    flat_map
      (fun line =>
         if too_long line then
           [new_issue num "long_line"
              ("Line exceeds recommended length ("
                 ++ str_of_int (Z.of_nat (String.length line))
                 ++ " chars): '" ++ slice_to 50 line ++ "...'")%string
              "warning"]
         else [])
      lines.
Proof.
  apply fold_left_flat. intros acc line.
  destruct (too_long line); [reflexivity | now rewrite app_nil_r].
Qed.

Lemma overflow_box_app (num : Z) (issues : list QAIssue) (tb : ShapeInfo) :
  overflow_of_text_box num issues tb
  = issues ++ overflow_of_text_box num [] tb.
Proof.
  unfold overflow_of_text_box.
  rewrite (long_lines_flat num _ issues), (long_lines_flat num _ []).
  cbn [app].
  destruct (8 <? List.length (split_lines (info_text tb)))%nat;
    [now rewrite app_assoc | reflexivity].
Qed.

Lemma overflow_flat (slides_data : list SlideData) (issues : list QAIssue) :
  validate_text_overflow slides_data issues
  = issues ++
    flat_map
      (fun slide =>
         flat_map (overflow_of_text_box (number slide) [])
                  (text_boxes slide))
      slides_data.
Proof.
  unfold validate_text_overflow. apply fold_left_flat.
  intros acc slide. apply fold_left_flat.
  intros acc' tb. apply overflow_box_app.
Qed.

Lemma too_long_false (line : string) :
  too_long line = false <-> String.length line <= 127.
Proof.
  unfold too_long. rewrite Nat.ltb_ge. lia.
Qed.

Lemma flat_map_nil_iff {X Y} (f : X -> list Y) (l : list X) :
  flat_map f l = [] <-> Forall (fun x => f x = []) l.
Proof.
  induction l as [|x l IH]; simpl.
  - split; [constructor | reflexivity].
  - split.
    + intros H. apply app_eq_nil in H as [Hx Hl].
      constructor; [exact Hx | now apply IH].
    + intros H. inversion H as [|? ? Hx Hl]; subst.
      rewrite Hx. now apply IH.
Qed.

Lemma overflow_box_nil (num : Z) (tb : ShapeInfo) :
  overflow_of_text_box num [] tb = [] <-> fits tb.
Proof.
  unfold overflow_of_text_box, fits.
  rewrite (long_lines_flat num _ []). cbn [app].
  destruct (Nat.ltb_spec 8 (List.length (split_lines (info_text tb))))
    as [L | L].
  - split.
    + intros H. apply app_eq_nil in H as [_ H]. discriminate.
    + intros [H _]. lia.
  - rewrite flat_map_nil_iff. split.
    + intros H. split; [exact L|].
      eapply Forall_impl; [|exact H]. intros line E. cbn beta in E.
      apply too_long_false. now destruct (too_long line).
    + intros [_ H]. eapply Forall_impl; [|exact H].
      intros line E. cbn beta in E. apply too_long_false in E.
      now rewrite E.
Qed.

Lemma overflow_box_warnings (num : Z) (tb : ShapeInfo) :
  Forall (fun issue => slide_num issue = num /\ severity issue = "warning")
         (overflow_of_text_box num [] tb).
Proof.
  unfold overflow_of_text_box.
  rewrite (long_lines_flat num _ []). cbn [app].
  assert (F : Forall (fun issue => slide_num issue = num /\
                                   severity issue = "warning")
                (flat_map
                   (fun line =>
                      if too_long line then
                        [new_issue num "long_line"
                           ("Line exceeds recommended length ("
                              ++ str_of_int (Z.of_nat (String.length line))
                              ++ " chars): '" ++ slice_to 50 line
                              ++ "...'")%string
                           "warning"]
                      else [])
                   (split_lines (info_text tb)))).
  { apply Forall_flat_map. apply Forall_forall. intros line _.
    destruct (too_long line); repeat constructor. }
  destruct (8 <? _)%nat; [|exact F].
  apply Forall_app; split; [exact F|]. repeat constructor.
Qed.

(** X16.  The overflow check keeps the issues found before it and what it adds
    does not depend on them; it adds nothing exactly when every text box
    fits, no more than 8 lines and no line longer than 127 characters (the
    bound in the code is 85 * 1.5); all it adds are warnings about slides
    of the deck. *)
Theorem validate_text_overflow_fits (slides_data : list SlideData)
        (issues : list QAIssue) :
  validate_text_overflow slides_data issues
  = issues ++ validate_text_overflow slides_data [] /\
  (validate_text_overflow slides_data [] = []
   <-> Forall (fun slide => Forall fits (text_boxes slide)) slides_data) /\
  Forall (fun issue =>
            In (slide_num issue) (map number slides_data) /\
            severity issue = "warning")
         (validate_text_overflow slides_data []).
Proof.
  rewrite (overflow_flat slides_data issues), (overflow_flat slides_data []).
  cbn [app]. split; [reflexivity|]. split.
  - rewrite flat_map_nil_iff. split; intros H;
      (eapply Forall_impl; [|exact H]); intros slide E; cbn beta in *.
    + apply flat_map_nil_iff in E. eapply Forall_impl; [|exact E].
      intros tb. apply overflow_box_nil.
    + apply flat_map_nil_iff. eapply Forall_impl; [|exact E].
      intros tb. apply overflow_box_nil.
  - apply Forall_flat_map. apply Forall_forall. intros slide I.
    apply Forall_flat_map. apply Forall_forall. intros tb _.
    eapply Forall_impl; [|apply overflow_box_warnings].
    intros issue [-> W]. split; [now apply in_map | exact W].
Qed.

End Overflow.

(* ===================================================================== *)
(** * The grammar check of the quality pass *)
(* ===================================================================== *)

Section GrammarCheck.
Import Py Re Spec Llm FinalPassAgent Examples.

Lemma append_inv_l (a x y : string) :
  (a ++ x)%string = (a ++ y)%string -> x = y.
Proof. induction a as [|c a IH]; cbn [append]; [auto | intros [= E]; auto]. Qed.

(** A run of characters of a class is read off a text in one way only. *)
Lemma class_run_unique (p : ascii -> bool) :
  forall a a' x x',
    (a ++ x)%string = (a' ++ x')%string ->
    all p a = true -> all p a' = true ->
    match x with String c _ => p c = false | "" => True end ->
    match x' with String c _ => p c = false | "" => True end ->
    a = a' /\ x = x'.
Proof.
  induction a as [|c a IH]; intros [|c' a'] x x' E A A' N N';
    cbn [append all] in *.
  - auto.
  - subst x. apply andb_true_iff in A' as [Pc _]. congruence.
  - subst x'. apply andb_true_iff in A as [Pc _]. congruence.
  - injection E as <- E. apply andb_true_iff in A as [_ A].
    apply andb_true_iff in A' as [_ A'].
    destruct (IH a' x x' E A A' N N') as [-> ->]. auto.
Qed.

(** A mention of a slide that starts before another one ends before it. *)
Lemma mention_before (w ws' ds' post' pre ws ds post : string) :
  (w ++ "SLIDE" ++ ws' ++ ds' ++ post')%string
  = (pre ++ "SLIDE" ++ ws ++ ds ++ post)%string ->
  all isspace ws' = true -> all isdigit ds' = true -> ds' <> "" ->
  String.length w < String.length pre ->
  mentions_slide pre.
Proof.
  intros E Aw Ad Nd L.
  apply append_split in E as [(w2 & Ew & _) | (a2 & Ea & E)].
  { rewrite Ew, length_append in L. lia. }
  assert (Na : a2 <> "").
  { intros ->. rewrite append_nil_r in Ea. subst pre. lia. }
  destruct a2 as [|c1 a2]; [contradiction|].
  cbn [append] in E. injection E as <- E.
  destruct a2 as [|c2 a2]; [discriminate E|].
  cbn [append] in E. injection E as <- E.
  destruct a2 as [|c3 a2]; [discriminate E|].
  cbn [append] in E. injection E as <- E.
  destruct a2 as [|c4 a2]; [discriminate E|].
  cbn [append] in E. injection E as <- E.
  destruct a2 as [|c5 a3]; [discriminate E|].
  cbn [append] in E. injection E as <- E.
  apply append_split in E as [(w3 & Ew3 & E) | (a4 & Ea4 & E)].
  - exfalso. destruct w3 as [|x w3].
    + cbn [append] in E. destruct ds' as [|d ds']; [contradiction|].
      cbn [append] in E. injection E as <- _. discriminate Ad.
    + cbn [append] in E. injection E as <- _.
      rewrite Ew3, all_append in Aw. cbn [all] in Aw.
      rewrite andb_false_r in Aw. discriminate.
  - destruct ds' as [|d ds']; [contradiction|].
    destruct a4 as [|d' a5].
    + cbn [append] in E. injection E as -> _. discriminate Ad.
    + cbn [append] in E. injection E as <- _.
      cbn [all] in Ad. apply andb_true_iff in Ad as [Dd _].
      exists w, ws', (String d ""), a5. repeat split.
      * rewrite Ea, Ea4. reflexivity.
      * exact Aw.
      * cbn [all]. now rewrite Dd.
      * discriminate.
Qed.

Lemma slide_run_at (pre ws ds post : string) (pv : option ascii) :
  all isspace ws = true -> all isdigit ds = true -> ds <> "" ->
  Re.run slide_pattern
         (Cursor (String.length pre) pv ("SLIDE" ++ ws ++ ds ++ post)%string)
         [] (accept false (String.length pre))
  <> None.
Proof.
  intros Aw Ad Nd.
  destruct (slide_pattern_matches pre ws ds post pv Aw Ad Nd)
    as (c' & g' & M).
  eapply run_complete; [exact M | discriminate].
Qed.

Lemma head_digit_not_space (ds post : string) :
  all isdigit ds = true -> ds <> "" ->
  match (ds ++ post)%string with
  | String c _ => isspace c = false
  | "" => True
  end.
Proof.
  intros A N. destruct ds as [|d ds]; [contradiction|].
  cbn [append all] in *. apply andb_true_iff in A as [D _].
  now apply digit_not_space.
Qed.

(** The search finds the first mention of a slide, and group 1 is its
    number to the last digit. *)
Lemma search_slide_first (line pre ws ds post : string) :
  slide_mention line pre ws ds post -> ~ mentions_slide pre ->
  exists m, search slide_pattern line = Some m /\ group 1 m = ds.
Proof.
  intros (E & Aw & Ad & Nd & Np) First.
  pose proof (scan_trace slide_pattern line false 0 None) as T.
  unfold search, scan_at, start_of. cbn [pos prev rest].
  destruct (scan slide_pattern false 0 None line) as [m|].
  - exists m. split; [reflexivity|].
    destruct T as (w & s' & Es & St & Run & Skip).
    cbn [andb Nat.add] in Run, Skip.
    pose proof Run as Run'.
    change (String.length w)
      with (pos (Cursor (String.length w) (prev_after None w) s'))
      in Run' at 2.
    apply slide_pattern_run in Run'
        as (ws' & ds' & post' & Er & Aw' & Ad' & Nd' & Np' & G).
    cbn [rest snd] in Er, G. subst s'.
    assert (Ew : w = pre).
    { destruct (Nat.lt_trichotomy (String.length w) (String.length pre))
        as [Lt | [Eq | Gt]].
      - exfalso. apply First.
        apply (mention_before w ws' ds' post' pre ws ds post);
          auto; congruence.
      - rewrite Es in E.
        apply append_split in E as [(w2 & Ew & _) | (a2 & Ea & _)].
        + rewrite Ew, length_append in Eq.
          destruct w2; [now rewrite append_nil_r in Ew | simpl in Eq; lia].
        + rewrite Ea, length_append in Eq.
          destruct a2; [now rewrite append_nil_r in Ea | simpl in Eq; lia].
      - exfalso. rewrite Es in E.
        apply append_split in E as [(w2 & Ew & E2) | (a2 & Ea & _)].
        + assert (N2 : w2 <> "").
          { intros ->. rewrite append_nil_r in Ew. subst w. lia. }
          specialize (Skip pre w2 Ew N2). rewrite <- E2 in Skip.
          revert Skip. now apply slide_run_at.
        + rewrite Ea, length_append in Gt. lia. }
    subst w. rewrite Es in E. apply append_inv_l in E.
    cbn [append] in E. injection E as E.
    apply (class_run_unique isspace) in E as [-> E]; auto;
      [|now apply head_digit_not_space..].
    apply (class_run_unique isdigit) in E as [-> _]; auto.
    unfold group. now rewrite G.
  - exfalso.
    apply (slide_run_at pre ws ds post (prev_after None pre) Aw Ad Nd).
    exact (T pre _ E).
Qed.

Lemma search_slide_mentions (line : string) (m : rmatch) :
  search slide_pattern line = Some m -> mentions_slide line.
Proof.
  intros H. apply search_run in H as (w & s' & -> & St & R).
  change (m_start m) with (pos (Cursor (m_start m) (prev_after None w) s'))
    in R at 2.
  apply slide_pattern_run in R as (ws & ds & post & E & Aw & Ad & Nd & _).
  simpl in E. subst s'. exists w, ws, ds, post. auto.
Qed.

(** Reading the digits from the left gives the number that the numeral
    denotes place by place. *)
Lemma horner (s : string) :
  forall acc,
    fold_left (fun acc c => (10 * acc + digit_value c)%Z)
              (list_ascii_of_string s) acc
    = (acc * 10 ^ Z.of_nat (String.length s) + decimal s)%Z.
Proof.
  induction s as [|c s IH]; intros acc;
    cbn [list_ascii_of_string fold_left String.length decimal].
  - rewrite Z.pow_0_r. lia.
  - rewrite IH, Nat2Z.inj_succ, Z.pow_succ_r by lia. ring.
Qed.

Lemma int_of_digits_decimal (ds : string) :
  String.length ds <= max_str_digits -> int_of_digits ds = Ok (decimal ds).
Proof.
  intros L. unfold int_of_digits.
  destruct (Nat.ltb_spec max_str_digits (String.length ds)); [lia|].
  now rewrite horner.
Qed.

Lemma int_of_digits_refused (ds : string) :
  max_str_digits < String.length ds ->
  exists e, int_of_digits ds = Raised e.
Proof.
  intros L. unfold int_of_digits.
  destruct (Nat.ltb_spec max_str_digits (String.length ds)); [|lia].
  eexists. reflexivity.
Qed.

Lemma after_first_found (sep : ascii) (a b : string) :
  all (fun c => negb (Ascii.eqb c sep)) a = true ->
  after_first sep (a ++ String sep b)%string = Some b.
Proof.
  induction a as [|c a IH]; cbn [append after_first all].
  - now rewrite Ascii.eqb_refl.
  - intros A. apply andb_true_iff in A as [N A].
    apply negb_true_iff in N. rewrite N. now apply IH.
Qed.

Lemma after_first_none (sep : ascii) (s : string) :
  all (fun c => negb (Ascii.eqb c sep)) s = true -> after_first sep s = None.
Proof.
  induction s as [|c s IH]; cbn [after_first all]; [reflexivity|].
  intros A. apply andb_true_iff in A as [N A].
  apply negb_true_iff in N. rewrite N. now apply IH.
Qed.

Lemma concat_empty_cons (x : string) (l : list string) :
  String.concat "" (x :: l) = (x ++ String.concat "" l)%string.
Proof.
  destruct l; cbn [String.concat append]; [now rewrite append_nil_r|].
  reflexivity.
Qed.

(** The text that the grammar check gathers is the review text. *)
Lemma review_text_fold (slides_data : list SlideData) :
  forall acc,
    fold_left
      (fun all_text slide =>
         if truthy (strip (total_text slide)) then
           (all_text ++ nl ++ nl ++ "--- SLIDE "
              ++ str_of_int (number slide) ++ " ---" ++ nl
              ++ total_text slide)%string
         else all_text)
      slides_data acc
    = (acc ++ review_text slides_data)%string.
Proof.
  unfold review_text.
  induction slides_data as [|slide l IH]; intros acc; cbn [fold_left map].
  - cbn [String.concat]. now rewrite append_nil_r.
  - rewrite IH, concat_empty_cons. unfold truthy.
    destruct (is_empty (strip (total_text slide))); cbn [negb].
    + reflexivity.
    + now rewrite append_assoc.
Qed.

(** One run of the grammar check: its one request and what it makes of the
    reply. *)
Lemma grammar_check_run (llm : oracle) (slides_data : list SlideData)
      (issues : list QAIssue) (h : log) :
  check_grammar_and_clarity llm slides_data issues h
  = (match llm h (grammar_system_prompt,
                  grammar_user_prompt (review_text slides_data)) with
     | Ok reply =>
         Ok (reply, fold_left grammar_line (split_lines reply) issues)
     | Raised e => Raised e
     end,
     h ++ [(grammar_system_prompt,
            grammar_user_prompt (review_text slides_data))]).
Proof.
  unfold check_grammar_and_clarity. rewrite review_text_fold.
  cbn [append]. unfold bind, invoke, ret.
  now destruct (llm h _).
Qed.

(** C7, as the code has it.  For a line of the grammar reply: a line that
    lacks "->" or contains "OK" adds no issue.  Any other line in which
    "SLIDE", optional white space and a number occur adds at most one
    issue, for the first such mention: when its number has no more digits
    than [int] accepts, exactly one issue of type "grammar" and severity
    "info", for the slide of that number, whose text is what follows the
    first colon of the line, trimmed, or the line itself when it has no
    colon; when its number has more digits, [int] raises, the handler
    swallows the exception and the line adds no issue.  A line in which no
    such number occurs adds no issue.  The grammar check makes one request,
    for the review text of the slides; it returns the reply of the model
    and the issues of its lines, taken in order, and it raises what the
    model raises. *)
Theorem grammar_line_issues (issues : list QAIssue) (line : string) :
  (contains "->" line = false \/ contains "OK" line = true ->
   grammar_line issues line = issues) /\
  (forall pre ws ds post,
     contains "->" line = true -> contains "OK" line = false ->
     slide_mention line pre ws ds post -> ~ mentions_slide pre ->
     (String.length ds <= max_str_digits ->
      exists text,
        grammar_line issues line
        = issues ++ [mkIssue (decimal ds) "grammar" text "info" false] /\
        (forall a b,
           line = (a ++ ":" ++ b)%string ->
           all (fun c => negb (Ascii.eqb c ":")) a = true ->
           text = strip b) /\
        (all (fun c => negb (Ascii.eqb c ":")) line = true ->
         text = line)) /\
     (max_str_digits < String.length ds ->
      grammar_line issues line = issues)) /\
  (~ mentions_slide line -> grammar_line issues line = issues) /\
  (forall (llm : oracle) (slides_data : list SlideData) (h : log),
     snd (check_grammar_and_clarity llm slides_data issues h)
     = h ++ [(grammar_system_prompt,
              grammar_user_prompt (review_text slides_data))] /\
     match llm h (grammar_system_prompt,
                  grammar_user_prompt (review_text slides_data)) with
     | Ok reply =>
         fst (check_grammar_and_clarity llm slides_data issues h)
         = Ok (reply, fold_left grammar_line (split_lines reply) issues)
     | Raised e =>
         fst (check_grammar_and_clarity llm slides_data issues h)
         = Raised e
     end).
Proof.
  split; [|split; [|split]].
  - unfold grammar_line. intros [H | H]; rewrite H; simpl;
      [now rewrite andb_false_r | now rewrite andb_false_r].
  - intros pre ws ds post Ha Ho Hm First.
    destruct (search_slide_first line pre ws ds post Hm First)
      as (m & Es & G).
    assert (Hs : contains "SLIDE" line = true).
    { destruct Hm as (-> & _). apply contains_intro. }
    unfold grammar_line. rewrite Ha, Ho, Hs, Es, G. cbn [negb andb].
    split.
    + intros L. rewrite (int_of_digits_decimal _ L).
      eexists. split; [reflexivity|]. split.
      * intros a b -> A. cbn [append].
        now rewrite (after_first_found ":" a b A).
      * intros A. now rewrite (after_first_none ":" line A).
    + intros L. destruct (int_of_digits_refused _ L) as [e ->].
      reflexivity.
  - intros Hn. unfold grammar_line.
    destruct (contains "SLIDE" line && negb (contains "OK" line)
              && contains "->" line); [|reflexivity].
    destruct (search slide_pattern line) as [m|] eqn:E; [|reflexivity].
    exfalso; apply Hn. eapply search_slide_mentions; eassumption.
  - intros llm slides_data h. rewrite grammar_check_run. cbn [fst snd].
    split; [reflexivity|]. now destruct (llm h _).
Qed.

Lemma grammar_line_issues_witness :
  grammar_line [] grammar_reply_line
  = [mkIssue 3 "grammar" "teh market -> the market" "info" false].
Proof.
  destruct (proj1 (proj2 (grammar_line_issues [] grammar_reply_line))
                  "" " " "3" ": teh market -> the market")
    as [Small _].
  - reflexivity.
  - reflexivity.
  - repeat split; try reflexivity. discriminate.
  - intros (pre & ws & ds & post & E & _). destruct pre; discriminate E.
  - destruct Small as (text & E & T & _).
    + unfold max_str_digits. apply Nat.leb_le. reflexivity.
    + rewrite E, (T "SLIDE 3" " teh market -> the market" eq_refl eq_refl).
      reflexivity.
Defined.

(** C7, counterexample.  A line of the reply has "->", has no "OK" and
    mentions a slide by a number of 4301 digits: it adds no issue. *)
Lemma long_number_adds_no_issue :
  contains "->" long_number_line = true /\
  contains "OK" long_number_line = false /\
  slide_mention long_number_line "" " " (sevens 4301) ": a -> b" /\
  grammar_line [] long_number_line = [].
Proof.
  split; [vm_compute; reflexivity|]. split; [vm_compute; reflexivity|].
  split; [|vm_compute; reflexivity].
  repeat split; try (vm_compute; reflexivity).
  vm_compute. discriminate.
Qed.

End GrammarCheck.

Section Tally.
Import Py Spec Llm Pptx FinalPassAgent.

Lemma count_severity_app (sev : string) (a b : list QAIssue) :
  count_severity sev (a ++ b) = count_severity sev a + count_severity sev b.
Proof.
  unfold count_severity. now rewrite filter_app, length_app.
Qed.

Lemma count_severity_all (sev : string) (l : list QAIssue) :
  Forall (fun i => severity i = sev) l ->
  count_severity sev l = List.length l /\
  forall other, other <> sev -> count_severity other l = 0.
Proof.
  unfold count_severity. induction 1 as [|i l Hi F [IH1 IH2]]; simpl.
  - auto.
  - rewrite Hi, String.eqb_refl. simpl. rewrite IH1. split; [reflexivity|].
    intros other N. destruct (String.eqb_spec sev other) as [->|_];
      [contradiction|]. now apply IH2.
Qed.

Lemma completeness_errors (slides_data : list SlideData) :
  Forall (fun i => severity i = "error")
         (validate_content_completeness slides_data []).
Proof.
  rewrite completeness_flat. cbn [app].
  apply Forall_flat_map. apply Forall_forall. intros slide _.
  destruct (_ || _)%bool; [constructor|].
  destruct (negb (truthy (strip (total_text slide))));
    destruct (negb (truthy (title slide))); repeat constructor.
Qed.

Lemma bullet_warnings (slides_data : list SlideData) :
  Forall (fun i => severity i = "warning")
         (validate_bullet_count slides_data []).
Proof.
  rewrite bullet_issues_flat. cbn [app].
  apply Forall_flat_map. apply Forall_forall. intros slide _.
  unfold owed. destruct (verdict _ _ _); repeat constructor.
Qed.

Lemma overflow_warnings (slides_data : list SlideData) :
  Forall (fun i => severity i = "warning")
         (validate_text_overflow slides_data []).
Proof.
  rewrite overflow_flat. cbn [app].
  apply Forall_flat_map. apply Forall_forall. intros slide _.
  apply Forall_flat_map. apply Forall_forall. intros tb _.
  eapply Forall_impl; [|apply overflow_box_warnings].
  intros i [_ W]. exact W.
Qed.

(** The summary of the report adds up: every issue is an error, a warning
    or an information. *)
Lemma issue_tally (slides_data : list SlideData) (added : list QAIssue) :
  Forall (fun issue => issue_type issue = "grammar" /\
                       severity issue = "info") added ->
  let issues :=
    validate_content_completeness slides_data []
    ++ validate_bullet_count slides_data []
    ++ validate_text_overflow slides_data []
    ++ added in
  count_severity "error" issues
  = List.length (validate_content_completeness slides_data []) /\
  count_severity "warning" issues
  = List.length (validate_bullet_count slides_data [])
    + List.length (validate_text_overflow slides_data []) /\
  count_severity "info" issues = List.length added.
Proof.
  intros Fa issues. unfold issues. rewrite !count_severity_app.
  assert (Fi : Forall (fun i => severity i = "info") added)
    by (eapply Forall_impl; [|exact Fa]; now intros i [_ S]).
  destruct (count_severity_all _ _ (completeness_errors slides_data))
    as [E1 E0].
  destruct (count_severity_all _ _ (bullet_warnings slides_data))
    as [B1 B0].
  destruct (count_severity_all _ _ (overflow_warnings slides_data))
    as [O1 O0].
  destruct (count_severity_all _ _ Fi) as [I1 I0].
  rewrite E1, B1, O1, I1.
  rewrite (E0 "warning"), (E0 "info"), (B0 "error"), (B0 "info"),
    (O0 "error"), (O0 "info"), (I0 "error"), (I0 "warning")
    by discriminate.
  lia.
Qed.

End Tally.

Section GrammarRun.
Import Py Spec Llm Pptx FinalPassAgent.

Lemma grammar_line_appends (issues : list QAIssue) (line : string) :
  exists added,
    grammar_line issues line = issues ++ added /\
    Forall (fun issue => issue_type issue = "grammar" /\
                         severity issue = "info") added.
Proof.
  unfold grammar_line.
  destruct (_ && _)%bool.
  - destruct (Re.search slide_pattern line) as [m|].
    + destruct (int_of_digits _).
      * eexists. split; [reflexivity|]. repeat constructor.
      * exists []. rewrite app_nil_r. auto.
    + exists []. rewrite app_nil_r. auto.
  - exists []. rewrite app_nil_r. auto.
Qed.

Lemma grammar_lines_append (lines : list string) :
  forall issues,
  exists added,
    fold_left grammar_line lines issues = issues ++ added /\
    Forall (fun issue => issue_type issue = "grammar" /\
                         severity issue = "info") added.
Proof.
  induction lines as [|line lines IH]; intros issues; cbn [fold_left].
  - exists []. rewrite app_nil_r. auto.
  - destruct (grammar_line_appends issues line) as (a1 & -> & F1).
    destruct (IH (issues ++ a1)) as (a2 & -> & F2).
    exists (a1 ++ a2). rewrite app_assoc. split; [reflexivity|].
    apply Forall_app; auto.
Qed.

Lemma stops_answers {A} (llm : oracle) (h : log) (b : nat)
      (r : outcome A * log) :
  answers llm -> stops_at_failure llm h b r ->
  exists a asked, r = (Ok a, h ++ asked) /\ List.length asked = b.
Proof.
  intros An (asked & E & T). destruct r as [[a|e] h']; simpl in E, T.
  - exists a, asked. subst h'. destruct T as [_ L]. auto.
  - destruct T as (asked0 & p & _ & _ & R & _).
    destruct (An (h ++ asked0) p) as [reply R']. congruence.
Qed.

(** X17.  The quality pass, from the loaded deck to the deck it saves.  With a
    model that answers, [run] returns: it asks first for the grammar check
    of the review text, whose reply it returns as the feedback, and then
    once for each bullet-count issue; its issues are those of the three
    validations, in that order, followed by grammar issues of severity
    "info", so that the counts of errors, warnings and informations in the
    report add up to the number of issues; the deck it saves has the shapes
    of the deck it loaded on every slide; a slide without a bullet-count
    issue is saved exactly as it was loaded; and a slide with one gets as
    its notes the heading "SUGGESTED FIX (3 bullets):", the trimmed reply of
    the model to the request made for that slide, as the notes page gives
    it back, and the three closing lines. *)
Theorem run_reviews_deck (llm : oracle) (prs : Presentation) (h : log) :
  answers llm ->
  let slides_data := extract_slide_content prs in
  let flagged := map slide_num (validate_bullet_count slides_data []) in
  exists reviewed issues grammar_feedback fix_requests added,
    run llm prs h
    = (Ok (reviewed, issues, grammar_feedback),
       h ++ (grammar_system_prompt,
             grammar_user_prompt (review_text slides_data))
         :: fix_requests) /\
    llm h (grammar_system_prompt,
           grammar_user_prompt (review_text slides_data))
    = Ok grammar_feedback /\
    List.length fix_requests = List.length flagged /\
    issues
    = validate_content_completeness slides_data []
      ++ validate_bullet_count slides_data []
      ++ validate_text_overflow slides_data []
      ++ added /\
    Forall (fun issue => issue_type issue = "grammar" /\
                         severity issue = "info") added /\
    count_severity "error" issues + count_severity "warning" issues
    + count_severity "info" issues
    = List.length issues /\
    map Pptx.shapes reviewed = map Pptx.shapes prs /\
    (forall i, ~ In (Z.of_nat i + 1)%Z flagged ->
               nth_error reviewed i = nth_error prs i) /\
    (forall k, In k flagged ->
       exists slide h0 reply,
         nth_error prs (Z.to_nat (k - 1)) = Some slide /\
         llm h0 (fix_system_prompt,
                 fix_user_prompt
                   (total_text (extract_slide (Z.to_nat (k - 1)) slide)))
         = Ok reply /\
         nth_error reviewed (Z.to_nat (k - 1))
         = Some (mkSlide
                   (Pptx.shapes slide)
                   (Some ("SUGGESTED FIX (3 bullets):" ++ nl ++ nl
                            ++ frame_text (strip reply)
                            ++ nl ++ nl ++ "---" ++ nl
                            ++ "Original had issues with bullet count."
                            ++ nl
                            ++ "Review and apply manually if needed.")
                           %string))).
Proof.
  intros An slides_data flagged. unfold run. fold slides_data.
  set (issues0 :=
         validate_text_overflow slides_data
           (validate_bullet_count slides_data
              (validate_content_completeness slides_data []))).
  assert (E0 : issues0
               = validate_content_completeness slides_data []
                 ++ validate_bullet_count slides_data []
                 ++ validate_text_overflow slides_data []).
  { unfold issues0.
    rewrite (overflow_flat slides_data (validate_bullet_count _ _)),
      (overflow_flat slides_data []).
    rewrite (bullet_issues_flat slides_data
               (validate_content_completeness _ _)),
      (bullet_issues_flat slides_data []).
    cbn [app]. now rewrite <- app_assoc. }
  (* the grammar check *)
  set (request := (grammar_system_prompt,
                   grammar_user_prompt (review_text slides_data))).
  destruct (An h request) as [reply R].
  destruct (grammar_lines_append (split_lines reply) issues0)
    as (added & Ea & Fa).
  (* the fixes *)
  destruct (stops_answers llm (h ++ [request]) _ _ An
              (stops_generate_fixes llm slides_data (h ++ [request])))
    as (fixes & asked & G & La).
  pose proof (generate_fixes_keys llm slides_data _ _ _ G) as [D K].
  pose proof (generate_fixes_flagged llm slides_data _ _ _ G) as Fl.
  pose proof (generate_fixes_values llm slides_data _ _ _ G) as V.
  assert (Rg : forall k, In k (map fst fixes) ->
                         (1 <= k <= Z.of_nat (List.length prs))%Z).
  { intros k I. apply extract_slide_content_numbers. now apply K. }
  destruct (apply_fixes_in_range fixes prs D Rg) as [Ok_ Notes].
  assert (Run :
    bind (check_grammar_and_clarity llm slides_data issues0)
      (fun checked =>
         bind (generate_fixes llm slides_data)
              (fun fixes =>
                 match fixes with
                 | [] => ret (prs, snd checked, fst checked)
                 | _ :: _ =>
                     fun h =>
                       match apply_fixes_to_presentation prs fixes with
                       | (Ok _, prs) =>
                           (Ok (prs, snd checked, fst checked), h)
                       | (Raised e, _) => (Raised e, h)
                       end
                 end))
      h
    = (Ok (snd (apply_fixes_to_presentation prs fixes),
           issues0 ++ added, reply),
       h ++ request :: asked)).
  { unfold bind at 1. rewrite grammar_check_run. fold request. rewrite R.
    unfold bind. rewrite G. cbn [fst snd]. rewrite Ea.
    replace (h ++ request :: asked) with ((h ++ [request]) ++ asked)
      by now rewrite <- app_assoc.
    destruct fixes as [|kf fixes']; [reflexivity|].
    destruct (apply_fixes_to_presentation prs (kf :: fixes'))
      as [[u|e] prs'] eqn:Ap; simpl in Ok_; [reflexivity | discriminate]. }
  exists (snd (apply_fixes_to_presentation prs fixes)),
    (issues0 ++ added), reply, asked, added.
  split; [exact Run|]. split; [exact R|]. split.
  { unfold flagged. rewrite length_map. exact La. }
  split; [rewrite E0, <- !app_assoc; reflexivity|].
  split; [exact Fa|]. split.
  { rewrite E0, <- !app_assoc.
    destruct (issue_tally slides_data added Fa) as (T1 & T2 & T3).
    rewrite T1, T2, T3, !length_app. lia. }
  split; [apply apply_fixes_shapes|]. split.
  - intros i N. apply apply_fixes_other. intros k f I P.
    assert (Ik : In k (map fst fixes))
      by (apply in_map_iff; exists (k, f); auto).
    destruct (slide_position_in_range prs k (Rg k Ik)) as [P' _].
    rewrite P' in P. injection P as <-.
    apply N. apply Fl.
    replace (Z.of_nat (Z.to_nat (k - 1)) + 1)%Z with k
      by (specialize (Rg k Ik); lia).
    exact Ik.
  - intros k I. apply Fl in I.
    apply in_map_iff in I as ([k' f] & Ek & I). cbn [fst] in Ek; subst k'.
    destruct (Notes k f I) as (slide & N1 & N2).
    destruct (V k f I) as (d & h0 & reply0 & Id & <- & R0 & ->).
    destruct (extracted_slide prs d Id) as (slide' & N1' & Ed).
    assert (slide' = slide) by congruence. subst slide'.
    exists slide, h0, reply0. rewrite <- Ed.
    repeat split; auto.
    rewrite N2, notes_held. reflexivity.
Qed.

Lemma run_reviews_deck_witness :
  let slides_data := extract_slide_content Examples.thin_deck in
  let flagged := map slide_num (validate_bullet_count slides_data []) in
  exists reviewed issues grammar_feedback fix_requests added,
    run (Examples.constant_llm "- x") Examples.thin_deck []
    = (Ok (reviewed, issues, grammar_feedback),
       [] ++ (grammar_system_prompt,
              grammar_user_prompt (review_text slides_data))
          :: fix_requests) /\
    Examples.constant_llm "- x" []
      (grammar_system_prompt,
       grammar_user_prompt (review_text slides_data))
    = Ok grammar_feedback /\
    List.length fix_requests = List.length flagged /\
    issues
    = validate_content_completeness slides_data []
      ++ validate_bullet_count slides_data []
      ++ validate_text_overflow slides_data []
      ++ added /\
    Forall (fun issue => issue_type issue = "grammar" /\
                         severity issue = "info") added /\
    count_severity "error" issues + count_severity "warning" issues
    + count_severity "info" issues
    = List.length issues /\
    map Pptx.shapes reviewed = map Pptx.shapes Examples.thin_deck /\
    (forall i, ~ In (Z.of_nat i + 1)%Z flagged ->
               nth_error reviewed i = nth_error Examples.thin_deck i) /\
    (forall k, In k flagged ->
       exists slide h0 reply,
         nth_error Examples.thin_deck (Z.to_nat (k - 1)) = Some slide /\
         Examples.constant_llm "- x" h0
           (fix_system_prompt,
            fix_user_prompt
              (total_text (extract_slide (Z.to_nat (k - 1)) slide)))
         = Ok reply /\
         nth_error reviewed (Z.to_nat (k - 1))
         = Some (mkSlide
                   (Pptx.shapes slide)
                   (Some ("SUGGESTED FIX (3 bullets):" ++ nl ++ nl
                            ++ frame_text (strip reply)
                            ++ nl ++ nl ++ "---" ++ nl
                            ++ "Original had issues with bullet count."
                            ++ nl
                            ++ "Review and apply manually if needed.")
                           %string))).
Proof.
  apply (run_reviews_deck (Examples.constant_llm "- x")
                          Examples.thin_deck []).
  intros h p. exists "- x". reflexivity.
Defined.

End GrammarRun.

(* ===================================================================== *)
(** * The research step without search results *)
(* ===================================================================== *)

Section Research.
Import Py Spec Llm DuckDuckGoSearch.




End Research.

(* ===================================================================== *)
(** * From the strategy text to the networking deck *)
(* ===================================================================== *)

Section StrategyRun.
Import Py Re Spec Llm Pptx.

Lemma parsed_strategy_titles (markdown : string) :
  Forall (fun sec =>
            single_line (PowerPointNetworkingAgent.number sec ++ ". "
                           ++ PowerPointNetworkingAgent.title sec)%string
            = true)
         (PowerPointNetworkingAgent.sections
            (PowerPointNetworkingAgent.parse_strategy markdown)).
Proof.
  unfold PowerPointNetworkingAgent.parse_strategy;
    cbn [PowerPointNetworkingAgent.sections].
  rewrite fold_left_snoc. apply Forall_map.
  eapply Forall_impl; [|apply section_matches_shape].
  intros m (ds & x & w & co & G & D & Nd & T & _).
  unfold PowerPointNetworkingAgent.section_of_match, group. rewrite G.
  cbn [PowerPointNetworkingAgent.number PowerPointNetworkingAgent.title
       group_lookup Nat.eqb].
  rewrite !single_line_append, (digits_single_line _ D).
  rewrite (single_line_title x w T). reflexivity.
Qed.

(** X19.  [run] of the networking deck builder, from the strategy text to the
    deck.  With a model that answers, every strategy text gives a deck: the
    title slide and the closing slide carry the sector that [run] was
    called with and the parsed region, and between them comes one slide per
    parsed section, in order, whose title placeholder holds one paragraph,
    the one that python-pptx makes of "number. title", and whose body holds
    the three paragraphs that it makes of three bullets, those of the
    section itself where its content has exactly three bullet lines. *)
Theorem run_deck_of_strategy (llm : oracle)
        (month_year sector strategy_content : string) (h : log) :
  answers llm ->
  exists body asked,
    PowerPointNetworkingAgent.run llm month_year sector strategy_content h
    = (Ok (title_slide "Networking Strategy" sector
             (PowerPointNetworkingAgent.region
                (PowerPointNetworkingAgent.parse_strategy strategy_content))
             month_year
           :: body
           ++ [closing_slide (sector ++ " Networking Strategy")
                             month_year]),
       h ++ asked) /\
    Forall2 (fun section s =>
               exists bullets,
                 s = layout_title_and_content
                       [paragraph_text
                          (PowerPointNetworkingAgent.number section ++ ". "
                             ++ PowerPointNetworkingAgent.title section)]
                       (map paragraph_text bullets) /\
                 List.length bullets = 3 /\
                 (List.length
                    (bullets_of (PowerPointNetworkingAgent.content section))
                  = 3 ->
                  bullets
                  = bullets_of (PowerPointNetworkingAgent.content section)))
            (PowerPointNetworkingAgent.sections
               (PowerPointNetworkingAgent.parse_strategy strategy_content))
            body.
Proof.
  intros A. unfold PowerPointNetworkingAgent.run,
    PowerPointNetworkingAgent.create_presentation.
  cbn [PowerPointNetworkingAgent.sector PowerPointNetworkingAgent.region
       PowerPointNetworkingAgent.sections].
  unfold PowerPointNetworkingAgent._add_title_slide,
    PowerPointNetworkingAgent._add_closing_slide. cbn [app].
  set (first := mkSlide [add_shape; _; _; _; add_shape] None).
  destruct (net_section_loop llm A
              (PowerPointNetworkingAgent.sections
                 (PowerPointNetworkingAgent.parse_strategy strategy_content))
              [first] h)
    as (slides & asked & R & F2).
  erewrite bind_ok; [|exact R].
  unfold ret. exists slides, asked.
  split; [cbn [app]; reflexivity|].
  pose proof (Forall2_with _ _ _ _
                (parsed_strategy_titles strategy_content) F2) as F.
  eapply Forall2_impl; [|exact F].
  intros sec s (T & bullets & -> & L & Same).
  exists bullets. rewrite (set_text_single _ T). auto.
Qed.

Lemma run_deck_of_strategy_witness :
  exists body asked,
    PowerPointNetworkingAgent.run (Examples.constant_llm "") "May 2026"
                                  "B2B Fintech" Examples.spaced_headers []
    = (Ok (title_slide "Networking Strategy" "B2B Fintech"
             (PowerPointNetworkingAgent.region
                (PowerPointNetworkingAgent.parse_strategy
                   Examples.spaced_headers))
             "May 2026"
           :: body
           ++ [closing_slide ("B2B Fintech" ++ " Networking Strategy")
                             "May 2026"]),
       [] ++ asked) /\
    Forall2 (fun section s =>
               exists bullets,
                 s = layout_title_and_content
                       [paragraph_text
                          (PowerPointNetworkingAgent.number section ++ ". "
                             ++ PowerPointNetworkingAgent.title section)]
                       (map paragraph_text bullets) /\
                 List.length bullets = 3 /\
                 (List.length
                    (bullets_of (PowerPointNetworkingAgent.content section))
                  = 3 ->
                  bullets
                  = bullets_of (PowerPointNetworkingAgent.content section)))
            (PowerPointNetworkingAgent.sections
               (PowerPointNetworkingAgent.parse_strategy
                  Examples.spaced_headers))
            body.
Proof.
  apply (run_deck_of_strategy (Examples.constant_llm "") "May 2026"
                              "B2B Fintech" Examples.spaced_headers []).
  intros h p. exists "". reflexivity.
Defined.

End StrategyRun.

(* ===================================================================== *)
(** * The token filter of the bot's log *)
(* ===================================================================== *)


Section TokenFacts.
Import Py Re Spec TokenFilter.

Lemma digits_then_intro (ds : string) (t : ascii) (tl : string) :
  all isdigit ds = true -> token_char t = true ->
  forall seen, (seen = false -> ds <> "") ->
    digits_then seen (ds ++ ":" ++ String t tl)%string = true.
Proof.
  intros A T. induction ds as [|c ds IH]; intros seen N.
  - destruct seen; [|now specialize (N eq_refl)]. simpl. exact T.
  - simpl in A. apply andb_true_iff in A as [Dc A].
    cbn [append digits_then]. rewrite Dc. apply (IH A). discriminate.
Qed.

Lemma digits_then_inv :
  forall r seen,
    digits_then seen r = true ->
    exists ds t tl,
      r = (ds ++ ":" ++ String t tl)%string /\ all isdigit ds = true /\
      (seen = false -> ds <> "") /\ token_char t = true.
Proof.
  induction r as [|c r IH]; intros seen H; [discriminate|].
  cbn [digits_then] in H. destruct (isdigit c) eqn:Dc.
  - apply IH in H as (ds & t & tl & -> & A & _ & T).
    exists (String c ds), t, tl. simpl. rewrite Dc, A.
    repeat split; auto. discriminate.
  - destruct seen; [|discriminate]. cbn [andb] in H.
    destruct (Ascii.eqb_spec c ":") as [->|]; [|discriminate].
    destruct r as [|t tl]; [discriminate|].
    exists "", t, tl. repeat split; auto. discriminate.
Qed.

Lemma digits_then_before_b (Y Y' : string) :
  forall u seen,
    digits_then seen (u ++ String "b" Y)%string
    = digits_then seen (u ++ String "b" Y')%string.
Proof.
  induction u as [|c u IH]; intros seen.
  - cbn [append digits_then]. now destruct seen.
  - cbn [append digits_then]. rewrite IH.
    destruct (isdigit c); [reflexivity|].
    destruct (seen && Ascii.eqb c ":")%bool; [|reflexivity].
    now destruct u.
Qed.

(** Whether a token starts before a "b" does not depend on what follows
    the "b". *)
Lemma token_at_before_b (w : string) (Y Y' : string) :
  w <> "" ->
  token_at (w ++ String "b" Y)%string = token_at (w ++ String "b" Y')%string.
Proof.
  intros N. unfold token_at.
  destruct w as [|c1 [|c2 [|c3 u]]]; [contradiction| | |].
  - cbn [append startswith]. cbn. now rewrite !andb_false_r.
  - cbn [append startswith]. cbn. now rewrite !andb_false_r.
  - cbn [append startswith slice_from].
    now rewrite (digits_then_before_b Y Y').
Qed.

(** What the token pattern matches. *)
Lemma token_match (c c' : cursor) (g : groups) :
  matches token_pattern c [] c' g ->
  token_at (rest c) = true /\ pos c < pos c'.
Proof.
  unfold token_pattern, plus, digit. intros M.
  apply matches_cat_inv in M as (c1 & g1 & M1 & M).
  apply matches_lit_inv in M1 as [E1 ->]. apply eat_spans in E1 as [E1 P1].
  apply matches_cat_inv in M as (c2 & g2 & M2 & M).
  apply matches_rep_class in M2 as (ds & [E2 P2] & A2 & -> & L2).
  apply matches_cat_inv in M as (c3 & g3 & M3 & M).
  apply matches_lit_inv in M3 as [E3 ->]. apply eat_spans in E3 as [E3 P3].
  apply matches_rep_class in M as (ts & [E4 P4] & A4 & -> & L4).
  simpl in P1, P3. split; [|lia].
  destruct ts as [|t ts]; [simpl in L4; lia|].
  simpl in A4. apply andb_true_iff in A4 as [T _].
  rewrite E1, E2, E3. unfold token_at.
  cbn [append startswith slice_from]. rewrite !Ascii.eqb_refl. cbn [andb].
  rewrite E4. cbn [append].
  apply (digits_then_intro ds t _ A2 T).
  intros _ ->. simpl in L2. lia.
Qed.

(** Where a token starts, the matcher answers. *)
Lemma token_run (c : cursor) (ma : bool) :
  token_at (rest c) = true ->
  Re.run token_pattern c [] (accept ma (pos c)) <> None.
Proof.
  unfold token_at. intros H. apply andb_true_iff in H as [S D].
  apply startswith_inv in S as [r S]. rewrite S in D.
  cbn [append slice_from] in D.
  apply digits_then_inv in D as (ds & t & tl & -> & A & N & T).
  destruct c as [p pv s]. cbn [rest pos] in *. subst s.
  eapply run_complete.
  - unfold token_pattern, plus, digit.
    eapply M_Cat;
      [eapply M_Lit;
       apply (eat_intro "bot" (ds ++ ":" ++ String t tl) p pv)|].
    eapply M_Cat.
    + apply (matches_rep_class_intro true isdigit ds 1 _
               (":" ++ String t tl)%string A).
      * destruct ds; [now specialize (N eq_refl) | simpl; lia].
      * reflexivity.
    + eapply M_Cat.
      * eapply M_Lit. cbn [pos prev].
        apply (eat_intro ":" (String t tl)).
      * apply (matches_rep_class_intro true token_char (String t "") 1 _ tl).
        -- simpl. now rewrite T.
        -- simpl; lia.
        -- reflexivity.
  - unfold accept. cbn [pos String.length].
    destruct ma; cbn [andb]; [|discriminate].
    match goal with
    | |- context [(?a =? ?b)%nat] => destruct (Nat.eqb_spec a b)
    end; [lia | discriminate].
Qed.

(** No token starts inside the replacement, whatever follows it. *)
Lemma replacement_clean (a2 R2 X : string) :
  "bot***TOKEN_HIDDEN***" = (a2 ++ R2)%string -> R2 <> "" ->
  token_at (R2 ++ X)%string = false.
Proof.
  intros E N.
  repeat (destruct a2 as [|? a2];
          [simpl in E; subst R2; reflexivity
          |simpl in E; injection E as _ E]).
  destruct a2; [|discriminate]. simpl in E. congruence.
Qed.

Lemma hide_clean :
  forall fuel ma c,
    String.length (rest c) < fuel ->
    no_token (sub_from fuel token_pattern "bot***TOKEN_HIDDEN***" ma c).
Proof.
  induction fuel as [|fuel IH]; intros ma c L; [lia|].
  cbn [sub_from]. unfold scan_at.
  pose proof (scan_trace token_pattern (rest c) ma (pos c) (prev c)) as T.
  destruct (scan token_pattern ma (pos c) (prev c) (rest c)) as [m|].
  - destruct T as (w & s' & Er & St & Run & Skip).
    pose proof Run as Run'. apply run_sound in Run' as (c1 & g1 & M & Ac).
    apply accept_inv in Ac as [[= Et _] _]. rewrite Et.
    pose proof (token_match _ _ _ M) as [Tk Lt]. cbn [rest pos] in Tk, Lt.
    destruct (matches_spans _ _ _ _ _ M) as (mt & Em & Pm).
    cbn [rest pos] in Em, Pm.
    assert (Gap : slice_to (m_start m - pos c) (rest c) = w).
    { rewrite St, Er.
      replace (pos c + String.length w - pos c) with (String.length w)
        by lia.
      apply slice_to_append. }
    rewrite Gap.
    assert (Lf : String.length (rest c1) < fuel).
    { rewrite Er, Em, !length_append in L. lia. }
    specialize (IH (m_end m =? m_start m)%nat c1 Lf).
    set (X := sub_from fuel token_pattern "bot***TOKEN_HIDDEN***"
                       (m_end m =? m_start m)%nat c1) in *.
    assert (Sb : exists s1, s' = String "b" s1).
    { unfold token_at in Tk. apply andb_true_iff in Tk as [S _].
      apply startswith_inv in S as [r S]. rewrite S. now exists ("ot" ++ r)%string. }
    destruct Sb as [s1 Es].
    intros a b E.
    apply append_split in E as [(w2 & Ew & ->) | (a2 & _ & E)].
    + destruct w2 as [|x w2].
      * cbn [append]. reflexivity.
      * change ("bot***TOKEN_HIDDEN***" ++ X)%string
          with (String "b" ("ot***TOKEN_HIDDEN***" ++ X))%string.
        rewrite (token_at_before_b (String x w2) _ s1) by discriminate.
        rewrite <- Es.
        destruct (token_at (String x w2 ++ s')%string) eqn:Tw;
          [|reflexivity].
        exfalso.
        apply (token_run
                 (Cursor (pos c + String.length a) (prev_after (prev c) a)
                         (String x w2 ++ s')%string)
                 (ma && is_empty a) Tw).
        apply (Skip a (String x w2) Ew). discriminate.
    + apply append_split in E as [(R2 & Ea & ->) | (a3 & _ & E)].
      * destruct R2 as [|x R2]; [apply (IH "" X eq_refl)|].
        apply (replacement_clean a2 (String x R2) X Ea). discriminate.
      * apply (IH a3 b E).
  - intros w s' E.
    destruct (token_at s') eqn:Tw; [|reflexivity]. exfalso.
    apply (token_run
             (Cursor (pos c + String.length w) (prev_after (prev c) w) s')
             (ma && is_empty w) Tw).
    apply (T w s' E).
Qed.

Lemma hide_clean_search (s : string) :
  search token_pattern (hide s) = None.
Proof.
  destruct (search token_pattern (hide s)) as [m|] eqn:E; [|reflexivity].
  exfalso. apply search_sound in E as (w & s' & Eh & _ & _ & M).
  apply token_match in M as [Tk _]. cbn [rest] in Tk.
  assert (C : no_token (hide s)).
  { unfold hide, sub. apply hide_clean. cbn [rest start_of]. lia. }
  rewrite (C w s' Eh) in Tk. discriminate.
Qed.

(** X20.  The filter leaves no token.  In a text that went through the
    substitution of [TokenFilter] the pattern of the bot token has no match
    any more; the substitution changes nothing in a text that it has
    already been through, nor in a text without "bot". *)
Theorem hide_leaves_no_token (s : string) :
  search token_pattern (hide s) = None /\
  hide (hide s) = hide s /\
  (contains "bot" s = false -> hide s = s).
Proof.
  pose proof (hide_clean_search s) as N.
  split; [exact N|]. split.
  - unfold hide at 1. now apply sub_none.
  - intros C. unfold hide. apply sub_none.
    destruct (search token_pattern s) as [m|] eqn:E; [|reflexivity].
    unfold token_pattern in E. apply search_literal in E. congruence.
Qed.

Lemma hide_leaves_no_token_witness :
  contains "bot" "HTTP Request: GET /status 200" = false /\
  hide "HTTP Request: GET /status 200" = "HTTP Request: GET /status 200".
Proof.
  split; [reflexivity|].
  apply (proj2 (proj2 (hide_leaves_no_token
                         "HTTP Request: GET /status 200"))).
  reflexivity.
Defined.

Lemma hide_arg_clean (a : arg) : clean_arg (hide_arg a).
Proof. destruct a; cbn; [apply hide_clean_search | exact I]. Qed.

Lemma hide_arg_idem (a : arg) : hide_arg (hide_arg a) = hide_arg a.
Proof.
  destruct a; cbn [hide_arg]; [|reflexivity].
  f_equal. unfold hide at 1. apply sub_none. apply hide_clean_search.
Qed.

(** X21.  What [filter] does to a record.  It never drops a record.  When the
    message is a [str], the record leaves the filter clean: the pattern of
    the bot token has no match in its message nor in any [str] among its
    arguments.  The arguments that are no [str] are left as they are, and
    arguments given as a mapping leave as the tuple of the keys of the
    mapping, so that the values are gone.  A record that has been through
    the filter is left as it is by the filter.  When the message is no
    [str], the record is left as it is, the [str] among its arguments
    included. *)
Theorem filter_hides_tokens (record : LogRecord) :
  fst (filter record) = true /\
  (forall m, msg record = Some m ->
     clean_record (snd (filter record)) /\
     msg (snd (filter record)) = Some (hide m)) /\
  (forall m l, msg record = Some m -> args record = Tuple l ->
     exists l',
       args (snd (filter record)) = Tuple l' /\
       Forall2 (fun a a' =>
                  match a with
                  | Str s => a' = Str (hide s)
                  | NotStr n => a' = NotStr n
                  end) l l') /\
  (forall m kv items, msg record = Some m ->
     args record = Mapping (kv :: items) ->
     exists keys,
       args (snd (filter record)) = Tuple keys /\
       List.length keys = S (List.length items) /\
       Forall2 (fun item key =>
                  match fst item with
                  | Str s => key = Str (hide s)
                  | NotStr n => key = NotStr n
                  end) (kv :: items) keys) /\
  snd (filter (snd (filter record))) = snd (filter record) /\
  (msg record = None -> snd (filter record) = record).
Proof.
  assert (Fm : forall l : list arg, Forall clean_arg (map hide_arg l)).
  { intros l. apply Forall_map. apply Forall_forall. intros a _.
    apply hide_arg_clean. }
  assert (F2 : forall l : list arg,
             Forall2 (fun a a' =>
                        match a with
                        | Str s => a' = Str (hide s)
                        | NotStr n => a' = NotStr n
                        end) l (map hide_arg l)).
  { induction l as [|a l IH]; cbn [map]; constructor; [|exact IH].
    destruct a; reflexivity. }
  assert (Im : forall l : list arg,
             map hide_arg (map hide_arg l) = map hide_arg l).
  { intros l. rewrite map_map. apply map_ext. apply hide_arg_idem. }
  destruct record as [[m|] a]; unfold filter; cbn [msg args fst snd].
  - split; [reflexivity|]. split; [|split; [|split; [|split]]].
    + intros m' [= <-]. split; [|reflexivity].
      split; cbn [msg args]; [apply hide_clean_search|].
      destruct a as [|[|x l]|[|kv items]]; cbn [has_args iterate];
        try exact I; try constructor; try apply Fm; apply hide_arg_clean.
    + intros m' l [= <-] ->.
      destruct l as [|x l]; cbn [has_args iterate].
      * exists []. split; [reflexivity | constructor].
      * eexists. split; [reflexivity | apply F2].
    + intros m' kv items [= <-] ->. cbn [has_args iterate].
      eexists. split; [reflexivity|]. split.
      * now rewrite !length_map.
      * generalize (kv :: items). intros l.
        induction l as [|[k v] l IH]; cbn [map fst]; constructor;
          [|exact IH].
        destruct k; reflexivity.
    + assert (Hh : hide (hide m) = hide m).
      { unfold hide at 1. apply sub_none. apply hide_clean_search. }
      rewrite Hh.
      destruct a as [|[|x l]|[|kv items]]; cbn [has_args iterate map];
        try reflexivity.
      * now rewrite hide_arg_idem, Im.
      * cbn [fst]. now rewrite hide_arg_idem, Im.
    + discriminate.
  - split; [reflexivity|]. split; [discriminate|].
    split; [discriminate|]. split; [discriminate|]. split; reflexivity.
Qed.

Lemma filter_hides_tokens_witness :
  clean_record
    (snd (filter (mkRecord (Some "GET /bot123:abc/getMe")
                           (Mapping [(Str "url", Str "bot123:abc")])))) /\
  msg (snd (filter (mkRecord (Some "GET /bot123:abc/getMe")
                             (Mapping [(Str "url", Str "bot123:abc")]))))
  = Some (hide "GET /bot123:abc/getMe").
Proof.
  apply (proj1 (proj2 (filter_hides_tokens
                         (mkRecord (Some "GET /bot123:abc/getMe")
                                   (Mapping [(Str "url",
                                              Str "bot123:abc")]))))
               "GET /bot123:abc/getMe").
  reflexivity.
Defined.

End TokenFacts.
